(** * ENSAM cloud platform: execution engine and auto-allocation analyzer

    A shallow embedding of the parts of the backend that decide how a job is
    allocated, supervised and reported:

    - [src/services/script_analyzer.py]  (module [ScriptAnalyzer])
    - [src/core/config.py]               (module [Config])
    - [src/models.py]                    (module [Models])
    - [src/schemas.py]                   (module [Schemas])
    - [src/services/executor.py]         (module [Executor])
    - [src/api/routes/jobs.py]           (module [JobsRoutes])
    - [src/api/routes/admin.py]          (module [AdminRoutes])
    - [src/api/routes/websocket.py]      (module [WebSocketRoutes])

    Python values are modelled in module [Py].  A [str] is a [string] whose
    characters are code points below 256, a [dict] with string keys is a
    [gmap], a [set] is a [gset], a [datetime] is a count of microseconds,
    and float arithmetic is read over the rationals.  Code that can raise
    returns a [result]; the supervisor, which assigns attributes of a job
    and commits them while other coroutines run, is written in a state
    monad over the session's object, the [jobs] table and the executor's
    tables.

    Calls into the Python standard library whose results the code only
    consumes ([re] with the analyzer's patterns, [json], [str] of a dict or
    of a number) are the fields of the class [PyLib], so that every theorem
    holds for whatever those functions return.  The search for the
    [CUSTOM_CONFIG] marker, on which the resource limits depend, is
    embedded as a function.  Module [Examples] gives one concrete library,
    used to run the definitions on concrete inputs.

    The definitions come first; the statements of module [Spec] follow the
    words of the specification; the theorems come last. *)

From Stdlib Require Import ZArith QArith Qminmax String Ascii List Bool Lia Lqa.
From stdpp Require Import gmap strings list fin_maps pretty.
Import ListNotations.

#[local] Set Warnings "-register-all".

(* ===================================================================== *)
(** ** Python values and the builtins the code relies on *)
(* ===================================================================== *)

Module Py.

(** Exceptions that the modelled code can meet, each with the text that
    [str(e)] gives. *)
Inductive exn : Type :=
| TypeError (message : string)
| KeyError (message : string)
| OSError (message : string)
| ImageNotFound (message : string)
| ContainerError (message : string)
| NotFound (message : string)
| Exception_ (message : string)
| CancelledError.

Definition exn_str (e : exn) : string :=
  match e with
  | TypeError m | KeyError m | OSError m | ImageNotFound m
  | ContainerError m | NotFound m | Exception_ m => m
  | CancelledError => ""
  end.

(** A computation either returns or raises. *)
Inductive result (A : Type) : Type :=
| Ok (a : A)
| Raise (e : exn).
Arguments Ok {A} a.
Arguments Raise {A} e.

Definition bind {A B : Type} (c : result A) (k : A -> result B) : result B :=
  match c with
  | Ok a => k a
  | Raise e => Raise e
  end.

(** A Python [float]: a finite value (the rational it denotes), an infinity
    or NaN.  [json.loads] produces all three kinds. *)
Inductive pyfloat : Type :=
| Finite (q : Q)
| Infinite (negative : bool)
| NaN.

(** The values a decoded JSON document or a request body can hold. *)
Inductive pyval : Type :=
| PNone
| PBool (b : bool)
| PInt (z : Z)
| PFloat (x : pyfloat)
| PStr (s : string)
| PList (l : list pyval)
| PDict (d : list (string * pyval)).

(** A Python [dict] with string keys. *)
Abbreviation dict := (gmap string pyval).

(** Numeric reading of a value: [bool] is a subclass of [int]. *)
Definition py_num (v : pyval) : option pyfloat :=
  match v with
  | PBool b => Some (Finite (if b then 1 else 0))
  | PInt z => Some (Finite (inject_Z z))
  | PFloat x => Some x
  | _ => None
  end.

Definition Qlt_bool (x y : Q) : bool := negb (Qle_bool y x).

(** [x < y] on floats: every comparison with NaN is false. *)
Definition float_lt (x y : pyfloat) : bool :=
  match x, y with
  | NaN, _ | _, NaN => false
  | Finite a, Finite b => Qlt_bool a b
  | Finite _, Infinite neg => negb neg
  | Infinite neg, Finite _ => neg
  | Infinite n1, Infinite n2 => n1 && negb n2
  end.

(** [type(v).__name__] *)
Definition type_name (v : pyval) : string :=
  match v with
  | PNone => "NoneType"
  | PBool _ => "bool"
  | PInt _ => "int"
  | PFloat _ => "float"
  | PStr _ => "str"
  | PList _ => "list"
  | PDict _ => "dict"
  end.

Definition not_supported (op : string) (a b : pyval) : exn :=
  TypeError ("'" +:+ op +:+ "' not supported between instances of '"
               +:+ type_name a +:+ "' and '" +:+ type_name b +:+ "'").

(** [a < b] and [a > b].  In the modelled code one operand is always a
    number, so a non-numeric operand makes the comparison raise
    [TypeError]. *)
Definition py_lt (a b : pyval) : result bool :=
  match py_num a, py_num b with
  | Some x, Some y => Ok (float_lt x y)
  | _, _ => Raise (not_supported "<" a b)
  end.

Definition py_gt (a b : pyval) : result bool :=
  match py_num a, py_num b with
  | Some x, Some y => Ok (float_lt y x)
  | _, _ => Raise (not_supported ">" a b)
  end.

(** [min(a, b)]: keeps [a] unless [b < a]. *)
Definition py_min (a b : pyval) : result pyval :=
  bind (py_lt b a) (fun lt => Ok (if lt then b else a)).

(** [max(a, b)]: keeps [a] unless [b > a]. *)
Definition py_max (a b : pyval) : result pyval :=
  bind (py_gt b a) (fun gt => Ok (if gt then b else a)).

(** The finite rational a value denotes, if any. *)
Definition py_real (v : pyval) : option Q :=
  match py_num v with
  | Some (Finite q) => Some q
  | _ => None
  end.

(** [lo <= v <= hi] for a numeric value. *)
Definition py_between (lo hi : Z) (v : pyval) : Prop :=
  match py_real v with
  | Some q => (inject_Z lo <= q /\ q <= inject_Z hi)%Q
  | None => False
  end.

(** Truthiness of a [str] and of an optional [str]. *)
Definition str_truthy (s : string) : bool :=
  match s with "" => false | _ => true end.

Definition opt_str_truthy (o : option string) : bool :=
  match o with Some s => str_truthy s | None => false end.

(** [str.isspace] on the code points below 256 (a character of [string] is
    one such code point): tab to carriage return, the four separators
    0x1c-0x1f, space, NEL and NBSP. *)
Definition py_isspace (c : ascii) : bool :=
  let n := nat_of_ascii c in
  (Nat.leb 9 n && Nat.leb n 13) || (Nat.leb 28 n && Nat.leb n 32)
  || Nat.eqb n 133 || Nat.eqb n 160.

Definition newline : ascii := ascii_of_nat 10.

Fixpoint lstrip (s : string) : string :=
  match s with
  | "" => ""
  | String c s' => if py_isspace c then lstrip s' else s
  end.

Fixpoint rstrip (s : string) : string :=
  match s with
  | "" => ""
  | String c s' =>
      match rstrip s' with
      | "" => if py_isspace c then "" else String c ""
      | r => String c r
      end
  end.

Definition strip (s : string) : string := rstrip (lstrip s).

(** [f.readlines()] on text already read with universal newlines: the
    lines, each keeping its terminating newline. *)
Fixpoint readlines (s : string) : list string :=
  match s with
  | "" => []
  | String c s' =>
      if Ascii.eqb c newline then String c "" :: readlines s'
      else match readlines s' with
           | [] => [String c ""]
           | l :: ls => String c l :: ls
           end
  end.

(** [s.split('\n')]. *)
Fixpoint split_lines (s : string) : list string :=
  match s with
  | "" => [""]
  | String c s' =>
      if Ascii.eqb c newline then "" :: split_lines s'
      else match split_lines s' with
           | [] => [String c ""]
           | l :: ls => String c l :: ls
           end
  end.

(** [sep.join(parts)]. *)
Fixpoint join (sep : string) (parts : list string) : string :=
  match parts with
  | [] => ""
  | [p] => p
  | p :: ps => p +:+ sep +:+ join sep ps
  end.

(** [needle in haystack] for strings. *)
Fixpoint is_prefix (p s : string) : bool :=
  match p, s with
  | "", _ => true
  | String a p', String b s' => Ascii.eqb a b && is_prefix p' s'
  | _, _ => false
  end.

(** The rest of [s] after the prefix [p], when [s] starts with [p]. *)
Fixpoint after_prefix (p s : string) : option string :=
  match p, s with
  | "", _ => Some s
  | String a p', String b s' =>
      if Ascii.eqb a b then after_prefix p' s' else None
  | _, _ => None
  end.

Fixpoint contains (needle haystack : string) : bool :=
  is_prefix needle haystack
  || match haystack with
     | "" => false
     | String _ h' => contains needle h'
     end.

(** [s.lower()] on the letters A to Z, which is all that a test for a
    lower-case ASCII word in the result depends on. *)
Definition lower_char (c : ascii) : ascii :=
  let n := nat_of_ascii c in
  if Nat.leb 65 n && Nat.leb n 90 then ascii_of_nat (n + 32) else c.

Fixpoint lower (s : string) : string :=
  match s with
  | "" => ""
  | String c s' => String (lower_char c) (lower s')
  end.

(** The double quote character, for JSON texts. *)
Definition dq : string := String (ascii_of_nat 34) "".

(** The functions of the Python standard library whose results the code
    consumes without constraining them. *)
Class PyLib := {
  (** [re.findall(pattern, text, re.MULTILINE)] for a one-group pattern *)
  re_findall_multiline : string -> string -> list string;
  (** [bool(re.search(pattern, text, re.IGNORECASE))] *)
  re_search_ignorecase : string -> string -> bool;
  (** [json.dumps(d)] *)
  json_dumps : dict -> string;
  (** [json.loads(text)] for a text that starts with an opening brace:
      the decoded object, or [None] when it raises [JSONDecodeError] *)
  json_loads : string -> option dict;
  (** [str(d)] as an f-string interpolates it *)
  dict_str : dict -> string;
  (** [str(v)] for a number, as an f-string interpolates it *)
  num_str : pyval -> string;
}.

(** [s.endswith(suffix)] *)
Definition endswith (suffix s : string) : bool :=
  Nat.leb (String.length suffix) (String.length s)
  && String.eqb
       (substring (String.length s - String.length suffix)
                  (String.length suffix) s)
       suffix.

(** The slice [l[-n:]]: the last [n] items for a positive [n]; for
    [n = 0] the start index is [-0 = 0], so the slice is the whole list;
    for a negative [n] it is [l[|n|:]]. *)
Definition last_items {A : Type} (n : Z) (l : list A) : list A :=
  if (0 <? n)%Z then drop (length l - Z.to_nat n) l
  else drop (Z.to_nat (- n)) l.

(** [a // b] on integers: floor division, [ZeroDivisionError] for a zero
    divisor. *)
Definition floordiv (a b : Z) : result Z :=
  if (b =? 0)%Z then Raise (Exception_ "integer division or modulo by zero")
  else Ok (a / b)%Z.

End Py.

Module PyNotations.
Notation "'let*' x := c 'in' k" := (Py.bind c (fun x => k))
  (at level 10, x name, c at level 100, k at level 200).
End PyNotations.

Import Py PyNotations.

(* ===================================================================== *)
(** ** src/core/config.py *)
(* ===================================================================== *)

Module Config.

Definition DOCKER_IMAGE_CPU : string := "python:3.11-slim".
Definition DOCKER_IMAGE_GPU : string := "tensorflow/tensorflow:2.15.0-gpu".
Definition LOGS_DIR : string := "./data/logs".

(** [Settings.RESOURCE_PROFILES], with its default value. *)
Definition RESOURCE_PROFILES : gmap string dict :=
  <["small" := <["cpu_shares" := PInt 512]>
               (<["memory_mb" := PInt 512]> (<["timeout" := PInt 60]> ∅))]>
 (<["medium" := <["cpu_shares" := PInt 1024]>
               (<["memory_mb" := PInt 2048]> (<["timeout" := PInt 300]> ∅))]>
 (<["large" := <["cpu_shares" := PInt 2048]>
               (<["memory_mb" := PInt 4096]> (<["timeout" := PInt 900]> ∅))]>
 (<["gpu" := <["cpu_shares" := PInt 2048]>
               (<["memory_mb" := PInt 6144]>
               (<["timeout" := PInt 1800]> (<["gpu" := PBool true]> ∅)))]>
  ∅))).

End Config.

(* ===================================================================== *)
(** ** src/models.py *)
(* ===================================================================== *)

Module Models.

Inductive JobStatus : Type :=
| PENDING | QUEUED | RUNNING | SUCCESS | FAILED | CANCELLED | TIMEOUT.

(** [JobStatus.X.value] *)
Definition value (s : JobStatus) : string :=
  match s with
  | PENDING => "pending"
  | QUEUED => "queued"
  | RUNNING => "running"
  | SUCCESS => "success"
  | FAILED => "failed"
  | CANCELLED => "cancelled"
  | TIMEOUT => "timeout"
  end.

#[export] Instance JobStatus_eq_dec : EqDecision JobStatus.
Proof. solve_decision. Defined.

(** A [datetime] is a count of microseconds; [timedelta.total_seconds()]
    turns a difference of two of them into seconds. *)
Definition datetime := Z.
Definition total_seconds (delta : Z) : Q := delta # 1000000.

(** A row of the [jobs] table. *)
Record Job : Type := {
  id : Z;
  user_id : Z;
  script_name : string;
  script_content : option string;
  status : JobStatus;
  execution_mode : string;
  resource_profile : string;
  timeout_seconds : pyval;
  container_id : option string;
  created_at : option datetime;
  started_at : option datetime;
  finished_at : option datetime;
  queued_at : option datetime;
  duration_seconds : option Q;
  queue_time_seconds : option Q;
  gpu_used : bool;
  exit_code : option Z;
  logs_location : option string;
  results_location : option string;
  error_message : option string;
  auto_allocated : bool;
  analysis_reasoning : option string;
}.

(** Attribute assignments [job.x = v]. *)
Definition set_status (v : JobStatus) (j : Job) : Job :=
  let '(Build_Job a b c d _ f g h i k l m n o p q r s t u w x) := j in
  Build_Job a b c d v f g h i k l m n o p q r s t u w x.
Definition set_execution_mode (v : string) (j : Job) : Job :=
  let '(Build_Job a b c d e _ g h i k l m n o p q r s t u w x) := j in
  Build_Job a b c d e v g h i k l m n o p q r s t u w x.
Definition set_container_id (v : option string) (j : Job) : Job :=
  let '(Build_Job a b c d e f g h _ k l m n o p q r s t u w x) := j in
  Build_Job a b c d e f g h v k l m n o p q r s t u w x.
Definition set_started_at (v : option datetime) (j : Job) : Job :=
  let '(Build_Job a b c d e f g h i k _ m n o p q r s t u w x) := j in
  Build_Job a b c d e f g h i k v m n o p q r s t u w x.
Definition set_finished_at (v : option datetime) (j : Job) : Job :=
  let '(Build_Job a b c d e f g h i k l _ n o p q r s t u w x) := j in
  Build_Job a b c d e f g h i k l v n o p q r s t u w x.
Definition set_queued_at (v : option datetime) (j : Job) : Job :=
  let '(Build_Job a b c d e f g h i k l m _ o p q r s t u w x) := j in
  Build_Job a b c d e f g h i k l m v o p q r s t u w x.
Definition set_duration_seconds (v : option Q) (j : Job) : Job :=
  let '(Build_Job a b c d e f g h i k l m n _ p q r s t u w x) := j in
  Build_Job a b c d e f g h i k l m n v p q r s t u w x.
Definition set_queue_time_seconds (v : option Q) (j : Job) : Job :=
  let '(Build_Job a b c d e f g h i k l m n o _ q r s t u w x) := j in
  Build_Job a b c d e f g h i k l m n o v q r s t u w x.
Definition set_gpu_used (v : bool) (j : Job) : Job :=
  let '(Build_Job a b c d e f g h i k l m n o p _ r s t u w x) := j in
  Build_Job a b c d e f g h i k l m n o p v r s t u w x.
Definition set_exit_code (v : option Z) (j : Job) : Job :=
  let '(Build_Job a b c d e f g h i k l m n o p q _ s t u w x) := j in
  Build_Job a b c d e f g h i k l m n o p q v s t u w x.
Definition set_logs_location (v : option string) (j : Job) : Job :=
  let '(Build_Job a b c d e f g h i k l m n o p q r _ t u w x) := j in
  Build_Job a b c d e f g h i k l m n o p q r v t u w x.
Definition set_error_message (v : option string) (j : Job) : Job :=
  let '(Build_Job a b c d e f g h i k l m n o p q r s t _ w x) := j in
  Build_Job a b c d e f g h i k l m n o p q r s t v w x.
Definition set_analysis_reasoning (v : option string) (j : Job) : Job :=
  let '(Build_Job a b c d e f g h i k l m n o p q r s t u w _) := j in
  Build_Job a b c d e f g h i k l m n o p q r s t u w v.

(** [Job.is_running] *)
Definition is_running (j : Job) : bool :=
  bool_decide (status j ∈ [RUNNING; QUEUED]).

(** [Job.is_finished] *)
Definition is_finished (j : Job) : bool :=
  bool_decide (status j ∈ [SUCCESS; FAILED; CANCELLED; TIMEOUT]).

(** [Job.is_cancellable] *)
Definition is_cancellable (j : Job) : bool :=
  bool_decide (status j ∈ [PENDING; QUEUED; RUNNING]).

End Models.

(* ===================================================================== *)
(** ** src/schemas.py *)
(* ===================================================================== *)

Module Schemas.

Inductive ExecutionModeEnum : Type := CPU | GPU | AUTO.

Definition mode_value (m : ExecutionModeEnum) : string :=
  match m with CPU => "cpu" | GPU => "gpu" | AUTO => "auto" end.

Inductive ResourceProfileEnum : Type :=
| P_SMALL | P_MEDIUM | P_LARGE | P_GPU | P_AUTO.

Definition profile_value (p : ResourceProfileEnum) : string :=
  match p with
  | P_SMALL => "small"
  | P_MEDIUM => "medium"
  | P_LARGE => "large"
  | P_GPU => "gpu"
  | P_AUTO => "auto"
  end.

(** [JobSubmitRequest].  Validation ([code] non-empty, [timeout] between
    10 and 3600) is the predicate [valid] below. *)
Record JobSubmitRequest : Type := {
  code : string;
  script_name : string;
  execution_mode : ExecutionModeEnum;
  resource_profile : ResourceProfileEnum;
  timeout : Z;
  gpu_enabled : bool;
  custom_config : option dict;
}.

Definition valid (r : JobSubmitRequest) : Prop :=
  code r <> "" /\ (10 <= timeout r <= 3600)%Z
  /\ (String.length (script_name r) <= 255)%nat.

End Schemas.

(* ===================================================================== *)
(** ** src/services/script_analyzer.py *)
(* ===================================================================== *)

Module ScriptAnalyzer.

(** Result of script analysis. *)
Record ScriptAnalysis : Type := {
  recommended_profile : string;
  execution_mode : string;
  detected_libraries : list string;
  gpu_indicators : list string;
  memory_indicators : list string;
  compute_indicators : list string;
  confidence : Q;
  reasoning : string;
}.

(** The module-level tables, in source order. *)
Definition GPU_LIBRARIES : list (string * string) :=
  [ ("torch", "PyTorch deep learning");
    ("tensorflow", "TensorFlow deep learning");
    ("keras", "Keras neural networks");
    ("cupy", "CUDA-accelerated NumPy");
    ("cudf", "CUDA DataFrame");
    ("cuml", "CUDA Machine Learning");
    ("pycuda", "Python CUDA bindings");
    ("numba", "JIT compiler (may use GPU)");
    ("jax", "JAX accelerated computing");
    ("mxnet", "MXNet deep learning");
    ("paddle", "PaddlePaddle deep learning");
    ("onnxruntime", "ONNX Runtime (may use GPU)") ].

Definition MEMORY_INTENSIVE_LIBRARIES : list (string * string) :=
  [ ("pandas", "DataFrame operations");
    ("numpy", "Numerical computing");
    ("scipy", "Scientific computing");
    ("sklearn", "Machine Learning");
    ("scikit-learn", "Machine Learning");
    ("xgboost", "Gradient Boosting");
    ("lightgbm", "Light Gradient Boosting");
    ("catboost", "CatBoost");
    ("dask", "Parallel computing");
    ("polars", "Fast DataFrame");
    ("vaex", "Out-of-core DataFrames");
    ("modin", "Parallel Pandas");
    ("opencv", "Computer Vision");
    ("cv2", "OpenCV");
    ("PIL", "Image Processing");
    ("pillow", "Image Processing");
    ("matplotlib", "Plotting (memory for figures)");
    ("seaborn", "Statistical visualization");
    ("plotly", "Interactive plots") ].

Definition COMPUTE_INTENSIVE_PATTERNS : list (string * string) :=
  [ ("\.fit\s*\(", "Model training detected");
    ("\.train\s*\(", "Training loop detected");
    ("for\s+epoch\s+in", "Epoch loop detected");
    ("for\s+\w+\s+in\s+range\s*\(\s*\d{4,}", "Large iteration loop");
    ("while\s+True", "Infinite loop pattern");
    ("\.cuda\s*\(", "CUDA tensor transfer");
    ("\.to\s*\(\s*[\'" +:+ dq +:+ "]cuda", "CUDA device transfer");
    ("torch\.device\s*\(\s*[\'" +:+ dq +:+ "]cuda", "CUDA device creation");
    ("with\s+tf\.device.*GPU", "TensorFlow GPU context");
    ("model\.compile", "Keras model compilation");
    ("DataLoader", "PyTorch DataLoader");
    ("tf\.data\.Dataset", "TensorFlow Dataset");
    ("\.backward\s*\(", "Backpropagation");
    ("optimizer\.step", "Optimizer step");
    ("\.predict\s*\(", "Model prediction");
    ("\.transform\s*\(", "Data transformation");
    ("multiprocessing", "Multiprocessing");
    ("ThreadPoolExecutor", "Thread pool");
    ("ProcessPoolExecutor", "Process pool") ].

Definition GPU_USAGE_PATTERNS : list (string * string) :=
  [ ("\.cuda\s*\(", "CUDA transfer");
    ("\.to\s*\(\s*[\'" +:+ dq +:+ "]cuda", "To CUDA device");
    ("torch\.cuda", "PyTorch CUDA");
    ("tf\.config.*GPU", "TensorFlow GPU config");
    ("with\s+tf\.device.*GPU", "TensorFlow GPU device");
    ("gpu_options", "GPU options");
    ("CUDA_VISIBLE_DEVICES", "CUDA environment");
    ("cupy\.", "CuPy operations");
    ("@cuda\.jit", "Numba CUDA JIT");
    ("device\s*=\s*[\'" +:+ dq +:+ "]cuda", "CUDA device assignment") ].

(** [key in table] and [table[key]] for the literal dicts above. *)
Fixpoint table_get (table : list (string * string)) (key : string)
  : option string :=
  match table with
  | [] => None
  | (k, v) :: rest => if String.eqb k key then Some v else table_get rest key
  end.

Definition table_mem (table : list (string * string)) (key : string) : bool :=
  match table_get table key with Some _ => true | None => false end.

Definition table_getitem (table : list (string * string)) (key : string)
  : result string :=
  match table_get table key with
  | Some v => Ok v
  | None => Raise (KeyError ("'" +:+ key +:+ "'"))
  end.

(** [list(set(l))]: the distinct elements, in the set's own order. *)
Definition list_set (l : list string) : list string :=
  elements (list_to_set l : gset string).

Section WithLib.
Context `{lib : PyLib}.

(** [ScriptAnalyzer._detect_libraries] *)
Definition _detect_libraries (script : string) : list string :=
  let import_patterns :=
    [ "^import\s+(\w+)"; "^from\s+(\w+)"; "^import\s+(\w+)\s+as" ] in
  let detected :=
    fold_left (fun detected pattern =>
                 (detected ++ re_findall_multiline pattern script))
              import_patterns [] in
  let detected :=
    fold_left (fun detected lib =>
                 if contains (lib +:+ ".") script
                    || contains (lib +:+ "(") script
                 then if bool_decide (lib ∈ detected) then detected
                      else (detected ++ [lib])
                 else detected)
              (map fst GPU_LIBRARIES ++ map fst MEMORY_INTENSIVE_LIBRARIES)
              detected in
  list_set detected.

(** [ScriptAnalyzer._detect_gpu_usage] *)
Definition _detect_gpu_usage (script : string) (libraries : list string)
  : result (list string) :=
  let* indicators :=
    fold_left (fun acc lib =>
                 let* indicators := acc in
                 if table_mem GPU_LIBRARIES lib
                 then let* descr := table_getitem GPU_LIBRARIES lib in
                      Ok (indicators
                            ++ ["Library: " +:+ lib +:+ " (" +:+ descr +:+ ")"])
                 else Ok indicators)
              libraries (Ok []) in
  let indicators :=
    fold_left (fun indicators '(pattern, description) =>
                 if re_search_ignorecase pattern script
                 then (indicators ++ ["Pattern: " +:+ description])
                 else indicators)
              GPU_USAGE_PATTERNS indicators in
  Ok (list_set indicators).

(** [ScriptAnalyzer._detect_memory_usage] *)
Definition _detect_memory_usage (libraries : list string)
  : result (list string) :=
  fold_left (fun acc lib =>
               let* indicators := acc in
               if table_mem MEMORY_INTENSIVE_LIBRARIES lib
               then let* descr :=
                      table_getitem MEMORY_INTENSIVE_LIBRARIES lib in
                    Ok (indicators ++ [lib +:+ " (" +:+ descr +:+ ")"])
               else Ok indicators)
            libraries (Ok []).

(** [ScriptAnalyzer._detect_compute_patterns] *)
Definition _detect_compute_patterns (script : string) : list string :=
  list_set
    (fold_left (fun indicators '(pattern, description) =>
                  if re_search_ignorecase pattern script
                  then (indicators ++ [description])
                  else indicators)
               COMPUTE_INTENSIVE_PATTERNS []).

End WithLib.

(** The float arithmetic of the confidence is read over the rationals. *)
Definition q_of_nat (n : nat) : Q := inject_Z (Z.of_nat n).

(** [ScriptAnalyzer._determine_profile]:
    [(profile, execution_mode, confidence, reasoning)] *)
Definition _determine_profile
    (libraries gpu_indicators memory_indicators compute_indicators
       : list string)
  : string * string * Q * string :=
  let reasoning_parts : list string := [] in
  let gpu_score := (length gpu_indicators * 3)%nat in
  let memory_score := (length memory_indicators * 2)%nat in
  let compute_score := (length compute_indicators * 2)%nat in
  let total_score := (gpu_score + memory_score + compute_score)%nat in
  let '(execution_mode, reasoning_parts) :=
    if (3 <=? gpu_score)%nat
    then ("gpu",
          (reasoning_parts
             ++ ["GPU recommended (" +:+ pretty (length gpu_indicators)
                   +:+ " GPU indicators)"]))
    else ("cpu", reasoning_parts) in
  let '(profile, confidence, reasoning_parts) :=
    if (3 <=? gpu_score)%nat then
      ("gpu", Qmin (9#10) ((5#10) + q_of_nat gpu_score * (1#10)),
       (reasoning_parts
          ++ ["Using GPU profile for deep learning workload"]))
    else if (8 <=? total_score)%nat then
      ("large", Qmin (85#100) ((5#10) + q_of_nat total_score * (5#100)),
       (reasoning_parts
          ++ ["Heavy computation detected - using large profile"]))
    else if (4 <=? total_score)%nat then
      ("medium", Qmin (8#10) ((5#10) + q_of_nat total_score * (5#100)),
       (reasoning_parts
          ++ ["Moderate resource needs - using medium profile"]))
    else if (2 <=? memory_score)%nat then
      ("medium", 7#10,
       (reasoning_parts ++ ["Memory-intensive libraries detected"]))
    else
      ("small", 8#10,
       (reasoning_parts ++ ["Simple script - using small profile"])) in
  let reasoning_parts :=
    match libraries with
    | [] => reasoning_parts
    | _ =>
        let lib_names := take 5 libraries in
        let lib_names :=
          if (5 <? length libraries)%nat
          then (lib_names
                  ++ ["...and " +:+ pretty (length libraries - 5)%nat
                        +:+ " more"])
          else lib_names in
        (reasoning_parts ++ ["Detected: " +:+ join ", " lib_names])
    end in
  let reasoning := join ". " reasoning_parts in
  (profile, execution_mode, confidence, reasoning).

Section WithLib.
Context `{lib : PyLib}.

(** [ScriptAnalyzer.analyze], for an analyzer built with [gpu_available] *)
Definition analyze (gpu_available : bool) (script_content : string)
  : result ScriptAnalysis :=
  if negb (str_truthy script_content)
     || negb (str_truthy (strip script_content))
  then Ok {| recommended_profile := "small";
             execution_mode := "cpu";
             detected_libraries := [];
             gpu_indicators := [];
             memory_indicators := [];
             compute_indicators := [];
             confidence := 1;
             reasoning := "Empty or minimal script - using small profile" |}
  else
    let detected_libs := _detect_libraries script_content in
    let* gpu_indicators := _detect_gpu_usage script_content detected_libs in
    let* memory_indicators := _detect_memory_usage detected_libs in
    let compute_indicators := _detect_compute_patterns script_content in
    let '(profile, mode, confidence, reasoning) :=
      _determine_profile detected_libs gpu_indicators memory_indicators
                         compute_indicators in
    let '(profile, mode, reasoning) :=
      if String.eqb mode "gpu" && negb gpu_available
      then ((if String.eqb profile "gpu" then "large" else profile),
            "cpu",
            reasoning +:+ " (GPU not available, using CPU fallback)")
      else (profile, mode, reasoning) in
    Ok {| recommended_profile := profile;
          execution_mode := mode;
          detected_libraries := detected_libs;
          gpu_indicators := gpu_indicators;
          memory_indicators := memory_indicators;
          compute_indicators := compute_indicators;
          confidence := confidence;
          reasoning := reasoning |}.

(** [analyze_script] *)
Definition analyze_script (script_content : string) (gpu_available : bool)
  : result ScriptAnalysis :=
  analyze gpu_available script_content.

(** [get_auto_profile] *)
Definition get_auto_profile (script_content : string) (gpu_available : bool)
  : result (string * string) :=
  let* analysis := analyze_script script_content gpu_available in
  Ok (recommended_profile analysis, execution_mode analysis).

End WithLib.

End ScriptAnalyzer.

(* ===================================================================== *)
(** ** src/services/executor.py *)
(* ===================================================================== *)

Module Executor.

Import Models.

(** *** Resource limits *)

(** The lazy group of [CUSTOM_CONFIG:({.*?})]: from just after the opening
    brace, the shortest run of characters other than a newline that ends at
    a closing brace, that brace included. *)
Fixpoint lazy_until_brace (s : string) : option string :=
  match s with
  | "" => None
  | String c s' =>
      if Ascii.eqb c "}"%char then Some "}"
      else if Ascii.eqb c newline then None
      else option_map (String c) (lazy_until_brace s')
  end.

(** The pattern tried at the start of [s]: the text of group 1. *)
Definition match_custom_config_here (s : string) : option string :=
  match after_prefix "CUSTOM_CONFIG:{" s with
  | Some rest => option_map (String "{"%char) (lazy_until_brace rest)
  | None => None
  end.

(** [re.search(r'CUSTOM_CONFIG:({.*?})', s)]: group 1 of the leftmost
    match. *)
Fixpoint search_custom_config (s : string) : option string :=
  match match_custom_config_here s with
  | Some payload => Some payload
  | None =>
      match s with
      | "" => None
      | String _ s' => search_custom_config s'
      end
  end.

(** [max(lo, min(v, hi))] *)
Definition clamp (lo hi : Z) (v : pyval) : result pyval :=
  let* m := py_min v (PInt hi) in
  py_max (PInt lo) m.

(** [if key in custom_config: limits[key] = max(lo, min(custom_config[key], hi))] *)
Definition override (custom_config : dict) (key : string) (lo hi : Z)
    (limits : dict) : result dict :=
  match custom_config !! key with
  | Some v => let* c := clamp lo hi v in Ok (<[key := c]> limits)
  | None => Ok limits
  end.

Section WithLib.
Context `{lib : PyLib}.

(** [DockerExecutor.get_resource_limits].  Inside the [try], every
    subscript is guarded by [in], so the handler is reached only from
    [json.loads], before any limit is assigned; a [TypeError] from
    [min] or [max] is not handled and leaves the function. *)
Definition get_resource_limits (profile : string) (job : option Job)
  : result dict :=
  let profiles := Config.RESOURCE_PROFILES in
  let profile :=
    if bool_decide (profile ∈ dom profiles) then profile else "medium" in
  let* limits :=
    match profiles !! profile with
    | Some l => Ok l
    | None => Raise (KeyError ("'" +:+ profile +:+ "'"))
    end in
  match job with
  | Some job =>
      if opt_str_truthy (analysis_reasoning job) then
        match search_custom_config
                (default "" (analysis_reasoning job)) with
        | Some payload =>
            match json_loads payload with
            | Some custom_config =>
                let* limits :=
                  override custom_config "memory_mb" 256 8192 limits in
                let* limits :=
                  override custom_config "cpu_shares" 256 4096 limits in
                let* limits :=
                  override custom_config "timeout" 10 3600 limits in
                Ok limits
            | None => Ok limits
            end
        | None => Ok limits
        end
      else Ok limits
  | None => Ok limits
  end.

End WithLib.

(** *** Container configuration *)

(** The entries of the container configuration that depend on the job;
    the others are constants. *)
Record ContainerConfig : Type := {
  image : string;
  name : string;
  cpu_shares : pyval;
  memory_mb : pyval;
  device_requests : bool;
}.

Section WithLib.
Context `{lib : PyLib}.

(** [DockerExecutor.build_container_config] *)
Definition build_container_config (gpu_available : bool) (job : Job)
  : result ContainerConfig :=
  let* limits := get_resource_limits (resource_profile job) (Some job) in
  let use_gpu :=
    String.eqb (execution_mode job) "gpu" && gpu_available in
  Ok {| image := if use_gpu then Config.DOCKER_IMAGE_GPU
                 else Config.DOCKER_IMAGE_CPU;
        name := "ensam-job-" +:+ pretty (id job);
        cpu_shares := default (PInt 1024) (limits !! "cpu_shares");
        memory_mb := default (PInt 2048) (limits !! "memory_mb");
        device_requests := use_gpu |}.

End WithLib.

(** *** The supervisor *)

(** What one run of the supervisor reads and writes: the [Job] object of
    its database session, the [jobs] table, the executor's table of
    running containers and the log files under [LOGS_DIR], by job id.
    [commit] writes the session's object to its row.  (The session writes
    the columns assigned since the object was loaded.  Before each commit
    that follows a sleep the supervisor assigns [status], [finished_at] and
    [duration_seconds], which are the columns that the cancel route of
    [jobs.py] changes, so after an interleaving with that route the row is
    the object.) *)
Record State : Type := {
  session_job : Job;
  db : gmap Z Job;
  running_containers : gmap Z string;
  log_files : gmap Z string;
}.

Definition set_session_job (v : Job) (st : State) : State :=
  {| session_job := v; db := db st;
     running_containers := running_containers st;
     log_files := log_files st |}.
Definition set_db (v : gmap Z Job) (st : State) : State :=
  {| session_job := session_job st; db := v;
     running_containers := running_containers st;
     log_files := log_files st |}.
Definition set_running_containers (v : gmap Z string) (st : State) : State :=
  {| session_job := session_job st; db := db st;
     running_containers := v; log_files := log_files st |}.
Definition set_log_files (v : gmap Z string) (st : State) : State :=
  {| session_job := session_job st; db := db st;
     running_containers := running_containers st; log_files := v |}.
Definition set_shared (v : gmap Z Job * gmap Z string) (st : State) : State :=
  {| session_job := session_job st; db := v.1;
     running_containers := v.2; log_files := log_files st |}.

(** A supervisor step: it returns or raises, in a new state; [None] when
    the observations of the container ran out before the step ended. *)
Definition M (A : Type) : Type := State -> option (result A * State).

Definition ret {A : Type} (a : A) : M A := fun st => Some (Ok a, st).
Definition raise {A : Type} (e : exn) : M A := fun st => Some (Raise e, st).
Definition lift {A : Type} (r : result A) : M A := fun st => Some (r, st).
Definition bindM {A B : Type} (c : M A) (k : A -> M B) : M B :=
  fun st =>
    match c st with
    | Some (Ok a, st') => k a st'
    | Some (Raise e, st') => Some (Raise e, st')
    | None => None
    end.
Definition get_job : M Job := fun st => Some (Ok (session_job st), st).
Definition assign (f : Job -> Job) : M unit :=
  fun st => Some (Ok tt, set_session_job (f (session_job st)) st).
Definition commit : M unit :=
  fun st =>
    Some (Ok tt, set_db (<[id (session_job st) := session_job st]> (db st)) st).
Definition raise_if (o : option exn) : M unit :=
  match o with Some e => raise e | None => ret tt end.

(** [try: body except Exception as e: handler(e)]; [CancelledError] is not
    an [Exception]. *)
Definition try_except {A : Type} (body : M A) (handler : exn -> M A) : M A :=
  fun st =>
    match body st with
    | Some (Raise CancelledError, st') => Some (Raise CancelledError, st')
    | Some (Raise e, st') => handler e st'
    | other => other
    end.

(** [try: body finally: cleanup] for a cleanup that does not raise. *)
Definition try_finally {A : Type} (body : M A) (cleanup : State -> State)
  : M A :=
  fun st =>
    match body st with
    | Some (r, st') => Some (r, cleanup st')
    | None => None
    end.

Notation "'let!' x := c 'in' k" := (bindM c (fun x => k))
  (at level 10, x name, c at level 100, k at level 200).
Notation "c ;;; k" := (bindM c (fun _ => k))
  (at level 100, k at level 200, right associativity).

(** The dict that [_wait_for_container] returns. *)
Record WaitResult : Type := {
  res_exit_code : Z;
  res_logs : string;
  res_timeout : bool;
  res_cancelled : bool;
}.

(** What other coroutines can act on while the supervisor sleeps: the
    [jobs] table and the executor's table of running containers. *)
Definition shared : Type := gmap Z Job * gmap Z string.

(** [await asyncio.sleep(..)]: the sleep ends after other coroutines have
    run, or the supervisor's own task is cancelled and [CancelledError] is
    raised at the [await]. *)
Inductive sleep_outcome : Type :=
| Slept (others : shared -> shared)
| SleepCancelled.

(** One turn of the polling loop: what [container.reload()] finds (the
    container's status and exit code, or an exception), the seconds elapsed
    since the loop began, and how the sleep ends. *)
Record poll : Type := {
  reload : result (string * Z);
  elapsed : Q;
  sleep : sleep_outcome;
}.

(** Everything outside the process that one run of [execute_job] observes. *)
Record World : Type := {
  client_available : bool;          (* [self.client is not None] *)
  gpu_available : bool;             (* [self.gpu_available] *)
  prepare_exn : option exn;         (* [prepare_job_directory], first call *)
  prepare_again_exn : option exn;   (* the same, second call *)
  run_first : result string;        (* [containers.run]: the container id *)
  pull_exn : option exn;            (* [images.pull] *)
  run_after_pull : result string;
  run_cpu_fallback : result string;
  wait_trace : list poll;
  stop_exn : option exn;            (* [container.stop(timeout=5)] *)
  container_logs : result string;   (* [container.logs()] at the end *)
  streamed_logs : string;           (* [log_buffer], joined *)
  write_logs_exn : option exn;      (* [logs_path.write_text] *)
  simulate_sleep : sleep_outcome;   (* [asyncio.sleep(2)] when simulating *)
  now_started : datetime;
  now_finished : datetime;
}.

Definition initial_result : WaitResult :=
  {| res_exit_code := -1; res_logs := ""; res_timeout := false;
     res_cancelled := false |}.

Definition with_exit_code (v : Z) (r : WaitResult) : WaitResult :=
  {| res_exit_code := v; res_logs := res_logs r;
     res_timeout := res_timeout r; res_cancelled := res_cancelled r |}.
Definition with_logs (v : string) (r : WaitResult) : WaitResult :=
  {| res_exit_code := res_exit_code r; res_logs := v;
     res_timeout := res_timeout r; res_cancelled := res_cancelled r |}.
Definition with_timeout (v : bool) (r : WaitResult) : WaitResult :=
  {| res_exit_code := res_exit_code r; res_logs := res_logs r;
     res_timeout := v; res_cancelled := res_cancelled r |}.
Definition with_cancelled (v : bool) (r : WaitResult) : WaitResult :=
  {| res_exit_code := res_exit_code r; res_logs := res_logs r;
     res_timeout := res_timeout r; res_cancelled := v |}.

(** The [while True] loop of [_wait_for_container] with its
    [except asyncio.CancelledError] clause. *)
Fixpoint wait_loop (w : World) (timeout : pyval) (trace : list poll)
    (table : shared) : option (result WaitResult * shared) :=
  match trace with
  | [] => None
  | p :: rest =>
      match reload p with
      | Raise e => Some (Raise e, table)
      | Ok (status, code) =>
          if String.eqb status "exited" then
            Some (Ok (with_exit_code code initial_result), table)
          else
            match py_gt (PFloat (Finite (elapsed p))) timeout with
            | Raise e => Some (Raise e, table)
            | Ok true =>
                match stop_exn w with
                | Some e => Some (Raise e, table)
                | None =>
                    Some (Ok (with_timeout true initial_result), table)
                end
            | Ok false =>
                match sleep p with
                | Slept others => wait_loop w timeout rest (others table)
                | SleepCancelled =>
                    match stop_exn w with
                    | Some e => Some (Raise e, table)
                    | None =>
                        Some (Ok (with_cancelled true initial_result),
                              table)
                    end
                end
            end
      end
  end.

(** [DockerExecutor._wait_for_container]; the [finally] clause fills in
    the logs. *)
Definition _wait_for_container (w : World) (timeout : pyval) : M WaitResult :=
  fun st =>
    match wait_loop w timeout (wait_trace w)
                    (db st, running_containers st) with
    | None => None
    | Some (Raise e, table) => Some (Raise e, set_shared table st)
    | Some (Ok r, table) =>
        let logs := match container_logs w with
                    | Ok text => text
                    | Raise _ => streamed_logs w
                    end in
        Some (Ok (with_logs logs r), set_shared table st)
    end.

(** [Path(settings.LOGS_DIR) / str(job.id) / "output.log"] *)
Definition logs_path (job_id : Z) : string :=
  Config.LOGS_DIR +:+ "/" +:+ pretty job_id +:+ "/output.log".

(** [logs_path.write_text(text)] *)
Definition write_logs (w : World) (job_id : Z) (text : string) : M unit :=
  fun st =>
    match write_logs_exn w with
    | Some e => Some (Raise e, st)
    | None => Some (Ok tt, set_log_files (<[job_id := text]> (log_files st)) st)
    end.

(** [job.finished_at = datetime.utcnow()] and, when [job.started_at] is
    set, [job.duration_seconds = (finished_at - started_at).total_seconds()] *)
Definition stamp_finished (now : datetime) (j : Job) : Job :=
  let j := set_finished_at (Some now) j in
  match started_at j with
  | Some started => set_duration_seconds (Some (total_seconds (now - started))) j
  | None => j
  end.

(** The text printed when Docker is not available (emoji left out). *)
Definition simulation_output : string :=
  "Simulation Mode (Docker not available)" +:+ String newline ""
  +:+ "Job completed successfully (simulated)" +:+ String newline "".

(** [DockerExecutor._simulate_execution] *)
Definition _simulate_execution (w : World) : M unit :=
  assign (set_status RUNNING) ;;;
  assign (set_started_at (Some (now_started w))) ;;;
  commit ;;;
  (fun st => match simulate_sleep w with
             | Slept others =>
                 Some (Ok tt,
                       set_shared (others (db st, running_containers st)) st)
             | SleepCancelled => Some (Raise CancelledError, st)
             end) ;;;
  assign (set_status SUCCESS) ;;;
  assign (set_finished_at (Some (now_finished w))) ;;;
  assign (set_duration_seconds (Some 2%Q)) ;;;
  assign (set_exit_code (Some 0%Z)) ;;;
  let! job := get_job in
  write_logs w (id job) simulation_output ;;;
  assign (set_logs_location (Some (logs_path (id job)))) ;;;
  commit.

Section WithLib.
Context `{lib : PyLib}.

(** The [try .. except ImageNotFound .. except Exception] around
    [self.client.containers.run] on the configuration. *)
Definition run_container (w : World) : M string :=
  match run_first w with
  | Ok container => ret container
  | Raise (ImageNotFound _) =>
      raise_if (pull_exn w) ;;;
      lift (run_after_pull w)
  | Raise CancelledError => raise CancelledError
  | Raise e =>
      let! job := get_job in
      if String.eqb (execution_mode job) "gpu"
         && contains "gpu" (lower (exn_str e))
      then
        assign (set_execution_mode "cpu") ;;;
        assign (set_gpu_used false) ;;;
        let! job := get_job in
        let! config := lift (build_container_config (gpu_available w) job) in
        match run_cpu_fallback w with
        | Ok container => ret container
        | Raise cpu_error =>
            raise (Exception_
                     ("Both GPU and CPU execution failed. CPU error: "
                        +:+ exn_str cpu_error))
        end
      else raise e
  end.

(** The final status, from the result of the wait. *)
Definition finalize_status (timeout : pyval) (result : WaitResult)
    (j : Job) : Job :=
  if res_cancelled result then set_status CANCELLED j
  else if res_timeout result then
    set_error_message
      (Some ("Job exceeded timeout of " +:+ num_str timeout +:+ " seconds"))
      (set_status TIMEOUT j)
  else if Z.eqb (res_exit_code result) 0 then set_status SUCCESS j
  else
    set_error_message
      (Some ("Script exited with code " +:+ pretty (res_exit_code result)))
      (set_status FAILED j).

(** [min(job.timeout_seconds, limits.get("timeout", 300))] *)
Definition effective_timeout (job : Job) : result pyval :=
  let* limits := get_resource_limits (resource_profile job) (Some job) in
  py_min (timeout_seconds job) (default (PInt 300) (limits !! "timeout")).

(** The body of the [try] in [execute_job]. *)
Definition execute_job_body (w : World) : M unit :=
  let! job := get_job in
  raise_if (prepare_exn w) ;;;
  assign (set_status RUNNING) ;;;
  assign (set_started_at (Some (now_started w))) ;;;
  assign (fun j => match queued_at j with
                   | Some queued =>
                       set_queue_time_seconds
                         (Some (total_seconds (now_started w - queued))) j
                   | None => j
                   end) ;;;
  commit ;;;
  let! job := get_job in
  let! config := lift (build_container_config (gpu_available w) job) in
  (if String.eqb (execution_mode job) "gpu" && negb (gpu_available w)
   then
     assign (set_execution_mode "cpu") ;;;
     assign (set_gpu_used false) ;;;
     raise_if (prepare_again_exn w) ;;;
     let! job := get_job in
     let! config := lift (build_container_config (gpu_available w) job) in
     ret tt
   else ret tt) ;;;
  let! container := run_container w in
  assign (set_container_id (Some container)) ;;;
  (fun st =>
     Some (Ok tt,
           set_running_containers
             (<[id (session_job st) := container]> (running_containers st))
             st)) ;;;
  commit ;;;
  let! job := get_job in
  let! timeout := lift (effective_timeout job) in
  let! result := _wait_for_container w timeout in
  assign (set_exit_code (Some (res_exit_code result))) ;;;
  assign (stamp_finished (now_finished w)) ;;;
  assign (finalize_status timeout result) ;;;
  let! job := get_job in
  write_logs w (id job) (res_logs result) ;;;
  assign (set_logs_location (Some (logs_path (id job)))) ;;;
  assign (fun j => set_gpu_used
                     (String.eqb (execution_mode j) "gpu"
                      && gpu_available w) j) ;;;
  commit.

(** The two [except] clauses of [execute_job]. *)
Definition execute_job_handler (w : World) (e : exn) : M unit :=
  assign (set_status FAILED) ;;;
  assign (set_error_message
            (Some (match e with
                   | ContainerError _ => exn_str e
                   | _ => "Execution error: " +:+ exn_str e
                   end))) ;;;
  assign (stamp_finished (now_finished w)) ;;;
  commit.

(** [DockerExecutor.execute_job].  [_collect_metrics] catches every
    exception and assigns no attribute of the job; it is left out. *)
Definition execute_job (w : World) : M unit :=
  if negb (client_available w) then _simulate_execution w
  else
    try_finally
      (try_except (execute_job_body w) (execute_job_handler w))
      (fun st =>
         set_running_containers
           (delete (id (session_job st)) (running_containers st)) st).

End WithLib.

(** The outcome of a call on the Docker client. *)
Inductive docker_call : Type :=
| CallOk
| CallNotFound
| CallError.

(** What the calls of [cancel_job] on the Docker client do.  The first
    [kill], [stop] and [remove] are each wrapped in a handler that
    swallows every exception, so their outcomes are not recorded. *)
Record CancelWorld : Type := {
  get_by_name : docker_call;
  get_by_id : docker_call;
  last_get : docker_call;
  last_kill : docker_call;
  last_remove : docker_call;
}.

(** [DockerExecutor.cancel_job]: whether it reports success (or raises),
    and the table of running containers afterwards. *)
Definition cancel_job (cw : CancelWorld) (job_id : Z)
    (containers : gmap Z string) : result bool * gmap Z string :=
  let popped := delete job_id containers in
  let proceed :=
    match get_by_id cw with
    | CallOk => (Ok true, popped)
    | CallNotFound => (Ok true, popped)
    | CallError =>
        match last_get cw, last_kill cw, last_remove cw with
        | CallOk, CallOk, CallOk => (Ok true, popped)
        | CallNotFound, _, _ => (Ok true, popped)
        | CallOk, CallNotFound, _ => (Ok true, popped)
        | CallOk, CallOk, CallNotFound => (Ok true, popped)
        | _, _, _ => (Ok false, popped)
        end
    end in
  match containers !! job_id with
  | Some container_id =>
      if str_truthy container_id then proceed
      else
        match get_by_name cw with
        | CallOk => proceed
        | CallNotFound => (Ok false, containers)
        | CallError => (Raise (Exception_ "docker"), containers)
        end
  | None =>
      match get_by_name cw with
      | CallOk => proceed
      | CallNotFound => (Ok false, containers)
      | CallError => (Raise (Exception_ "docker"), containers)
      end
  end.

(** [DockerExecutor.get_container_logs]; [docker_logs] is what
    [container.logs(tail=tail)] gives once decoded, [None] when a call on
    the client raises. *)
Definition get_container_logs (docker_logs : option string) (job_id : Z)
    (containers : gmap Z string) : option string :=
  match containers !! job_id with
  | Some container_id =>
      if str_truthy container_id then docker_logs else None
  | None => None
  end.

(** [DockerExecutor.get_running_job_ids] (in the order of the map, not in
    the order of insertion). *)
Definition get_running_job_ids (containers : gmap Z string) : list Z :=
  (map_to_list containers).*1.

End Executor.

(* ===================================================================== *)
(** ** src/api/routes/jobs.py *)
(* ===================================================================== *)

Module JobsRoutes.

Import Models.

(** A route returns its response or raises an [HTTPException]. *)
Inductive http (A : Type) : Type :=
| Response (a : A)
| HTTPException (status_code : Z) (detail : string).
Arguments Response {A} a.
Arguments HTTPException {A} status_code detail.

Section WithLib.
Context `{lib : PyLib}.

(** [submit_job]: the [Job] it adds to the table ([new_id] and
    [created] are what the database assigns on insert); a [TypeError]
    from the clamp of a custom timeout leaves the route. *)
Definition submit_job (executor_is_available executor_gpu_available : bool)
    (request : Schemas.JobSubmitRequest) (current_user_id new_id : Z)
    (created : datetime) : result Job :=
  let gpu_available :=
    if executor_is_available then executor_gpu_available else false in
  let* analysis :=
    ScriptAnalyzer.analyze_script (Schemas.code request) gpu_available in
  let auto_allocated := true in
  let analysis_reasoning := ScriptAnalyzer.reasoning analysis in
  let exec_mode := ScriptAnalyzer.execution_mode analysis in
  let '(resource_profile, exec_mode) :=
    if String.eqb (Schemas.profile_value (Schemas.resource_profile request))
                  "auto"
    then (ScriptAnalyzer.recommended_profile analysis, exec_mode)
    else
      let resource_profile :=
        Schemas.profile_value (Schemas.resource_profile request) in
      (resource_profile,
       if String.eqb resource_profile "gpu" then "gpu" else exec_mode) in
  let timeout_seconds := PInt (Schemas.timeout request) in
  let* custom :=
    match Schemas.custom_config request with
    | Some custom_config =>
        if bool_decide (custom_config = ∅)
        then Ok (timeout_seconds, None, analysis_reasoning)
        else
          let* timeout_seconds :=
            match custom_config !! "timeout" with
            | Some v => Executor.clamp 10 3600 v
            | None => Ok timeout_seconds
            end in
          let custom_info := "Custom config: " +:+ dict_str custom_config in
          Ok (timeout_seconds, Some (json_dumps custom_config),
              analysis_reasoning +:+ " | " +:+ custom_info)
    | None => Ok (timeout_seconds, None, analysis_reasoning)
    end in
  let '(timeout_seconds, custom_config_json, analysis_reasoning) :=
    custom in
  let job :=
    {| id := new_id;
       user_id := current_user_id;
       script_name := Schemas.script_name request;
       script_content := Some (Schemas.code request);
       status := PENDING;
       execution_mode := exec_mode;
       resource_profile := resource_profile;
       timeout_seconds := timeout_seconds;
       container_id := None;
       created_at := Some created;
       started_at := None;
       finished_at := None;
       queued_at := None;
       duration_seconds := None;
       queue_time_seconds := None;
       gpu_used := false;
       exit_code := None;
       logs_location := None;
       results_location := None;
       error_message := None;
       auto_allocated := auto_allocated;
       analysis_reasoning := Some analysis_reasoning |} in
  Ok (if opt_str_truthy custom_config_json
      then set_analysis_reasoning
             (Some (analysis_reasoning +:+ " | CUSTOM_CONFIG:"
                      +:+ default "" custom_config_json)) job
      else job).

(** [run_job_background]: the state the supervisor leaves, from the
    table (and the executor's tables) it starts with.  A job that is not
    in the table leaves everything as it is. *)
Definition run_job_background (w : Executor.World) (now_queued : datetime)
    (job_id : Z) (table : gmap Z Job) (containers files : gmap Z string)
  : option (result unit * gmap Z Job * gmap Z string * gmap Z string) :=
  match table !! job_id with
  | None => Some (Ok tt, table, containers, files)
  | Some job =>
      let st :=
        {| Executor.session_job := job; Executor.db := table;
           Executor.running_containers := containers;
           Executor.log_files := files |} in
      let run :=
        Executor.try_except
          (Executor.bindM
             (Executor.assign (set_status QUEUED))
             (fun _ => Executor.bindM
               (Executor.assign (set_queued_at (Some now_queued)))
               (fun _ => Executor.bindM Executor.commit
                 (fun _ => Executor.execute_job w))))
          (fun e =>
             Executor.bindM (Executor.assign (set_status FAILED))
               (fun _ => Executor.bindM
                  (Executor.assign (set_error_message (Some (exn_str e))))
                  (fun _ => Executor.bindM
                     (Executor.assign
                        (set_finished_at (Some (Executor.now_finished w))))
                     (fun _ => Executor.commit)))) in
      match run st with
      | Some (r, st') =>
          Some (r, Executor.db st', Executor.running_containers st',
                Executor.log_files st')
      | None => None
      end
  end.

End WithLib.

(** [JobCancelResponse] *)
Record JobCancelResponse : Type := {
  success : bool;
  message : string;
  job_id : Z;
  response_status : string;
}.

(** The update that [cancel_job] makes to the row, whatever the job's
    status is and whatever [executor.cancel_job] did. *)
Definition mark_cancelled (now : datetime) (job : Job) : Job :=
  Executor.stamp_finished now (set_status CANCELLED job).

(** The route [cancel_job]: the response, the table and the executor's
    running containers afterwards. *)
Definition cancel_job (cw : Executor.CancelWorld) (now : datetime)
    (job_id current_user_id : Z) (current_user_is_admin : bool)
    (table : gmap Z Job) (containers : gmap Z string)
  : http JobCancelResponse * gmap Z Job * gmap Z string :=
  match table !! job_id with
  | None => (HTTPException 404 "Job not found", table, containers)
  | Some job =>
      if negb (Z.eqb (user_id job) current_user_id)
         && negb current_user_is_admin
      then (HTTPException 403 "You don't have permission to cancel this job",
            table, containers)
      else
        (* both branches of the status check only log *)
        let containers :=
          snd (Executor.cancel_job cw (id job) containers) in
        let job := mark_cancelled now job in
        (Response {| success := true;
                     message := "Job cancelled successfully";
                     job_id := job_id;
                     response_status := value (status job) |},
         <[id job := job]> table, containers)
  end.

(** [upload_and_run]: the [Job] it adds to the table, with the column
    defaults of [models.py].  [content] is the uploaded file decoded as
    UTF-8, [None] when the decoding fails.  None of the form values is
    validated. *)
Definition upload_and_run (filename : string) (content : option string)
    (execution_mode resource_profile : string) (timeout : Z)
    (current_user_id new_id : Z) (created : datetime) : http Job :=
  if negb (endswith ".py" filename)
  then HTTPException 400 "Only .py files are allowed"
  else
    match content with
    | None => HTTPException 400 "File must be UTF-8 encoded"
    | Some code =>
        Response
          {| id := new_id;
             user_id := current_user_id;
             script_name := filename;
             script_content := Some code;
             status := PENDING;
             execution_mode := execution_mode;
             resource_profile := resource_profile;
             timeout_seconds := PInt timeout;
             container_id := None;
             created_at := Some created;
             started_at := None;
             finished_at := None;
             queued_at := None;
             duration_seconds := None;
             queue_time_seconds := None;
             gpu_used := false;
             exit_code := None;
             logs_location := None;
             results_location := None;
             error_message := None;
             auto_allocated := false;
             analysis_reasoning := None |}
    end.

(** [JobListResponse] *)
Record JobListResponse : Type := {
  list_jobs : list Job;
  list_total : Z;
  list_page : Z;
  list_per_page : Z;
  list_pages : Z;
}.

(** [get_job_history].  [rows] is the answer of the query (the jobs of
    the current user, filtered by status when asked, most recent first)
    before [offset] and [limit]; [query.count()] is its length.  What the
    database does with a negative offset or limit is not modelled: the
    result is [None] for a page below 1 or a negative page size. *)
Definition get_job_history (page per_page : Z) (rows : list Job)
  : option (result JobListResponse) :=
  if (page <? 1)%Z || (per_page <? 0)%Z then None
  else
    Some
      (let total := Z.of_nat (length rows) in
       let jobs :=
         take (Z.to_nat per_page)
              (drop (Z.to_nat ((page - 1) * per_page)) rows) in
       let* pages := floordiv (total + per_page - 1) per_page in
       Ok {| list_jobs := jobs;
             list_total := total;
             list_page := page;
             list_per_page := per_page;
             list_pages := pages |}).

(** The body of the answer of [get_job_logs]. *)
Record JobLogsResponse : Type := {
  logs_job_id : Z;
  logs_status : string;
  logs : string;
}.

(** [get_job_logs].  [docker_logs] is as in
    [Executor.get_container_logs]; [read_text path] is the text of the
    file at [path], [None] when the file does not exist or cannot be
    read. *)
Definition get_job_logs (job_id tail current_user_id : Z)
    (table : gmap Z Job) (containers : gmap Z string)
    (docker_logs : option string) (read_text : string -> option string)
  : http JobLogsResponse :=
  match table !! job_id with
  | None => HTTPException 404 "Job not found"
  | Some job =>
      if negb (Z.eqb (user_id job) current_user_id)
      then HTTPException 404 "Job not found"
      else
        let logs :=
          if bool_decide (status job ∈ [RUNNING; QUEUED]) then
            match Executor.get_container_logs docker_logs (id job)
                                              containers with
            | Some container_logs =>
                if str_truthy container_logs then container_logs else ""
            | None => ""
            end
          else if opt_str_truthy (logs_location job) then
            match read_text (default "" (logs_location job)) with
            | Some text => join "" (last_items tail (readlines text))
            | None => ""
            end
          else "" in
        Response {| logs_job_id := job_id;
                    logs_status := value (status job);
                    logs := logs |}
  end.

End JobsRoutes.

(* ===================================================================== *)
(** ** src/api/routes/admin.py *)
(* ===================================================================== *)

Module AdminRoutes.

Import Models.

(** [cancel_job_admin], for a caller that passed [require_admin]. *)
Definition cancel_job_admin (cw : Executor.CancelWorld) (now : datetime)
    (job_id : Z) (admin_email : string)
    (table : gmap Z Job) (containers : gmap Z string)
  : JobsRoutes.http string * gmap Z Job * gmap Z string :=
  match table !! job_id with
  | None => (JobsRoutes.HTTPException 404 "Job not found", table, containers)
  | Some job =>
      if negb (is_cancellable job)
      then (JobsRoutes.HTTPException 400
              ("Job cannot be cancelled (status: " +:+ value (status job)
                 +:+ ")"),
            table, containers)
      else
        let containers :=
          snd (Executor.cancel_job cw job_id containers) in
        let job :=
          set_error_message (Some ("Cancelled by admin: " +:+ admin_email))
            (JobsRoutes.mark_cancelled now job) in
        (JobsRoutes.Response ("Job #" +:+ pretty job_id +:+ " cancelled"),
         <[id job := job]> table, containers)
  end.

End AdminRoutes.

(* ===================================================================== *)
(** ** src/api/routes/websocket.py *)
(* ===================================================================== *)

Module WebSocketRoutes.

Import Models.

(** The JSON messages sent on the socket (the [timestamp] entry, which
    every one of them carries, is left out). *)
Inductive ws_message : Type :=
| Connected (job_id : Z) (status : string)
| Log (job_id : Z) (stream message : string) (line_number : option nat)
| Complete (job_id : Z) (status : string)
           (exit_code_and_duration : option (option Z * option Q))
| Info (message : string)
| Error (message : string).

Definition is_terminal (s : JobStatus) : bool :=
  bool_decide (s ∈ [SUCCESS; FAILED; CANCELLED; TIMEOUT]).

(** The body of the loop of [send_existing_logs], for the line at index
    [i]: a line that is blank once stripped is skipped. *)
Definition replay_line (job_id : Z) (numbered : nat * string)
  : option ws_message :=
  let '(i, line) := numbered in
  if str_truthy (strip line)
  then Some (Log job_id "stdout" (rstrip line) (Some (i + 1)%nat))
  else None.

(** [send_existing_logs]: the messages it sends.  [log_file] is the text
    of [LOGS_DIR/<job_id>/output.log], [None] when the file does not exist
    or cannot be read (nothing is sent then). *)
Definition send_existing_logs (log_file : option string) (job_id : Z)
    (start : nat) : list ws_message :=
  match log_file with
  | None => []
  | Some text =>
      let lines := readlines text in
      omap (replay_line job_id)
           (imap (fun k line => ((start + k)%nat, line)) (drop start lines))
  end.

(** What the client does during one turn of the streaming loop. *)
Inductive client_event : Type :=
| NoMessage          (* [receive_text] timed out *)
| CancelAction       (* a JSON object with [action] equal to "cancel" *)
| OtherObject        (* any other JSON object *)
| NotJson            (* [json.loads] failed *)
| NotAnObject (error : string)
                     (* JSON, but [msg.get] raises; [str(e)] is [error] *)
| Disconnect.        (* [WebSocketDisconnect] *)

(** One turn of the streaming loop: the client's event, the job's row as
    read in that turn, and [executor.get_container_logs(job_id, tail=50)]. *)
Record live_turn : Type := {
  client : client_event;
  row : option Job;
  live_logs : option string;
}.

(** The [while True] loop for a job that was not finished at connection:
    the messages sent, and whether the handler has returned. *)
Fixpoint stream_loop (log_file : option string) (job_id : Z)
    (turns : list live_turn) (last_position : nat)
  : list ws_message * bool :=
  match turns with
  | [] => ([], false)
  | t :: rest =>
      let continue (sent : list ws_message) :=
        match row t with
        | None => (sent, true)
        | Some job =>
            if is_terminal (status job) then
              (sent ++ send_existing_logs log_file job_id last_position
                    ++ [Complete job_id (value (status job))
                                 (Some (exit_code job, duration_seconds job))],
               true)
            else
              match live_logs t with
              | Some logs =>
                  if str_truthy logs then
                    let lines := split_lines logs in
                    let new :=
                      omap (fun line =>
                              if str_truthy (strip line)
                              then Some (Log job_id "stdout" line None)
                              else None)
                           (drop last_position lines) in
                    let '(later, closed) :=
                      stream_loop log_file job_id rest (length lines) in
                    (sent ++ new ++ later, closed)
                  else
                    let '(later, closed) :=
                      stream_loop log_file job_id rest last_position in
                    (sent ++ later, closed)
              | None =>
                  let '(later, closed) :=
                    stream_loop log_file job_id rest last_position in
                  (sent ++ later, closed)
              end
        end in
      match client t with
      | NoMessage | OtherObject | NotJson => continue []
      | CancelAction => continue [Info "Cancel request received"]
      | NotAnObject error => ([Error error], true)
      | Disconnect => ([], true)
      end
  end.

(** What the handler did with the socket. *)
Inductive ws_outcome : Type :=
| Closed (code : Z) (reason : string)
| Sent (messages : list ws_message) (returned : bool).

(** [websocket_job_logs], for a subscriber that stays connected.
    [token_user] is [verify_token(token)]. *)
Definition websocket_job_logs (token_user : option Z) (table : gmap Z Job)
    (job_id : Z) (log_file : option string) (turns : list live_turn)
  : ws_outcome :=
  match token_user with
  | None => Closed 4001 "Invalid or expired token"
  | Some uid =>
      if Z.eqb uid 0 then Closed 4001 "Invalid or expired token"
      else
        match table !! job_id with
        | None => Closed 4004 "Job not found"
        | Some job =>
            if negb (Z.eqb (user_id job) uid) then Closed 4004 "Job not found"
            else
              let initial_status := status job in
              let connected := Connected job_id (value initial_status) in
              if is_terminal initial_status then
                Sent ([connected]
                        ++ send_existing_logs log_file job_id 0
                        ++ [Complete job_id (value initial_status) None])
                     true
              else
                let '(sent, returned) :=
                  stream_loop log_file job_id turns 0 in
                Sent (connected :: sent) returned
        end
  end.

(** *** The connection manager

    A [WebSocket] object is known by its identity, a number here;
    [active_connections] maps a job id to the list of its subscribers. *)
Abbreviation WebSocket := nat.
Abbreviation connections := (gmap Z (list WebSocket)).

(** [l.remove(x)] for an [x] that is in [l]: the first occurrence goes. *)
Fixpoint list_remove (x : WebSocket) (l : list WebSocket)
  : list WebSocket :=
  match l with
  | [] => []
  | y :: l' => if Nat.eqb y x then l' else y :: list_remove x l'
  end.

(** [ConnectionManager.connect] *)
Definition connect (websocket : WebSocket) (job_id : Z)
    (active_connections : connections) : connections :=
  <[job_id := default [] (active_connections !! job_id) ++ [websocket]]>
    active_connections.

(** [ConnectionManager.disconnect] *)
Definition disconnect (websocket : WebSocket) (job_id : Z)
    (active_connections : connections) : connections :=
  match active_connections !! job_id with
  | Some subscribers =>
      let subscribers :=
        if bool_decide (websocket ∈ subscribers)
        then list_remove websocket subscribers
        else subscribers in
      match subscribers with
      | [] => delete job_id active_connections
      | _ => <[job_id := subscribers]> active_connections
      end
  | None => active_connections
  end.

(** [ConnectionManager.send_log]: the sockets that received the message,
    in order, and the connections afterwards.  [send_raises ws] tells
    whether [ws.send_json] raises for the socket [ws]; no other coroutine
    changes the connections during the call. *)
Definition send_log (send_raises : WebSocket -> bool) (job_id : Z)
    (active_connections : connections) : list WebSocket * connections :=
  match active_connections !! job_id with
  | None => ([], active_connections)
  | Some subscribers =>
      let disconnected := List.filter send_raises subscribers in
      (List.filter (fun ws => negb (send_raises ws)) subscribers,
       fold_left (fun conns ws => disconnect ws job_id conns)
                 disconnected active_connections)
  end.

End WebSocketRoutes.

(* ===================================================================== *)
(** ** A concrete library for the examples *)
(* ===================================================================== *)

Module Examples.

Import Models.

(** *** JSON texts of flat objects with integer members

    On such a text [flat_loads] returns what [json.loads] returns, and on
    the output of [flat_dumps] it returns the dict that was dumped. *)

Definition json_space (c : ascii) : bool :=
  let n := nat_of_ascii c in
  Nat.eqb n 32 || Nat.eqb n 9 || Nat.eqb n 10 || Nat.eqb n 13.

Fixpoint skip_ws (s : string) : string :=
  match s with
  | String c s' => if json_space c then skip_ws s' else s
  | "" => ""
  end.

Definition digit (c : ascii) : option Z :=
  let n := nat_of_ascii c in
  if Nat.leb 48 n && Nat.leb n 57 then Some (Z.of_nat (n - 48)) else None.

(** The digits at the start of [s], read after the value [acc]. *)
Fixpoint read_digits (s : string) (acc : Z) : Z * string :=
  match s with
  | String c s' =>
      match digit c with
      | Some d => read_digits s' (10 * acc + d)%Z
      | None => (acc, s)
      end
  | "" => (acc, s)
  end.

(** A JSON integer without sign: one digit, or several that do not start
    with a zero. *)
Definition read_nat (s : string) : option (Z * string) :=
  match s with
  | String c s' =>
      match digit c with
      | Some 0%Z =>
          match s' with
          | String c' _ => match digit c' with
                           | Some _ => None
                           | None => Some (0%Z, s')
                           end
          | "" => Some (0%Z, s')
          end
      | Some d => Some (read_digits s' d)
      | None => None
      end
  | "" => None
  end.

Definition read_int (s : string) : option (Z * string) :=
  match s with
  | String "-"%char s' =>
      match read_nat s' with
      | Some (n, rest) => Some ((- n)%Z, rest)
      | None => None
      end
  | _ => read_nat s
  end.

(** The characters up to the closing quote of a string without escapes. *)
Fixpoint read_key (s : string) : option (string * string) :=
  match s with
  | String c s' =>
      if Ascii.eqb c (ascii_of_nat 34) then Some ("", s')
      else if Ascii.eqb c "\"%char then None
      else match read_key s' with
           | Some (k, rest) => Some (String c k, rest)
           | None => None
           end
  | "" => None
  end.

(** The members of the object, from just before a key. *)
Fixpoint read_members (fuel : nat) (s : string) (acc : dict) : option dict :=
  match fuel with
  | O => None
  | S fuel =>
      match skip_ws s with
      | String q s1 =>
          if Ascii.eqb q (ascii_of_nat 34) then
            match read_key s1 with
            | Some (key, s2) =>
                match skip_ws s2 with
                | String ":"%char s3 =>
                    match read_int (skip_ws s3) with
                    | Some (n, s4) =>
                        let acc := <[key := PInt n]> acc in
                        match skip_ws s4 with
                        | String ","%char s5 => read_members fuel s5 acc
                        | String "}"%char s5 =>
                            match skip_ws s5 with
                            | "" => Some acc
                            | _ => None
                            end
                        | _ => None
                        end
                    | None => None
                    end
                | _ => None
                end
            | None => None
            end
          else None
      | "" => None
      end
  end.

Definition flat_loads (text : string) : option dict :=
  match skip_ws text with
  | String "{"%char s1 =>
      match skip_ws s1 with
      | String "}"%char s2 =>
          match skip_ws s2 with "" => Some ∅ | _ => None end
      | _ => read_members (String.length text) s1 ∅
      end
  | _ => None
  end.

Definition int_str (v : pyval) : string :=
  match v with
  | PInt z => pretty z
  | _ => "?"
  end.

(** [json.dumps] of a dict with integer values. *)
Definition flat_dumps (d : dict) : string :=
  "{" +:+ join ", " (map (fun '(k, v) => dq +:+ k +:+ dq +:+ ": " +:+ int_str v)
                         (map_to_list d)) +:+ "}".

(** [str] of a dict with integer values. *)
Definition flat_str (d : dict) : string :=
  "{" +:+ join ", " (map (fun '(k, v) => "'" +:+ k +:+ "': " +:+ int_str v)
                         (map_to_list d)) +:+ "}".

(** The standard library on scripts in which no pattern of the analyzer
    matches (such as the one-line script below), and on JSON texts of flat
    objects with integer members. *)
#[export] Instance plain_lib : PyLib := {|
  re_findall_multiline := fun _ _ => [];
  re_search_ignorecase := fun _ _ => false;
  json_dumps := flat_dumps;
  json_loads := flat_loads;
  dict_str := flat_str;
  num_str := int_str;
|}.

Definition hello_script : string := "print(1)".

Definition seconds (n : Z) : datetime := (n * 1000000)%Z.

(** A request that names the GPU mode and the small profile. *)
Definition gpu_mode_request : Schemas.JobSubmitRequest :=
  {| Schemas.code := hello_script;
     Schemas.script_name := "script.py";
     Schemas.execution_mode := Schemas.GPU;
     Schemas.resource_profile := Schemas.P_SMALL;
     Schemas.timeout := 300;
     Schemas.gpu_enabled := true;
     Schemas.custom_config := None |}.

(** A request for the small profile with the default timeout and the
    given custom configuration. *)
Definition small_request (custom : option dict) : Schemas.JobSubmitRequest :=
  {| Schemas.code := hello_script;
     Schemas.script_name := "script.py";
     Schemas.execution_mode := Schemas.AUTO;
     Schemas.resource_profile := Schemas.P_SMALL;
     Schemas.timeout := 300;
     Schemas.gpu_enabled := false;
     Schemas.custom_config := custom |}.

(** The job that [submit_job] stores for it (user 7, job 1). *)
Definition submitted (custom : option dict) : result Job :=
  JobsRoutes.submit_job true false (small_request custom) 7 1 (seconds 0).

(** The job of a result that is known to be [Ok]. *)
Definition the_job (r : result Job) (otherwise : Job) : Job :=
  match r with Ok j => j | Raise _ => otherwise end.

(** A stored job whose marker carries a payload that is not JSON. *)
Definition broken_marker_job : Job :=
  {| id := 2; user_id := 7; script_name := "script.py";
     script_content := Some hello_script; status := PENDING;
     execution_mode := "cpu"; resource_profile := "large";
     timeout_seconds := PInt 300; container_id := None;
     created_at := Some (seconds 0); started_at := None;
     finished_at := None; queued_at := None; duration_seconds := None;
     queue_time_seconds := None; gpu_used := false; exit_code := None;
     logs_location := None; results_location := None;
     error_message := None; auto_allocated := true;
     analysis_reasoning :=
       Some "Simple script - using small profile | CUSTOM_CONFIG:{oops}" |}.

(** The job stored for a plain request: job 1 of user 7, pending. *)
Definition pending_job : Job := the_job (submitted None) broken_marker_job.

(** The same job after a successful run from second 2 to second 5. *)
Definition finished_job : Job :=
  Executor.stamp_finished (seconds 5)
    (set_exit_code (Some 0%Z)
       (set_status SUCCESS (set_started_at (Some (seconds 2)) pending_job))).

(** The same job while it runs. *)
Definition running_job : Job :=
  set_status RUNNING (set_started_at (Some (seconds 2)) pending_job).

(** A persisted log of three lines, the second one empty. *)
Definition three_line_log : string :=
  "a" +:+ String newline "" +:+ String newline "" +:+ "b"
      +:+ String newline "".

(** The Docker client during a cancel request: the container is found
    and removed. *)
Definition container_found : Executor.CancelWorld :=
  {| Executor.get_by_name := Executor.CallOk;
     Executor.get_by_id := Executor.CallOk;
     Executor.last_get := Executor.CallOk;
     Executor.last_kill := Executor.CallOk;
     Executor.last_remove := Executor.CallOk |}.

(** User 7 posts a cancel request for job 1 at the given time. *)
Definition user_cancels (now : datetime) : Executor.shared -> Executor.shared :=
  fun '(table, containers) =>
    let r := JobsRoutes.cancel_job container_found now 1 7 false
                                   table containers in
    (r.1.2, r.2).

(** A run in which the cancel request arrives during the first sleep of
    the polling loop; the route has killed and removed the container, so
    the next [container.reload()] raises [NotFound]. *)
Definition cancelled_run : Executor.World :=
  {| Executor.client_available := true;
     Executor.gpu_available := false;
     Executor.prepare_exn := None;
     Executor.prepare_again_exn := None;
     Executor.run_first := Ok "c1";
     Executor.pull_exn := None;
     Executor.run_after_pull := Ok "c1";
     Executor.run_cpu_fallback := Ok "c1";
     Executor.wait_trace :=
       [ {| Executor.reload := Ok ("running", 0%Z);
            Executor.elapsed := 0;
            Executor.sleep := Executor.Slept (user_cancels (seconds 3)) |};
         {| Executor.reload := Raise (NotFound "404 Client Error: Not Found");
            Executor.elapsed := 1 # 2;
            Executor.sleep := Executor.Slept (fun sh => sh) |} ];
     Executor.stop_exn := None;
     Executor.container_logs := Raise (NotFound "404 Client Error: Not Found");
     Executor.streamed_logs := "";
     Executor.write_logs_exn := None;
     Executor.simulate_sleep := Executor.Slept (fun sh => sh);
     Executor.now_started := seconds 2;
     Executor.now_finished := seconds 4 |}.

(** The same run when the removal of the container failed: the container
    is still there, killed, with exit code 137. *)
Definition killed_run : Executor.World :=
  {| Executor.client_available := true;
     Executor.gpu_available := false;
     Executor.prepare_exn := None;
     Executor.prepare_again_exn := None;
     Executor.run_first := Ok "c1";
     Executor.pull_exn := None;
     Executor.run_after_pull := Ok "c1";
     Executor.run_cpu_fallback := Ok "c1";
     Executor.wait_trace :=
       [ {| Executor.reload := Ok ("running", 0%Z);
            Executor.elapsed := 0;
            Executor.sleep := Executor.Slept (user_cancels (seconds 3)) |};
         {| Executor.reload := Ok ("exited", 137%Z);
            Executor.elapsed := 1 # 2;
            Executor.sleep := Executor.Slept (fun sh => sh) |} ];
     Executor.stop_exn := None;
     Executor.container_logs := Ok "";
     Executor.streamed_logs := "";
     Executor.write_logs_exn := None;
     Executor.simulate_sleep := Executor.Slept (fun sh => sh);
     Executor.now_started := seconds 2;
     Executor.now_finished := seconds 4 |}.

(** The status of job 1 in the table that a background run leaves. *)
Definition final_status (w : Executor.World) : option JobStatus :=
  match JobsRoutes.run_job_background w (seconds 1) 1 {[1%Z := pending_job]}
                                      ∅ ∅ with
  | Some (_, table, _, _) => option_map status (table !! 1%Z)
  | None => None
  end.

(** The job stored for a request that asks for 100000 MB of memory, and
    the job stored for one that asks for a timeout of 600 seconds. *)
Definition big_memory_job : Job :=
  the_job (submitted (Some {["memory_mb" := PInt 100000]})) broken_marker_job.
Definition long_timeout_job : Job :=
  the_job (submitted (Some {["timeout" := PInt 600]})) broken_marker_job.

(** The analysis of a result that is known to be [Ok]. *)
Definition the_analysis (r : result ScriptAnalyzer.ScriptAnalysis)
  : ScriptAnalyzer.ScriptAnalysis :=
  match r with
  | Ok a => a
  | Raise _ =>
      {| ScriptAnalyzer.recommended_profile := "";
         ScriptAnalyzer.execution_mode := "";
         ScriptAnalyzer.detected_libraries := [];
         ScriptAnalyzer.gpu_indicators := [];
         ScriptAnalyzer.memory_indicators := [];
         ScriptAnalyzer.compute_indicators := [];
         ScriptAnalyzer.confidence := 0;
         ScriptAnalyzer.reasoning := "" |}
  end.

(** The analysis of the one-line script, without a GPU. *)
Definition hello_analysis : ScriptAnalyzer.ScriptAnalysis :=
  the_analysis (ScriptAnalyzer.analyze false hello_script).

(** A script that calls into PyTorch and one that calls into pandas,
    with their analyses when a GPU is available. *)
Definition torch_script : string := "x = torch.zeros(3)".
Definition torch_analysis : ScriptAnalyzer.ScriptAnalysis :=
  the_analysis (ScriptAnalyzer.analyze true torch_script).
Definition pandas_script : string := "df = pandas.DataFrame()".
Definition pandas_analysis : ScriptAnalyzer.ScriptAnalysis :=
  the_analysis (ScriptAnalyzer.analyze true pandas_script).

(** The body of the JSON text of the custom configuration that asks for
    a timeout of 600 seconds. *)
Definition timeout_member : string := dq +:+ "timeout" +:+ dq +:+ ": 600".

(** A job created by the upload of [train.py] with a profile name that
    the configuration does not have and a timeout of zero. *)
Definition uploaded_job : Job :=
  {| id := 3; user_id := 7; script_name := "train.py";
     script_content := Some hello_script; status := PENDING;
     execution_mode := "cpu"; resource_profile := "huge";
     timeout_seconds := PInt 0; container_id := None;
     created_at := Some (seconds 0); started_at := None;
     finished_at := None; queued_at := None; duration_seconds := None;
     queue_time_seconds := None; gpu_used := false; exit_code := None;
     logs_location := None; results_location := None;
     error_message := None; auto_allocated := false;
     analysis_reasoning := None |}.

(** The limits of the medium profile. *)
Definition medium_limits : dict :=
  <["cpu_shares" := PInt 1024]>
    (<["memory_mb" := PInt 2048]> (<["timeout" := PInt 300]> ∅)).

(** The container configuration of the job that asks for 100000 MB. *)
Definition big_memory_config : Executor.ContainerConfig :=
  {| Executor.image := "python:3.11-slim";
     Executor.name := "ensam-job-1";
     Executor.cpu_shares := PInt 512;
     Executor.memory_mb := PInt 8192;
     Executor.device_requests := false |}.

(** The state in which the supervisor starts on a job, and the state in
    which a run leaves it. *)
Definition start_state (job : Job) : Executor.State :=
  {| Executor.session_job := job;
     Executor.db := {[id job := job]};
     Executor.running_containers := ∅;
     Executor.log_files := ∅ |}.

Definition end_state (w : Executor.World) (st : Executor.State)
  : Executor.State :=
  match Executor.execute_job w st with
  | Some (_, st') => st'
  | None => st
  end.

(** A run of a container that never exits: the second poll comes after
    the timeout of 60 seconds. *)
Definition endless_run : Executor.World :=
  {| Executor.client_available := true;
     Executor.gpu_available := false;
     Executor.prepare_exn := None;
     Executor.prepare_again_exn := None;
     Executor.run_first := Ok "c1";
     Executor.pull_exn := None;
     Executor.run_after_pull := Ok "c1";
     Executor.run_cpu_fallback := Ok "c1";
     Executor.wait_trace :=
       [ {| Executor.reload := Ok ("running", 0%Z);
            Executor.elapsed := 0;
            Executor.sleep := Executor.Slept (fun sh => sh) |};
         {| Executor.reload := Ok ("running", 0%Z);
            Executor.elapsed := 61;
            Executor.sleep := Executor.Slept (fun sh => sh) |} ];
     Executor.stop_exn := None;
     Executor.container_logs := Ok "";
     Executor.streamed_logs := "";
     Executor.write_logs_exn := None;
     Executor.simulate_sleep := Executor.Slept (fun sh => sh);
     Executor.now_started := seconds 2;
     Executor.now_finished := seconds 63 |}.

(** The result of the wait in that run, and in the run that is killed. *)
Definition timed_out : Executor.WaitResult :=
  {| Executor.res_exit_code := -1; Executor.res_logs := "";
     Executor.res_timeout := true; Executor.res_cancelled := false |}.
Definition killed : Executor.WaitResult :=
  {| Executor.res_exit_code := 137; Executor.res_logs := "";
     Executor.res_timeout := false; Executor.res_cancelled := false |}.

(** A run whose supervisor task is cancelled during the first sleep. *)
Definition task_cancelled_run : Executor.World :=
  {| Executor.client_available := true;
     Executor.gpu_available := false;
     Executor.prepare_exn := None;
     Executor.prepare_again_exn := None;
     Executor.run_first := Ok "c1";
     Executor.pull_exn := None;
     Executor.run_after_pull := Ok "c1";
     Executor.run_cpu_fallback := Ok "c1";
     Executor.wait_trace :=
       [ {| Executor.reload := Ok ("running", 0%Z);
            Executor.elapsed := 0;
            Executor.sleep := Executor.SleepCancelled |} ];
     Executor.stop_exn := None;
     Executor.container_logs := Ok "";
     Executor.streamed_logs := "";
     Executor.write_logs_exn := None;
     Executor.simulate_sleep := Executor.Slept (fun sh => sh);
     Executor.now_started := seconds 2;
     Executor.now_finished := seconds 3 |}.

(** The table that a background run of job 1 leaves. *)
Definition final_table (w : Executor.World) : gmap Z Job :=
  match JobsRoutes.run_job_background w (seconds 1) 1 {[1%Z := pending_job]}
                                      ∅ ∅ with
  | Some (_, table, _, _) => table
  | None => ∅
  end.
Definition final_containers (w : Executor.World) : gmap Z string :=
  match JobsRoutes.run_job_background w (seconds 1) 1 {[1%Z := pending_job]}
                                      ∅ ∅ with
  | Some (_, _, containers, _) => containers
  | None => ∅
  end.
Definition final_files (w : Executor.World) : gmap Z string :=
  match JobsRoutes.run_job_background w (seconds 1) 1 {[1%Z := pending_job]}
                                      ∅ ∅ with
  | Some (_, _, _, files) => files
  | None => ∅
  end.

(** An admin cancels job 1 while it runs. *)
Definition admin_cancel
  : JobsRoutes.http string * gmap Z Job * gmap Z string :=
  AdminRoutes.cancel_job_admin container_found (seconds 3) 1 "admin@ensam.ma"
    {[1%Z := running_job]} {[1%Z := "c1"]}.

(** Three jobs of one user, most recent first. *)
Definition three_jobs : list Job := [finished_job; running_job; pending_job].

(** The finished job with its log stored at the usual place, and a file
    system that holds the log of three lines there. *)
Definition logged_job : Job :=
  set_logs_location (Some (Executor.logs_path 1)) finished_job.
Definition log_on_disk (path : string) : option string :=
  if String.eqb path (Executor.logs_path 1) then Some three_line_log
  else None.

(** Two subscribers of job 1; the first one has gone away, so that a
    send to it raises. *)
Definition two_subscribers : WebSocketRoutes.connections :=
  {[1%Z := [10%nat; 11%nat]]}.
Definition first_is_gone (ws : WebSocketRoutes.WebSocket) : bool :=
  Nat.eqb ws 10.

(** A subscriber of the pending job 1 who watches it finish. *)
Definition watched_turns : list WebSocketRoutes.live_turn :=
  [ {| WebSocketRoutes.client := WebSocketRoutes.NoMessage;
       WebSocketRoutes.row := Some running_job;
       WebSocketRoutes.live_logs := Some "a" |};
    {| WebSocketRoutes.client := WebSocketRoutes.CancelAction;
       WebSocketRoutes.row := Some finished_job;
       WebSocketRoutes.live_logs := None |} ].
Definition watched_messages : list WebSocketRoutes.ws_message :=
  match WebSocketRoutes.websocket_job_logs (Some 7%Z) {[1%Z := pending_job]}
          1 (Some three_line_log) watched_turns with
  | WebSocketRoutes.Sent messages _ => messages
  | WebSocketRoutes.Closed _ _ => []
  end.

End Examples.

(* ===================================================================== *)
(** ** Definitions that follow the words of the specification *)
(* ===================================================================== *)

Module Spec.

(** Section 4.2: a profile is looked up by name, and an unknown name
    falls back to "medium". *)
Definition resolve (profile_name : string) : option dict :=
  match Config.RESOURCE_PROFILES !! profile_name with
  | Some limits => Some limits
  | None => Config.RESOURCE_PROFILES !! "medium"
  end.

(** Section 4.1, step 5: the ordered decision table, on the three
    scores; it gives the profile and the mode. *)
Definition decision_table (gpu_score memory_score compute_score : nat)
  : string * string :=
  let total := (gpu_score + memory_score + compute_score)%nat in
  if (3 <=? gpu_score)%nat then ("gpu", "gpu")
  else if (8 <=? total)%nat then ("large", "cpu")
  else if (4 <=? total)%nat then ("medium", "cpu")
  else if (2 <=? memory_score)%nat then ("medium", "cpu")
  else ("small", "cpu").

(** Section 4.1, step 6: without a GPU, mode gpu becomes cpu and profile
    gpu becomes large. *)
Definition gpu_fallback (gpu_available : bool) (choice : string * string)
  : string * string :=
  let '(profile, mode) := choice in
  if String.eqb mode "gpu" && negb gpu_available
  then ((if String.eqb profile "gpu" then "large" else profile), "cpu")
  else (profile, mode).

(** The three limits that an override can replace, each with its range. *)
Definition in_ranges (limits : dict) : Prop :=
  (exists v, limits !! "memory_mb" = Some v /\ py_between 256 8192 v)
  /\ (exists v, limits !! "cpu_shares" = Some v /\ py_between 256 4096 v)
  /\ (exists v, limits !! "timeout" = Some v /\ py_between 10 3600 v).

(** The value that the job's stored custom configuration gives to [key]:
    the marker's payload, decoded, looked up at [key]. *)
Definition custom_override `{lib : PyLib} (job : Models.Job) (key : string)
  : option pyval :=
  if opt_str_truthy (Models.analysis_reasoning job) then
    match Executor.search_custom_config
            (default "" (Models.analysis_reasoning job)) with
    | Some payload =>
        match json_loads payload with
        | Some custom_config => custom_config !! key
        | None => None
        end
    | None => None
    end
  else None.

(** The default timeout of the job's profile. *)
Definition profile_timeout (profile_name : string) : option pyval :=
  match resolve profile_name with
  | Some limits => limits !! "timeout"
  | None => None
  end.

(** A line of a persisted log that is not blank. *)
Definition nonblank (line : string) : bool := str_truthy (strip line).

(** The text of a log message, and whether a message is one. *)
Definition log_text (m : WebSocketRoutes.ws_message) : option string :=
  match m with
  | WebSocketRoutes.Log _ _ text _ => Some text
  | _ => None
  end.

Definition is_log (m : WebSocketRoutes.ws_message) : bool :=
  match m with
  | WebSocketRoutes.Log _ _ _ _ => true
  | _ => false
  end.

(** A Hoare triple for a supervisor step that returns. *)
Definition triple {A : Type} (P : Executor.State -> Prop) (c : Executor.M A)
    (Q : A -> Executor.State -> Prop) : Prop :=
  forall st a st', P st -> c st = Some (Ok a, st') -> Q a st'.

(** The supervisor's own task is not cancelled during any sleep of the
    polling loop. *)
Definition never_cancelled (w : Executor.World) : Prop :=
  forall p, In p (Executor.wait_trace w) ->
            Executor.sleep p <> Executor.SleepCancelled.

(** What a run that returns has achieved: the status of the session's
    object is terminal and is the status of the job's row; it is not
    "cancelled" under the condition [no_cancel]. *)
Definition ended (no_cancel : Prop) (st : Executor.State) : Prop :=
  let job := Executor.session_job st in
  Models.is_finished job = true
  /\ Models.status <$> (Executor.db st !! Models.id job)
     = Some (Models.status job)
  /\ (no_cancel -> Models.status job <> Models.CANCELLED).

(** A string made of whitespace only (the empty string included). *)
Definition blank (s : string) : Prop :=
  Forall (fun c => py_isspace c = true) (list_ascii_of_string s).

End Spec.

(* ===================================================================== *)
(** ** Predicates used to state properties of the code *)
(* ===================================================================== *)

Module Props.

Import Models.

(** A step of the supervisor that leaves [f] of the session's job as it
    was, whether the step returns or raises. *)
Definition keeps {A B : Type} (f : Job -> B) (c : Executor.M A) : Prop :=
  forall st r st',
    c st = Some (r, st') ->
    f (Executor.session_job st') = f (Executor.session_job st).

(** Every row of the table is stored under its own id (the primary
    key). *)
Definition well_keyed (table : gmap Z Job) : Prop :=
  forall key job, table !! key = Some job -> id job = key.

(** No job id is mapped to an empty list of subscribers. *)
Definition no_empty_list (conns : WebSocketRoutes.connections) : Prop :=
  forall job_id subscribers,
    conns !! job_id = Some subscribers -> subscribers <> [].

(** A text without a closing brace and without a newline. *)
Fixpoint one_line_without_brace (s : string) : bool :=
  match s with
  | "" => true
  | String c s' =>
      negb (Ascii.eqb c "}"%char) && negb (Ascii.eqb c newline)
      && one_line_without_brace s'
  end.

(** A text without a space. *)
Fixpoint no_space (s : string) : bool :=
  match s with
  | "" => true
  | String c s' => negb (Ascii.eqb c " "%char) && no_space s'
  end.

(** The custom configuration [cfg] of a request comes back from the
    marker that [submit_job] appends to the reasoning [reasoning] of the
    analysis: its JSON text is one object without a closing brace or a
    newline inside, [json.loads] decodes that text to [cfg] again, and
    the readable part of the stored reasoning does not itself contain
    the marker's text. *)
Definition round_trips `{lib : PyLib} (reasoning : string) (cfg : dict)
  : Prop :=
  (exists body, json_dumps cfg = "{" +:+ body +:+ "}"
                /\ one_line_without_brace body = true)
  /\ json_loads (json_dumps cfg) = Some cfg
  /\ contains "CUSTOM_CONFIG:{"
       (reasoning +:+ " | Custom config: " +:+ dict_str cfg) = false.

(** The message that ends a stream. *)
Definition is_complete (m : WebSocketRoutes.ws_message) : bool :=
  match m with
  | WebSocketRoutes.Complete _ _ _ => true
  | _ => false
  end.

(** The jobs on page [page] of the history. *)
Definition page_jobs (page per_page : Z) (rows : list Job) : list Job :=
  match JobsRoutes.get_job_history page per_page rows with
  | Some (Ok response) => JobsRoutes.list_jobs response
  | _ => []
  end.

(** The end of a run is stamped at [now]: [finished_at] is [now] and,
    when [started_at] is set, the duration is their difference. *)
Definition stamped (now : datetime) (job : Job) : Prop :=
  finished_at job = Some now
  /\ forall started,
       started_at job = Some started ->
       duration_seconds job = Some (total_seconds (now - started)).

(** The exit code that goes with a status. *)
Definition code_matches_status (job : Job) : Prop :=
  (status job = SUCCESS -> exit_code job = Some 0%Z)
  /\ (status job = TIMEOUT \/ status job = CANCELLED ->
      exit_code job = Some (-1)%Z).

(** One of the three ways in which the wait for a container ends. *)
Definition wait_outcome (timeout : pyval) (trace : list Executor.poll)
    (r : Executor.WaitResult) : Prop :=
  (Executor.res_timeout r = false /\ Executor.res_cancelled r = false
   /\ exists p, In p trace
                /\ Executor.reload p = Ok ("exited", Executor.res_exit_code r))
  \/ (Executor.res_timeout r = true /\ Executor.res_cancelled r = false
      /\ Executor.res_exit_code r = (-1)%Z
      /\ exists p, In p trace
                   /\ py_gt (PFloat (Finite (Executor.elapsed p))) timeout
                      = Ok true)
  \/ (Executor.res_timeout r = false /\ Executor.res_cancelled r = true
      /\ Executor.res_exit_code r = (-1)%Z
      /\ exists p, In p trace /\ Executor.sleep p = Executor.SleepCancelled).

(** A poll that finds the container still there and not exited, and
    whose sleep ends normally. *)
Definition still_running (p : Executor.poll) : Prop :=
  exists container_status code others,
    Executor.reload p = Ok (container_status, code)
    /\ String.eqb container_status "exited" = false
    /\ Executor.sleep p = Executor.Slept others.

End Props.

(* ===================================================================== *)
(** ** Facts about the Python builtins *)
(* ===================================================================== *)

Module PyFacts.

Lemma Qlt_bool_true (x y : Q) : Qlt_bool x y = true -> (x < y)%Q.
Proof.
  unfold Qlt_bool. intros H. apply negb_true_iff in H.
  apply Qnot_le_lt. intros Hle. apply Qle_bool_iff in Hle. congruence.
Qed.

Lemma Qlt_bool_false (x y : Q) : Qlt_bool x y = false -> (y <= x)%Q.
Proof.
  unfold Qlt_bool. intros H. apply negb_false_iff in H.
  now apply Qle_bool_iff.
Qed.

Lemma between_int (lo hi z : Z) :
  (lo <= z <= hi)%Z -> py_between lo hi (PInt z).
Proof.
  intros [H1 H2]. unfold py_between. simpl.
  rewrite <- !Zle_Qle. auto.
Qed.

(** [max(lo, min(v, hi))], when it returns, returns a number between the
    bounds. *)
Lemma clamp_between (lo hi : Z) (v c : pyval) :
  (lo <= hi)%Z -> Executor.clamp lo hi v = Ok c -> py_between lo hi c.
Proof.
  intros Hlh. unfold Executor.clamp, py_min, py_max, py_lt, py_gt, bind.
  cbn [py_num].
  destruct (py_num v) as [x|] eqn:Hv; [|discriminate].
  destruct (float_lt (Finite (inject_Z hi)) x) eqn:Hhi.
  - (* min is [hi] *)
    cbn [py_num].
    destruct (float_lt (Finite (inject_Z lo)) (Finite (inject_Z hi)));
      intros [= <-]; apply between_int; lia.
  - (* min is [v] *)
    rewrite Hv.
    destruct (float_lt (Finite (inject_Z lo)) x) eqn:Hlo;
      intros [= <-]; [|apply between_int; lia].
    unfold py_between, py_real. rewrite Hv.
    destruct x as [q|neg|]; simpl in *; try discriminate.
    + split; [apply Qlt_le_weak, Qlt_bool_true | apply Qlt_bool_false];
        assumption.
    + destruct neg; discriminate.
Qed.


Lemma rstrip_blank (s : string) : Spec.blank s -> rstrip s = "".
Proof.
  unfold Spec.blank. induction s as [|c s IH]; simpl; [reflexivity|].
  intros H. inversion H as [|? ? Hc Hs]; subst.
  rewrite (IH Hs), Hc. reflexivity.
Qed.

Lemma lstrip_blank (s : string) : Spec.blank s -> lstrip s = "".
Proof.
  unfold Spec.blank. induction s as [|c s IH]; simpl; [reflexivity|].
  intros H. inversion H as [|? ? Hc Hs]; subst.
  rewrite Hc. auto.
Qed.

Lemma strip_blank (s : string) : Spec.blank s -> strip s = "".
Proof. intros H. unfold strip. now rewrite (lstrip_blank s H). Qed.

Lemma rstrip_nonblank (c : ascii) (s : string) :
  py_isspace c = false -> rstrip (String c s) <> "".
Proof. simpl. intros Hc. destruct (rstrip s); [rewrite Hc|]; discriminate. Qed.

(** [s.strip()] is empty exactly when [s] holds whitespace only. *)
Lemma strip_empty_iff (s : string) : strip s = "" <-> Spec.blank s.
Proof.
  split; [|apply strip_blank].
  unfold strip, Spec.blank.
  induction s as [|c s IH]; simpl; [constructor|].
  destruct (py_isspace c) eqn:Hc.
  - intros H. constructor; auto.
  - intros H. exfalso. revert H. change (rstrip (String c s) <> "").
    now apply rstrip_nonblank.
Qed.

End PyFacts.

(* ===================================================================== *)
(** ** Resource limits and the effective timeout *)
(* ===================================================================== *)

Module ExecutorFacts.

Import Models Executor.

(** The four profiles of the table, spelled out. *)
Lemma profiles_lookup (p : string) (l : dict) :
  Config.RESOURCE_PROFILES !! p = Some l ->
  (p = "small" \/ p = "medium" \/ p = "large" \/ p = "gpu")
  /\ Spec.in_ranges l.
Proof.
  unfold Config.RESOURCE_PROFILES. intros H.
  repeat (apply lookup_insert_Some in H as [[<- <-]|[_ H]];
          [split; [tauto|];
           repeat split; eexists; (split; [reflexivity|]);
           apply PyFacts.between_int; lia |]).
  rewrite lookup_empty in H. discriminate.
Qed.

Lemma resolve_total (p : string) : exists l, Spec.resolve p = Some l.
Proof.
  unfold Spec.resolve. destruct (Config.RESOURCE_PROFILES !! p); eauto.
Qed.

Lemma resolve_in_ranges (p : string) (l : dict) :
  Spec.resolve p = Some l -> Spec.in_ranges l.
Proof.
  unfold Spec.resolve.
  destruct (Config.RESOURCE_PROFILES !! p) eqn:E.
  - intros [= <-]. eapply profiles_lookup; eauto.
  - intros H. eapply profiles_lookup; eauto.
Qed.

(** The name that [get_resource_limits] looks up is the resolved one. *)
Lemma lookup_resolved (p : string) :
  Config.RESOURCE_PROFILES
    !! (if bool_decide (p ∈ dom Config.RESOURCE_PROFILES) then p else "medium")
  = Spec.resolve p.
Proof.
  unfold Spec.resolve. case_bool_decide as Hdom.
  - apply elem_of_dom in Hdom as [l Hl]. now rewrite Hl.
  - apply not_elem_of_dom in Hdom. now rewrite Hdom.
Qed.

(** An override leaves the other keys alone and stores a clamped value. *)
Lemma override_spec (cfg : dict) (key : string) (lo hi : Z) (l l' : dict) :
  override cfg key lo hi l = Ok l' ->
  match cfg !! key with
  | Some v => exists c, clamp lo hi v = Ok c /\ l' = <[key := c]> l
  | None => l' = l
  end.
Proof.
  unfold override. destruct (cfg !! key) as [v|]; [|now intros [= <-]].
  unfold bind. destruct (clamp lo hi v) as [c|e]; [|discriminate].
  intros [= <-]. eauto.
Qed.

Lemma override_in_ranges (cfg : dict) (key : string) (lo hi : Z)
    (l l' : dict) :
  (key = "memory_mb" /\ lo = 256 /\ hi = 8192)%Z
  \/ (key = "cpu_shares" /\ lo = 256 /\ hi = 4096)%Z
  \/ (key = "timeout" /\ lo = 10 /\ hi = 3600)%Z ->
  override cfg key lo hi l = Ok l' -> Spec.in_ranges l -> Spec.in_ranges l'.
Proof.
  intros Hkey H Hl. apply override_spec in H.
  destruct (cfg !! key) as [v|]; [|now subst].
  destruct H as (c & Hc & ->).
  destruct Hl as ((vm & Hm & Rm) & (vc & Hcs & Rc) & (vt & Ht & Rt)).
  destruct Hkey as [(-> & -> & ->)|[(-> & -> & ->)|(-> & -> & ->)]];
    apply PyFacts.clamp_between in Hc; try lia;
    repeat split;
    first [ eexists; split; [apply lookup_insert_eq | assumption]
          | eexists; split; [rewrite lookup_insert_ne by discriminate;
                             eassumption | assumption] ].
Qed.

Section WithLib.
Context `{lib : PyLib}.

(** What [get_resource_limits] returns, case by case. *)
Lemma get_resource_limits_cases (profile : string) (job : Job) (l : dict) :
  get_resource_limits profile (Some job) = Ok l ->
  exists defaults,
    Spec.resolve profile = Some defaults
    /\ ((l = defaults
         /\ forall key, Spec.custom_override job key = None)
        \/ exists payload cfg l1 l2,
             search_custom_config (default "" (analysis_reasoning job))
               = Some payload
             /\ json_loads payload = Some cfg
             /\ (forall key, Spec.custom_override job key = cfg !! key)
             /\ override cfg "memory_mb" 256 8192 defaults = Ok l1
             /\ override cfg "cpu_shares" 256 4096 l1 = Ok l2
             /\ override cfg "timeout" 10 3600 l2 = Ok l).
Proof.
  unfold get_resource_limits, Spec.custom_override. rewrite lookup_resolved.
  destruct (Spec.resolve profile) as [defaults|] eqn:Hres;
    [|discriminate].
  cbn [bind]. intros H. exists defaults. split; [reflexivity|].
  destruct (opt_str_truthy (analysis_reasoning job));
    [|left; split; [congruence|reflexivity]].
  destruct (search_custom_config _) as [payload|] eqn:Hs;
    [|left; split; [congruence|reflexivity]].
  destruct (json_loads payload) as [cfg|] eqn:Hj;
    [|left; split; [congruence|reflexivity]].
  right. exists payload, cfg.
  unfold bind in H.
  destruct (override cfg "memory_mb" 256 8192 defaults) as [l1|] eqn:H1;
    [|discriminate].
  destruct (override cfg "cpu_shares" 256 4096 l1) as [l2|] eqn:H2;
    [|discriminate].
  destruct (override cfg "timeout" 10 3600 l2) as [l3|] eqn:H3;
    [|discriminate].
  exists l1, l2. injection H as <-. auto 10.
Qed.

Lemma get_resource_limits_in_ranges (profile : string) (job : Job)
    (l : dict) :
  get_resource_limits profile (Some job) = Ok l -> Spec.in_ranges l.
Proof.
  intros H. apply get_resource_limits_cases in H as (d & Hd & Hcases).
  apply resolve_in_ranges in Hd.
  destruct Hcases as [[-> _]|(payload & cfg & l1 & l2 & _ & _ & _ & H1 & H2 & H3)];
    [assumption|].
  eapply override_in_ranges in H1; [|tauto|eassumption].
  eapply override_in_ranges in H2; [|tauto|eassumption].
  eapply override_in_ranges in H3; [|tauto|eassumption].
  assumption.
Qed.

(** The limit stored under a key is the clamped override when the
    custom configuration has the key, and the profile's default when it
    has not. *)
Lemma get_resource_limits_key (profile : string) (job : Job) (l : dict)
    (key : string) (lo hi : Z) :
  (key = "memory_mb" /\ lo = 256 /\ hi = 8192)%Z
  \/ (key = "cpu_shares" /\ lo = 256 /\ hi = 4096)%Z
  \/ (key = "timeout" /\ lo = 10 /\ hi = 3600)%Z ->
  get_resource_limits profile (Some job) = Ok l ->
  match Spec.custom_override job key with
  | Some v => exists c, clamp lo hi v = Ok c /\ l !! key = Some c
  | None => exists defaults,
              Spec.resolve profile = Some defaults
              /\ l !! key = defaults !! key
  end.
Proof.
  intros Hkey H. apply get_resource_limits_cases in H as (d & Hd & Hcases).
  destruct Hcases as [[-> Hnone]|(payload & cfg & l1 & l2 & _ & _ & Hov & H1 & H2 & H3)].
  - rewrite Hnone. eauto.
  - rewrite Hov.
    apply override_spec in H1, H2, H3.
    destruct Hkey as [(-> & -> & ->)|[(-> & -> & ->)|(-> & -> & ->)]].
    + (* memory_mb: set first, then untouched *)
      assert (l !! "memory_mb" = l1 !! "memory_mb") as ->.
      { destruct (cfg !! "timeout"); [destruct H3 as (? & _ & ->)|subst l];
          destruct (cfg !! "cpu_shares");
          try (destruct H2 as (? & _ & ->)); try subst l2;
          now rewrite ?lookup_insert_ne by discriminate. }
      destruct (cfg !! "memory_mb").
      * destruct H1 as (c & Hc & ->). exists c.
        now rewrite lookup_insert_eq.
      * subst l1. eauto.
    + assert (l !! "cpu_shares" = l2 !! "cpu_shares") as ->.
      { destruct (cfg !! "timeout"); [destruct H3 as (? & _ & ->)|subst l];
          now rewrite ?lookup_insert_ne by discriminate. }
      destruct (cfg !! "cpu_shares").
      * destruct H2 as (c & Hc & ->). exists c.
        now rewrite lookup_insert_eq.
      * subst l2. exists d. split; [assumption|].
        destruct (cfg !! "memory_mb"); [destruct H1 as (? & _ & ->)|subst l1];
          now rewrite ?lookup_insert_ne by discriminate.
    + destruct (cfg !! "timeout").
      * destruct H3 as (c & Hc & ->). exists c.
        now rewrite lookup_insert_eq.
      * subst l. exists d. split; [assumption|].
        destruct (cfg !! "cpu_shares");
          [destruct H2 as (? & _ & ->)|subst l2];
          (destruct (cfg !! "memory_mb");
           [destruct H1 as (? & _ & ->)|subst l1]);
          now rewrite ?lookup_insert_ne by discriminate.
Qed.

End WithLib.

End ExecutorFacts.

(* ===================================================================== *)
(** ** The search for the marker *)
(* ===================================================================== *)

Module MarkerFacts.

Import Models Executor Props.

Lemma after_prefix_None (p s : string) :
  is_prefix p s = false -> after_prefix p s = None.
Proof.
  revert s. induction p as [|a p IH]; intros [|b s]; cbn;
    try discriminate; try reflexivity.
  destruct (Ascii.eqb a b); cbn; auto.
Qed.

Lemma search_step (c : ascii) (s : string) :
  search_custom_config (String c s)
  = match match_custom_config_here (String c s) with
    | Some payload => Some payload
    | None => search_custom_config s
    end.
Proof. reflexivity. Qed.

(** Without the text of the marker there is no match. *)
Lemma search_without_marker (s : string) :
  contains "CUSTOM_CONFIG:{" s = false -> search_custom_config s = None.
Proof.
  induction s as [|c s IH]; [reflexivity|].
  change (contains "CUSTOM_CONFIG:{" (String c s))
    with (is_prefix "CUSTOM_CONFIG:{" (String c s)
          || contains "CUSTOM_CONFIG:{" s).
  intros H. apply orb_false_elim in H as [H1 H2].
  rewrite search_step. unfold match_custom_config_here.
  rewrite (after_prefix_None _ _ H1). auto.
Qed.

(** The lazy group stops at the first closing brace. *)
Lemma lazy_until_first_brace (body tail : string) :
  one_line_without_brace body = true ->
  lazy_until_brace (body +:+ "}" +:+ tail) = Some (body +:+ "}").
Proof.
  induction body as [|c body IH]; [reflexivity|].
  cbn [one_line_without_brace]. intros H.
  apply andb_true_iff in H as [H Hb]. apply andb_true_iff in H as [H1 H2].
  apply negb_true_iff in H1, H2.
  change (String c body +:+ "}" +:+ tail)
    with (String c (body +:+ "}" +:+ tail)).
  change (lazy_until_brace (String c (body +:+ "}" +:+ tail)))
    with (if Ascii.eqb c "}"%char then Some "}"
          else if Ascii.eqb c newline then None
          else option_map (String c) (lazy_until_brace (body +:+ "}" +:+ tail))).
  rewrite H1, H2, (IH Hb). reflexivity.
Qed.

(** A match cannot start in a text that lacks the marker and end after
    a space that follows it. *)
Lemma after_prefix_across (l p r : string) :
  no_space l = true -> is_prefix l p = false ->
  after_prefix l (p +:+ String " " r) = None.
Proof.
  revert p. induction l as [|a l IH]; intros p; [intros _; destruct p; discriminate|].
  cbn [no_space]. intros H. apply andb_true_iff in H as [Ha Hl].
  apply negb_true_iff in Ha.
  destruct p as [|b p]; simpl.
  - now rewrite Ha.
  - destruct (Ascii.eqb a b); simpl; auto.
Qed.

Lemma search_after_text (prefix rest : string) :
  contains "CUSTOM_CONFIG:{" prefix = false ->
  search_custom_config (prefix +:+ String " " rest)
  = search_custom_config (String " " rest).
Proof.
  induction prefix as [|c prefix IH]; [reflexivity|].
  change (contains "CUSTOM_CONFIG:{" (String c prefix))
    with (is_prefix "CUSTOM_CONFIG:{" (String c prefix)
          || contains "CUSTOM_CONFIG:{" prefix).
  intros H. apply orb_false_elim in H as [H1 H2].
  change (String c prefix +:+ String " " rest)
    with (String c (prefix +:+ String " " rest)).
  rewrite search_step. unfold match_custom_config_here.
  change (String c (prefix +:+ String " " rest))
    with (String c prefix +:+ String " " rest).
  rewrite (after_prefix_across "CUSTOM_CONFIG:{" _ _ eq_refl H1). auto.
Qed.

Lemma search_at_marker (x payload : string) :
  lazy_until_brace x = Some payload ->
  search_custom_config (" | CUSTOM_CONFIG:{" +:+ x)
  = Some (String "{" payload).
Proof.
  intros H. simpl. unfold match_custom_config_here. simpl.
  change ("" +:+ x) with x. rewrite H. reflexivity.
Qed.

(** A text that ends in a text that is not empty is not empty. *)
Lemma truthy_append (a b : string) :
  str_truthy b = true -> str_truthy (a +:+ b) = true.
Proof. destruct a; [intros H; exact H|reflexivity]. Qed.

End MarkerFacts.

Module LimitsClaims.

Import Models Executor ExecutorFacts MarkerFacts Examples.




(** C10.  When the marker that [get_resource_limits] finds in the job's
    analysis_reasoning carries a payload that [json.loads] rejects, the
    function returns exactly the default limits of the resolved profile:
    no key of the custom configuration is applied. *)
Theorem invalid_payload_keeps_defaults `{lib : PyLib} (profile : string)
    (job : Job) (payload : string) :
  search_custom_config (default "" (analysis_reasoning job)) = Some payload ->
  json_loads payload = None ->
  exists defaults,
    Spec.resolve profile = Some defaults
    /\ get_resource_limits profile (Some job) = Ok defaults
    /\ forall key, Spec.custom_override job key = None.
Proof.
  intros Hs Hj. destruct (resolve_total profile) as [d Hd].
  exists d. split; [assumption|].
  assert (Ht : opt_str_truthy (analysis_reasoning job) = true).
  { destruct (analysis_reasoning job) as [[|c r]|]; simpl in *;
      try reflexivity; discriminate. }
  unfold get_resource_limits, Spec.custom_override.
  rewrite lookup_resolved, Hd, Ht, Hs, Hj. auto.
Qed.

Lemma invalid_payload_keeps_defaults_witness :
  search_custom_config
    (default "" (analysis_reasoning Examples.broken_marker_job))
    = Some "{oops}"
  /\ json_loads "{oops}" = None
  /\ exists defaults,
       Spec.resolve "large" = Some defaults
       /\ get_resource_limits "large" (Some Examples.broken_marker_job)
          = Ok defaults
       /\ forall key, Spec.custom_override Examples.broken_marker_job key
                      = None.
Proof.
  split; [vm_compute; reflexivity|].
  split; [vm_compute; reflexivity|].
  apply (invalid_payload_keeps_defaults "large" Examples.broken_marker_job
           "{oops}"); vm_compute; reflexivity.
Defined.

(** The timeout that [submit_job] stores: the custom timeout, clamped,
    when the request has one, and the requested timeout otherwise. *)
Lemma submit_job_timeout_seconds `{lib : PyLib} (avail gpu : bool)
    (request : Schemas.JobSubmitRequest) (uid new_id : Z) (created : datetime)
    (job : Job) :
  JobsRoutes.submit_job avail gpu request uid new_id created = Ok job ->
  match Schemas.custom_config request with
  | Some custom_config =>
      match custom_config !! "timeout" with
      | Some v => clamp 10 3600 v = Ok (timeout_seconds job)
      | None => timeout_seconds job = PInt (Schemas.timeout request)
      end
  | None => timeout_seconds job = PInt (Schemas.timeout request)
  end.
Proof.
  unfold JobsRoutes.submit_job.
  destruct (ScriptAnalyzer.analyze_script _ _) as [a|]; [|discriminate].
  cbn [bind].
  destruct (if String.eqb _ "auto" then _ else _) as [rp em].
  destruct (Schemas.custom_config request) as [cfg|].
  - case_bool_decide as Hempty.
    + subst cfg. rewrite lookup_empty. cbn [bind].
      intros [= <-]. reflexivity.
    + destruct (cfg !! "timeout") as [v|].
      * destruct (clamp 10 3600 v) as [c|]; [|discriminate].
        cbn [bind].
        destruct (opt_str_truthy (Some (json_dumps cfg)));
          intros [= <-]; reflexivity.
      * cbn [bind].
        destruct (opt_str_truthy (Some (json_dumps cfg)));
          intros [= <-]; reflexivity.
  - cbn [bind]. intros [= <-]. reflexivity.
Qed.

(** A validated request is stored with a timeout between 10 and 3600. *)
Lemma submit_job_timeout_between `{lib : PyLib} (avail gpu : bool)
    (request : Schemas.JobSubmitRequest) (uid new_id : Z) (created : datetime)
    (job : Job) :
  Schemas.valid request ->
  JobsRoutes.submit_job avail gpu request uid new_id created = Ok job ->
  py_between 10 3600 (timeout_seconds job).
Proof.
  intros (_ & Ht & _) H. apply submit_job_timeout_seconds in H.
  destruct (Schemas.custom_config request) as [cfg|].
  - destruct (cfg !! "timeout") as [v|].
    + apply PyFacts.clamp_between in H; [assumption|lia].
    + rewrite H. now apply PyFacts.between_int.
  - rewrite H. now apply PyFacts.between_int.
Qed.

(** The caps that the container is started with are in the ranges. *)
Lemma container_config_in_ranges `{lib : PyLib} (gpu : bool) (job : Job)
    (config : ContainerConfig) :
  build_container_config gpu job = Ok config ->
  py_between 256 8192 (memory_mb config)
  /\ py_between 256 4096 (cpu_shares config).
Proof.
  unfold build_container_config, bind.
  destruct (get_resource_limits (resource_profile job) (Some job))
    as [l|] eqn:Hl; [|discriminate].
  intros [= <-]. cbn [memory_mb cpu_shares].
  destruct (get_resource_limits_in_ranges _ _ _ Hl)
    as ((vm & -> & Hm) & (vc & -> & Hc) & _).
  split; assumption.
Qed.

(** The search on the reasoning that [submit_job] stores for a request
    with a custom configuration that comes back from the marker. *)
Lemma submit_job_custom_override `{lib : PyLib} (avail gpu : bool)
    (request : Schemas.JobSubmitRequest) (uid new_id : Z) (created : datetime)
    (job : Job) (analysis : ScriptAnalyzer.ScriptAnalysis) (cfg : dict)
    (key : string) :
  JobsRoutes.submit_job avail gpu request uid new_id created = Ok job ->
  ScriptAnalyzer.analyze_script (Schemas.code request)
                                (if avail then gpu else false) = Ok analysis ->
  Schemas.custom_config request = Some cfg ->
  cfg <> ∅ ->
  Props.round_trips (ScriptAnalyzer.reasoning analysis) cfg ->
  Spec.custom_override job key = cfg !! key.
Proof.
  intros Hsub Han Hcfg Hne ((body & Hdump & Hbody) & Hload & Hclean).
  unfold JobsRoutes.submit_job in Hsub. rewrite Han, Hcfg in Hsub.
  cbn [bind] in Hsub.
  destruct (if String.eqb _ "auto" then _ else _) as [rp em].
  rewrite bool_decide_eq_false_2 in Hsub by exact Hne.
  destruct (match cfg !! "timeout" with Some _ => _ | None => _ end)
    as [ts|]; [|discriminate].
  cbn [bind] in Hsub. rewrite Hdump in Hsub, Hload.
  cbn [opt_str_truthy str_truthy String.append] in Hsub.
  injection Hsub as <-.
  unfold Spec.custom_override.
  cbn [analysis_reasoning set_analysis_reasoning].
  assert (Ht : opt_str_truthy
                 (Some
                    ((ScriptAnalyzer.reasoning analysis +:+ " | "
                        +:+ "Custom config: " +:+ dict_str cfg)
                       +:+ " | CUSTOM_CONFIG:" +:+ "{" +:+ body +:+ "}"))
               = true)
    by (apply truthy_append; reflexivity).
  rewrite Ht.
  assert (H : search_custom_config
                ((ScriptAnalyzer.reasoning analysis +:+ " | Custom config: "
                    +:+ dict_str cfg)
                   +:+ String " " ("| CUSTOM_CONFIG:{" +:+ body +:+ "}" +:+ ""))
              = Some (String "{" (body +:+ "}"))).
  { rewrite (search_after_text _ _ Hclean).
    exact (search_at_marker (body +:+ "}" +:+ "") (body +:+ "}")
             (lazy_until_first_brace body "" Hbody)). }
  change (search_custom_config
            (default ""
               (Some
                  ((ScriptAnalyzer.reasoning analysis +:+ " | "
                      +:+ "Custom config: " +:+ dict_str cfg)
                     +:+ " | CUSTOM_CONFIG:" +:+ "{" +:+ body +:+ "}")))
          = Some (String "{" (body +:+ "}"))) in H.
  rewrite H.
  change (json_loads (String "{" (body +:+ "}")) = Some cfg) in Hload.
  rewrite Hload. reflexivity.
Qed.

(** The same search for a request without a custom configuration, when
    the reasoning of the analysis does not contain the marker's text. *)
Lemma submit_job_plain_override `{lib : PyLib} (avail gpu : bool)
    (request : Schemas.JobSubmitRequest) (uid new_id : Z) (created : datetime)
    (job : Job) (analysis : ScriptAnalyzer.ScriptAnalysis) (key : string) :
  JobsRoutes.submit_job avail gpu request uid new_id created = Ok job ->
  ScriptAnalyzer.analyze_script (Schemas.code request)
                                (if avail then gpu else false) = Ok analysis ->
  Schemas.custom_config request = None ->
  contains "CUSTOM_CONFIG:{" (ScriptAnalyzer.reasoning analysis) = false ->
  Spec.custom_override job key = None.
Proof.
  intros Hsub Han Hcfg Hclean.
  unfold JobsRoutes.submit_job in Hsub. rewrite Han, Hcfg in Hsub.
  cbn [bind] in Hsub.
  destruct (if String.eqb _ "auto" then _ else _) as [rp em].
  cbn [opt_str_truthy] in Hsub. injection Hsub as <-.
  unfold Spec.custom_override. cbn [analysis_reasoning].
  change (default "" (Some (ScriptAnalyzer.reasoning analysis)))
    with (ScriptAnalyzer.reasoning analysis).
  rewrite (search_without_marker _ Hclean).
  destruct (opt_str_truthy _); reflexivity.
Qed.

(** C5 (amended).  The effective timeout of a job is
    [min(job.timeout_seconds, limit)], where [limit] is the custom timeout
    override clamped to [10, 3600] when the marker stored in the job's
    reasoning decodes to a configuration with a timeout, and the default
    timeout of the job's profile otherwise.  For a job stored by
    [submit_job] from a request whose custom configuration is not empty
    and comes back from the marker: with a custom timeout,
    [job.timeout_seconds] is the same clamped override, so the effective
    timeout is the clamped override itself; without one it is the minimum
    of the requested timeout and the profile's default.  The latter also
    holds for a request without a custom configuration, when the
    reasoning of the analysis does not contain the marker's text. *)
Theorem effective_timeout_amended `{lib : PyLib} (job : Job) (t : pyval) :
  effective_timeout job = Ok t ->
  match Spec.custom_override job "timeout" with
  | Some v =>
      exists c, clamp 10 3600 v = Ok c
                /\ py_min (timeout_seconds job) c = Ok t
  | None =>
      exists d, Spec.profile_timeout (resource_profile job) = Some d
                /\ py_min (timeout_seconds job) d = Ok t
  end
  /\ forall (avail gpu : bool) (request : Schemas.JobSubmitRequest)
            (uid new_id : Z) (created : datetime)
            (analysis : ScriptAnalyzer.ScriptAnalysis),
       JobsRoutes.submit_job avail gpu request uid new_id created = Ok job ->
       ScriptAnalyzer.analyze_script (Schemas.code request)
                                     (if avail then gpu else false)
       = Ok analysis ->
       match Schemas.custom_config request with
       | Some cfg =>
           cfg <> ∅ ->
           Props.round_trips (ScriptAnalyzer.reasoning analysis) cfg ->
           match cfg !! "timeout" with
           | Some v =>
               exists c, clamp 10 3600 v = Ok c
                         /\ timeout_seconds job = c
                         /\ t = c
           | None =>
               exists d,
                 Spec.profile_timeout (resource_profile job) = Some d
                 /\ py_min (PInt (Schemas.timeout request)) d = Ok t
           end
       | None =>
           contains "CUSTOM_CONFIG:{" (ScriptAnalyzer.reasoning analysis)
           = false ->
           exists d,
             Spec.profile_timeout (resource_profile job) = Some d
             /\ py_min (PInt (Schemas.timeout request)) d = Ok t
       end.
Proof.
  intros Ht.
  assert (A : match Spec.custom_override job "timeout" with
              | Some v =>
                  exists c, clamp 10 3600 v = Ok c
                            /\ py_min (timeout_seconds job) c = Ok t
              | None =>
                  exists d,
                    Spec.profile_timeout (resource_profile job) = Some d
                    /\ py_min (timeout_seconds job) d = Ok t
              end).
  { unfold effective_timeout, bind in Ht.
    destruct (get_resource_limits (resource_profile job) (Some job))
      as [l|] eqn:Hl; [|discriminate].
    pose proof (get_resource_limits_key (resource_profile job) job l "timeout"
                  10 3600
                  (or_intror (or_intror (conj eq_refl (conj eq_refl eq_refl))))
                  Hl) as Hkey.
    destruct (Spec.custom_override job "timeout") as [v|].
    - destruct Hkey as (c & Hc & Hlc). rewrite Hlc in Ht. cbn in Ht.
      exists c. split; assumption.
    - destruct Hkey as (d & Hd & Hld).
      destruct (resolve_in_ranges _ _ Hd) as (_ & _ & (v & Hv & _)).
      exists v. unfold Spec.profile_timeout. rewrite Hd. split; [assumption|].
      rewrite Hld, Hv in Ht. exact Ht. }
  split; [exact A|].
  intros avail gpu request uid new_id created analysis Hsub Han.
  pose proof (submit_job_timeout_seconds _ _ _ _ _ _ _ Hsub) as Hts.
  destruct (Schemas.custom_config request) as [cfg|] eqn:Hcfg.
  - intros Hne Hrt.
    rewrite (submit_job_custom_override _ _ _ _ _ _ _ _ _ "timeout"
               Hsub Han Hcfg Hne Hrt) in A.
    destruct (cfg !! "timeout") as [v|].
    + destruct A as (c & Hc & Hmin).
      assert (E : timeout_seconds job = c) by congruence.
      exists c. split; [exact Hc|]. split; [exact E|].
      rewrite E in Hmin. unfold py_min, py_lt, bind in Hmin.
      destruct (py_num c); [|discriminate].
      destruct (float_lt _ _); congruence.
    + rewrite Hts in A. exact A.
  - intros Hclean.
    rewrite (submit_job_plain_override _ _ _ _ _ _ _ _ "timeout"
               Hsub Han Hcfg Hclean) in A.
    rewrite Hts in A. exact A.
Qed.

Lemma effective_timeout_amended_witness :
  effective_timeout Examples.long_timeout_job = Ok (PInt 600)
  /\ JobsRoutes.submit_job true false
       (small_request (Some {["timeout" := PInt 600]})) 7 1 (seconds 0)
     = Ok long_timeout_job
  /\ Props.round_trips (ScriptAnalyzer.reasoning hello_analysis)
       {["timeout" := PInt 600]}
  /\ exists c, clamp 10 3600 (PInt 600) = Ok c
               /\ timeout_seconds long_timeout_job = c
               /\ PInt 600 = c.
Proof.
  assert (H : effective_timeout Examples.long_timeout_job = Ok (PInt 600))
    by (vm_compute; reflexivity).
  assert (Hsub : JobsRoutes.submit_job true false
                   (small_request (Some {["timeout" := PInt 600]})) 7 1
                   (seconds 0)
                 = Ok long_timeout_job) by (vm_compute; reflexivity).
  assert (Han : ScriptAnalyzer.analyze_script
                  (Schemas.code
                     (small_request (Some {["timeout" := PInt 600]})))
                  (if true then false else false) = Ok hello_analysis)
    by (vm_compute; reflexivity).
  assert (Hne : ({["timeout" := PInt 600]} : dict) <> ∅)
    by (apply insert_non_empty).
  assert (Hrt : Props.round_trips (ScriptAnalyzer.reasoning hello_analysis)
                  {["timeout" := PInt 600]}).
  { split; [exists timeout_member; split; vm_compute; reflexivity|].
    split; vm_compute; reflexivity. }
  split; [exact H|]. split; [exact Hsub|]. split; [exact Hrt|].
  pose proof (proj2 (effective_timeout_amended Examples.long_timeout_job
                       (PInt 600) H)
                true false (small_request (Some {["timeout" := PInt 600]}))
                7%Z 1%Z (seconds 0) hello_analysis Hsub Han) as L.
  cbv beta iota delta [small_request Schemas.custom_config] in L.
  specialize (L Hne Hrt).
  rewrite lookup_singleton_eq in L. exact L.
Defined.

(** C5 as stated fails: requested timeout 300, profile small (default
    timeout 60), custom timeout 600.  The stored job runs with an
    effective timeout of 600, not with the minimum of the three, 60. *)
Lemma custom_timeout_exceeds_minimum :
  Examples.submitted (Some {["timeout" := PInt 600]})
    = Ok Examples.long_timeout_job
  /\ Schemas.timeout (Examples.small_request None) = 300%Z
  /\ Spec.profile_timeout (resource_profile Examples.long_timeout_job)
     = Some (PInt 60)
  /\ Spec.custom_override Examples.long_timeout_job "timeout"
     = Some (PInt 600)
  /\ effective_timeout Examples.long_timeout_job = Ok (PInt 600)
  /\ Z.min 300 (Z.min 60 600) <> 600%Z.
Proof.
  repeat split; try (vm_compute; reflexivity).
  vm_compute. discriminate.
Qed.

End LimitsClaims.

(* ===================================================================== *)
(** ** The analyzer *)
(* ===================================================================== *)

Module AnalyzerFacts.

Import ScriptAnalyzer.

Lemma table_getitem_mem (table : list (string * string)) (key : string) :
  table_mem table key = true -> exists v, table_getitem table key = Ok v.
Proof.
  unfold table_mem, table_getitem.
  destruct (table_get table key); [eauto|discriminate].
Qed.

(** A loop that appends the description of each library found in a table
    never raises: every subscript is guarded by the membership test. *)
Lemma guarded_loop_returns (table : list (string * string))
    (render : string -> string -> string) (libraries acc : list string) :
  exists out,
    fold_left (fun acc lib =>
                 let* indicators := acc in
                 if table_mem table lib
                 then let* descr := table_getitem table lib in
                      Ok (indicators ++ [render lib descr])
                 else Ok indicators)
              libraries (Ok acc) = Ok out.
Proof.
  revert acc. induction libraries as [|lib libs IH]; intros acc; simpl.
  - eauto.
  - destruct (table_mem table lib) eqn:Hmem.
    + destruct (table_getitem_mem _ _ Hmem) as [v ->]. simpl. apply IH.
    + apply IH.
Qed.

Section WithLib.
Context `{lib : PyLib}.

Lemma detect_gpu_usage_returns (script : string) (libraries : list string) :
  exists out, _detect_gpu_usage script libraries = Ok out.
Proof.
  unfold _detect_gpu_usage.
  destruct (guarded_loop_returns GPU_LIBRARIES
              (fun lib descr => "Library: " +:+ lib +:+ " (" +:+ descr +:+ ")")
              libraries []) as [out ->].
  cbn [bind]. eauto.
Qed.

Lemma detect_memory_usage_returns (libraries : list string) :
  exists out, _detect_memory_usage libraries = Ok out.
Proof.
  unfold _detect_memory_usage.
  apply (guarded_loop_returns MEMORY_INTENSIVE_LIBRARIES
           (fun lib descr => lib +:+ " (" +:+ descr +:+ ")")).
Qed.

(** The early return of [analyze]. *)
Lemma analyze_blank (gpu : bool) (s : string) :
  Spec.blank s ->
  analyze gpu s
  = Ok {| recommended_profile := "small"; execution_mode := "cpu";
          detected_libraries := []; gpu_indicators := [];
          memory_indicators := []; compute_indicators := [];
          confidence := 1;
          reasoning := "Empty or minimal script - using small profile" |}.
Proof.
  intros H. unfold analyze. rewrite (PyFacts.strip_blank s H).
  change (str_truthy "") with false. cbn [negb].
  now rewrite orb_true_r.
Qed.

(** The other return of [analyze]. *)
Lemma analyze_not_blank (gpu : bool) (s : string) :
  ~ Spec.blank s ->
  exists g m,
    _detect_gpu_usage s (_detect_libraries s) = Ok g
    /\ _detect_memory_usage (_detect_libraries s) = Ok m
    /\ analyze gpu s
       = let '(profile, mode, confidence, reasoning) :=
           _determine_profile (_detect_libraries s) g m
                              (_detect_compute_patterns s) in
         let '(profile, mode, reasoning) :=
           if String.eqb mode "gpu" && negb gpu
           then ((if String.eqb profile "gpu" then "large" else profile),
                 "cpu",
                 reasoning +:+ " (GPU not available, using CPU fallback)")
           else (profile, mode, reasoning) in
         Ok {| recommended_profile := profile; execution_mode := mode;
               detected_libraries := _detect_libraries s;
               gpu_indicators := g; memory_indicators := m;
               compute_indicators := _detect_compute_patterns s;
               confidence := confidence; reasoning := reasoning |}.
Proof.
  intros Hnb.
  destruct (detect_gpu_usage_returns s (_detect_libraries s)) as [g Hg].
  destruct (detect_memory_usage_returns (_detect_libraries s)) as [m Hm].
  exists g, m. repeat split; try assumption.
  unfold analyze.
  assert (Hs : str_truthy s = true).
  { destruct s; [|reflexivity]. exfalso. apply Hnb. constructor. }
  assert (Hst : str_truthy (strip s) = true).
  { destruct (strip s) eqn:E; [|reflexivity].
    exfalso. apply Hnb. now apply PyFacts.strip_empty_iff. }
  rewrite Hs, Hst, Hg, Hm. reflexivity.
Qed.

End WithLib.

Lemma blank_dec (s : string) : {Spec.blank s} + {~ Spec.blank s}.
Proof. unfold Spec.blank. apply Forall_dec. intros c. apply bool_dec. Qed.

(** The profile and the mode of [_determine_profile] are those of the
    decision table. *)
Lemma determine_profile_choice (libs g m c : list string) :
  (_determine_profile libs g m c).1.1
  = Spec.decision_table (3 * length g) (2 * length m) (2 * length c).
Proof.
  unfold _determine_profile, Spec.decision_table.
  rewrite !(Nat.mul_comm (length _)).
  destruct (3 <=? 3 * length g)%nat; [reflexivity|].
  destruct (8 <=? _)%nat; [reflexivity|].
  destruct (4 <=? _)%nat; [reflexivity|].
  destruct (2 <=? _)%nat; reflexivity.
Qed.




End AnalyzerFacts.

Module AnalyzerClaims.

Import ScriptAnalyzer AnalyzerFacts Examples.

(** C8.  [analyze] returns a [ScriptAnalysis] for every string: none of
    its dictionary subscripts can raise.  For the empty script and for a
    script of whitespace only, the analysis recommends profile small and
    mode cpu with confidence 1.0. *)
Theorem analyze_never_raises `{lib : PyLib} (gpu : bool) (s : string) :
  (exists a, analyze gpu s = Ok a)
  /\ (Spec.blank s ->
      exists a, analyze gpu s = Ok a
                /\ recommended_profile a = "small"
                /\ execution_mode a = "cpu"
                /\ confidence a = 1%Q).
Proof.
  split.
  - destruct (blank_dec s) as [Hb|Hnb].
    + rewrite (analyze_blank gpu s Hb). eauto.
    + destruct (analyze_not_blank gpu s Hnb) as (g & m & _ & _ & ->).
      destruct (_determine_profile _ g m _) as [[[p md] cf] r].
      destruct (String.eqb md "gpu" && negb gpu); eauto.
  - intros Hb. rewrite (analyze_blank gpu s Hb).
    eexists. repeat split.
Qed.

Lemma analyze_never_raises_witness :
  Spec.blank ("  " +:+ String newline "")
  /\ exists a, analyze false ("  " +:+ String newline "") = Ok a
               /\ recommended_profile a = "small"
               /\ execution_mode a = "cpu"
               /\ confidence a = 1%Q.
Proof.
  assert (H : Spec.blank ("  " +:+ String newline ""))
    by (repeat constructor).
  split; [exact H|].
  exact (proj2 (analyze_never_raises false ("  " +:+ String newline "")) H).
Defined.

(** C6.  The profile and the mode that [_determine_profile] picks are
    those of the ordered decision table on gpu_score = 3 times the number
    of GPU indicators, memory_score = 2 times the number of memory
    indicators and compute_score = 2 times the number of compute
    indicators; and the analysis that [analyze] returns carries that
    choice for its own indicator lists, after the fallback to cpu (and
    from profile gpu to large) when no GPU is available. *)
Theorem analyzer_follows_decision_table `{lib : PyLib} (gpu : bool)
    (s : string) (libs g m c : list string) :
  (_determine_profile libs g m c).1.1
  = Spec.decision_table (3 * length g) (2 * length m) (2 * length c)
  /\ exists a,
       analyze gpu s = Ok a
       /\ (recommended_profile a, execution_mode a)
          = Spec.gpu_fallback gpu
              (Spec.decision_table (3 * length (gpu_indicators a))
                                   (2 * length (memory_indicators a))
                                   (2 * length (compute_indicators a))).
Proof.
  split; [apply determine_profile_choice|].
  destruct (blank_dec s) as [Hb|Hnb].
  - rewrite (analyze_blank gpu s Hb). eexists. split; [reflexivity|].
    reflexivity.
  - destruct (analyze_not_blank gpu s Hnb) as (g' & m' & _ & _ & ->).
    pose proof (determine_profile_choice (_detect_libraries s) g' m'
                  (_detect_compute_patterns s)) as Hc.
    destruct (_determine_profile _ g' m' _) as [[[p md] cf] r].
    cbn [fst] in Hc.
    unfold Spec.gpu_fallback.
    destruct (String.eqb md "gpu" && negb gpu) eqn:E;
      eexists; (split; [reflexivity|]); cbn [recommended_profile
        execution_mode gpu_indicators memory_indicators compute_indicators];
      rewrite <- Hc, E; reflexivity.
Qed.




End AnalyzerClaims.

(* ===================================================================== *)
(** ** The job life cycle *)
(* ===================================================================== *)

Module SupervisorFacts.

Import Models Executor Spec.

(** Assignments to other attributes leave [status] and [id] alone. *)
Lemma stamp_finished_status (now : datetime) (j : Job) :
  status (stamp_finished now j) = status j.
Proof. unfold stamp_finished. destruct j as [? ? ? ? ? ? ? ? ? ? [s|]]; reflexivity. Qed.

Lemma stamp_finished_id (now : datetime) (j : Job) :
  id (stamp_finished now j) = id j.
Proof. unfold stamp_finished. destruct j as [? ? ? ? ? ? ? ? ? ? [s|]]; reflexivity. Qed.

Lemma stamp_finished_finished_at (now : datetime) (j : Job) :
  finished_at (stamp_finished now j) = Some now.
Proof. unfold stamp_finished. destruct j as [? ? ? ? ? ? ? ? ? ? [s|]]; reflexivity. Qed.

Lemma stamp_finished_duration (now : datetime) (j : Job) :
  duration_seconds (stamp_finished now j)
  = match started_at j with
    | Some started => Some (total_seconds (now - started))
    | None => duration_seconds j
    end.
Proof. unfold stamp_finished. destruct j as [? ? ? ? ? ? ? ? ? ? [s|]]; reflexivity. Qed.

Lemma finalize_status_id `{lib : PyLib} (t : pyval) (r : WaitResult) (j : Job) :
  id (finalize_status t r j) = id j.
Proof.
  unfold finalize_status.
  destruct (res_cancelled r), (res_timeout r), (res_exit_code r =? 0)%Z;
    destruct j; reflexivity.
Qed.

(** The status that the result of the wait gives. *)
Lemma finalize_status_status `{lib : PyLib} (t : pyval) (r : WaitResult)
    (j : Job) :
  status (finalize_status t r j)
  = if res_cancelled r then CANCELLED
    else if res_timeout r then TIMEOUT
    else if (res_exit_code r =? 0)%Z then SUCCESS else FAILED.
Proof.
  unfold finalize_status.
  destruct (res_cancelled r), (res_timeout r), (res_exit_code r =? 0)%Z;
    destruct j; reflexivity.
Qed.

(** The result of the polling loop says "cancelled" only when the
    supervisor's own task was cancelled during a sleep. *)
Lemma wait_loop_cancelled (w : World) (timeout : pyval) (trace : list poll)
    (sh sh' : shared) (r : WaitResult) :
  wait_loop w timeout trace sh = Some (Ok r, sh') ->
  res_cancelled r = true ->
  exists p, In p trace /\ sleep p = SleepCancelled.
Proof.
  revert sh. induction trace as [|p rest IH]; intros sh; simpl;
    [discriminate|].
  destruct (reload p) as [[st code]|e]; [|discriminate].
  destruct (String.eqb st "exited").
  { intros [= <- <-]. discriminate. }
  destruct (py_gt _ timeout) as [[|]|]; [| |discriminate].
  { destruct (stop_exn w); [discriminate|]. intros [= <- <-]. discriminate. }
  destruct (sleep p) as [others|] eqn:Hs.
  - intros H Hc. destruct (IH _ H Hc) as (q & Hq & Hsq). eauto.
  - intros _ _. eauto.
Qed.

Lemma triple_bind {A B : Type} (P : State -> Prop) (R : A -> State -> Prop)
    (Q : B -> State -> Prop) (c : M A) (k : A -> M B) :
  triple P c R -> (forall a, triple (R a) (k a) Q) -> triple P (bindM c k) Q.
Proof.
  intros Hc Hk st b st' HP. unfold bindM.
  destruct (c st) as [[[a|e] st1]|] eqn:E; try discriminate.
  intros H. eapply Hk; [|exact H]. eapply Hc; eauto.
Qed.

Lemma triple_skip {A : Type} (P : State -> Prop) (c : M A) :
  triple P c (fun _ _ => True).
Proof. intros st a st' _ _. exact I. Qed.

Lemma triple_keep {A : Type} (F : Prop) (c : M A) :
  triple (fun _ => F) c (fun _ _ => F).
Proof. intros st a st' H _. exact H. Qed.

Lemma triple_weaken {A : Type} (P P' : State -> Prop) (c : M A)
    (Q : A -> State -> Prop) :
  (forall st, P' st -> P st) -> triple P c Q -> triple P' c Q.
Proof. intros HP Hc st a st' H. apply Hc. auto. Qed.

Section WithLib.
Context `{lib : PyLib}.

(** From the assignment of the final status to the commit. *)
Lemma finish_ends (w : World) (timeout : pyval) (result : WaitResult) :
  triple (fun _ => True)
    (assign (finalize_status timeout result) ;;;
     let! job := get_job in
     write_logs w (id job) (res_logs result) ;;;
     assign (set_logs_location (Some (logs_path (id job)))) ;;;
     assign (fun j => set_gpu_used
                        (String.eqb (execution_mode j) "gpu"
                         && gpu_available w) j) ;;;
     commit)
    (fun _ => ended (res_cancelled result = false)).
Proof.
  intros st a st' _.
  unfold bindM, assign, get_job, write_logs, commit.
  destruct (write_logs_exn w); [discriminate|].
  intros [= <- <-]. unfold ended. cbv zeta.
  cbn [session_job db set_db set_log_files set_session_job running_containers
         log_files].
  set (j := finalize_status timeout result (session_job st)).
  assert (Hst : forall b l, status (set_gpu_used b (set_logs_location l j))
                            = status j) by (intros; now destruct j).
  assert (Hid : forall b l, id (set_gpu_used b (set_logs_location l j))
                            = id j) by (intros; now destruct j).
  unfold is_finished. rewrite Hst. split; [|split].
  - subst j. rewrite finalize_status_status.
    destruct (res_cancelled result), (res_timeout result),
      (res_exit_code result =? 0)%Z; reflexivity.
  - rewrite lookup_insert_eq. cbn. now rewrite Hst.
  - intros Hnc. subst j. rewrite finalize_status_status, Hnc.
    destruct (res_timeout result), (res_exit_code result =? 0)%Z;
      discriminate.
Qed.

(** The wait reports "cancelled" only after a cancelled sleep. *)
Lemma wait_not_cancelled (w : World) (timeout : pyval) :
  triple (fun _ => True) (_wait_for_container w timeout)
         (fun result _ => never_cancelled w -> res_cancelled result = false).
Proof.
  intros st r st' _. unfold _wait_for_container.
  destruct (wait_loop w timeout (wait_trace w) _) as [[[r0|e] sh]|] eqn:E;
    try discriminate.
  intros [= <- <-] Hnc. cbn [res_cancelled with_logs].
  destruct (res_cancelled r0) eqn:Hc; [|reflexivity].
  destruct (wait_loop_cancelled _ _ _ _ _ _ E Hc) as (p & Hp & Hs).
  exfalso. exact (Hnc p Hp Hs).
Qed.

(** The body of the [try], when it returns. *)
Lemma body_ends (w : World) :
  triple (fun _ => True) (execute_job_body w)
         (fun _ => ended (never_cancelled w)).
Proof.
  unfold execute_job_body.
  do 14 (eapply triple_bind; [apply triple_skip|intros ?]).
  eapply triple_bind; [apply triple_skip|intros timeout].
  eapply triple_bind; [apply triple_weaken with (P := fun _ => True);
                       [auto|apply wait_not_cancelled]|intros result].
  eapply triple_bind; [apply triple_keep|intros ?].
  eapply triple_bind; [apply triple_keep|intros ?].
  intros st u st' Hnc H.
  destruct (finish_ends w timeout result st u st' I H) as (H1 & H2 & H3).
  repeat split; try assumption.
  intros Hw. apply H3. apply Hnc. exact Hw.
Qed.

(** The [except] clauses, which end every other run. *)
Lemma handler_ends (w : World) (e : exn) :
  triple (fun _ => True) (execute_job_handler w e)
         (fun _ => ended True).
Proof.
  intros st a st' _.
  unfold execute_job_handler, bindM, assign, commit.
  intros [= <- <-]. unfold ended. cbv zeta.
  cbn [session_job db set_db set_session_job].
  assert (Hs : forall m j, status (set_error_message m (set_status FAILED j))
                           = FAILED) by (intros; now destruct j).
  unfold is_finished. rewrite lookup_insert_eq. cbn.
  rewrite !stamp_finished_status, !Hs.
  split; [reflexivity|]. split; [reflexivity|discriminate].
Qed.

Lemma simulation_ends (w : World) :
  triple (fun _ => True) (_simulate_execution w) (fun _ => ended False).
Proof.
  intros st a st' _.
  unfold _simulate_execution, bindM, assign, get_job, write_logs, commit.
  destruct (simulate_sleep w); [|discriminate].
  destruct (write_logs_exn w); [discriminate|].
  intros [= <- <-]. unfold ended. cbv zeta.
  cbn [session_job db set_db set_log_files set_session_job set_shared].
  match goal with
  | |- context [set_status SUCCESS ?j] =>
      generalize j; intros j0
  end.
  split; [now destruct j0|]. split; [now rewrite lookup_insert_eq|tauto].
Qed.

(** Every run of [execute_job] that returns has committed a terminal
    status; with Docker, and unless the supervisor's own task was
    cancelled during a sleep, that status is not "cancelled", whatever
    other coroutines did to the table meanwhile. *)
Lemma execute_job_ends (w : World) (st st' : State) :
  execute_job w st = Some (Ok tt, st') ->
  is_finished (session_job st') = true
  /\ status <$> (db st' !! id (session_job st')) = Some (status (session_job st'))
  /\ (client_available w = true -> never_cancelled w ->
      status (session_job st') <> CANCELLED).
Proof.
  unfold execute_job. destruct (client_available w); cbn [negb].
  - unfold try_finally, try_except.
    destruct (execute_job_body w st) as [[[[]|e] st1]|] eqn:E;
      [| |discriminate].
    + intros [= <-].
      destruct (body_ends w st tt st1 I E) as (H1 & H2 & H3).
      cbn [session_job db set_running_containers]. auto.
    + destruct e;
        try (destruct (execute_job_handler w _ st1) as [[r st2]|] eqn:Hr;
             [|discriminate];
             intros [= -> <-];
             destruct (handler_ends w _ st1 tt st2 I Hr) as (H1 & H2 & H3);
             cbn [session_job db set_running_containers]; auto).
      intros [=].
  - intros H. destruct (simulation_ends w st tt st' I H) as (H1 & H2 & _).
    repeat split; try assumption. discriminate.
Qed.

End WithLib.

End SupervisorFacts.

Module LifecycleClaims.

Import Models Executor SupervisorFacts Examples.

(** C1 (amended).  Every run of the supervisor that returns has committed
    one of the four terminal statuses.  Once a job is terminal, the admin
    cancel route refuses it and changes nothing, while the user cancel
    route accepts it: it sets the status to cancelled, finished_at to the
    time of the request and, when started_at is set, the duration to their
    difference; the job stays terminal and keeps its exit code and error
    message. *)
Theorem terminal_status_amended `{lib : PyLib} :
  (forall w st st',
     execute_job w st = Some (Ok tt, st') ->
     is_finished (session_job st') = true
     /\ status <$> (db st' !! id (session_job st'))
        = Some (status (session_job st')))
  /\ (forall cw now job_id email table containers job,
        table !! job_id = Some job ->
        is_finished job = true ->
        exists detail,
          AdminRoutes.cancel_job_admin cw now job_id email table containers
          = (JobsRoutes.HTTPException 400 detail, table, containers))
  /\ (forall cw now job_id uid admin table containers job,
        table !! job_id = Some job ->
        id job = job_id ->
        is_finished job = true ->
        user_id job = uid \/ admin = true ->
        exists response containers' job',
          JobsRoutes.cancel_job cw now job_id uid admin table containers
          = (JobsRoutes.Response response, <[job_id := job']> table,
             containers')
          /\ status job' = CANCELLED
          /\ is_finished job' = true
          /\ finished_at job' = Some now
          /\ duration_seconds job'
             = match started_at job with
               | Some started => Some (total_seconds (now - started))
               | None => duration_seconds job
               end
          /\ exit_code job' = exit_code job
          /\ error_message job' = error_message job).
Proof.
  split; [|split].
  - intros w st st' H. destruct (execute_job_ends w st st' H) as (H1 & H2 & _).
    auto.
  - intros cw now job_id email table containers job Hrow Hfin.
    unfold AdminRoutes.cancel_job_admin. rewrite Hrow.
    assert (Hc : is_cancellable job = false).
    { unfold is_finished, is_cancellable in *.
      destruct (status job); try discriminate; reflexivity. }
    rewrite Hc. cbn [negb]. eauto.
  - intros cw now job_id uid admin table containers job Hrow Hid Hfin Hown.
    unfold JobsRoutes.cancel_job. rewrite Hrow.
    assert (Hperm : negb (user_id job =? uid)%Z && negb admin = false).
    { destruct Hown as [<-| ->].
      - now rewrite Z.eqb_refl.
      - apply andb_false_r. }
    rewrite Hperm.
    assert (Hid' : id (JobsRoutes.mark_cancelled now job) = job_id).
    { unfold JobsRoutes.mark_cancelled. rewrite stamp_finished_id.
      now destruct job. }
    rewrite Hid'.
    eexists _, _, (JobsRoutes.mark_cancelled now job).
    split; [reflexivity|].
    unfold JobsRoutes.mark_cancelled, is_finished.
    rewrite stamp_finished_status, stamp_finished_finished_at,
      stamp_finished_duration.
    destruct job; cbn. repeat split; try reflexivity.
    unfold stamp_finished; cbn. now destruct started_at0.
    unfold stamp_finished; cbn. now destruct started_at0.
Qed.

Lemma terminal_status_amended_witness :
  ({[1%Z := finished_job]} : gmap Z Job) !! 1%Z = Some finished_job
  /\ id finished_job = 1%Z
  /\ is_finished finished_job = true
  /\ (user_id finished_job = 7%Z \/ false = true)
  /\ exists response containers' job',
       JobsRoutes.cancel_job container_found (seconds 9) 1 7 false
                             {[1%Z := finished_job]} ∅
       = (JobsRoutes.Response response,
          <[1%Z := job']> ({[1%Z := finished_job]} : gmap Z Job),
          containers')
       /\ status job' = CANCELLED
       /\ is_finished job' = true
       /\ finished_at job' = Some (seconds 9)
       /\ duration_seconds job'
          = match started_at finished_job with
            | Some started => Some (total_seconds (seconds 9 - started))
            | None => duration_seconds finished_job
            end
       /\ exit_code job' = exit_code finished_job
       /\ error_message job' = error_message finished_job.
Proof.
  assert (H1 : ({[1%Z := finished_job]} : gmap Z Job) !! 1%Z
               = Some finished_job) by apply lookup_singleton_eq.
  assert (H2 : id finished_job = 1%Z) by reflexivity.
  assert (H3 : is_finished finished_job = true) by reflexivity.
  assert (H4 : user_id finished_job = 7%Z \/ false = true)
    by (left; reflexivity).
  repeat (split; [assumption|]).
  exact (proj2 (proj2 terminal_status_amended) container_found (seconds 9)
           1%Z 7%Z false _ ∅ finished_job H1 H2 H3 H4).
Defined.

(** C1 as stated fails: job 1 succeeded and finished at second 5; a
    cancel request of its owner at second 9 turns its status into
    cancelled and its finished_at into second 9, and changes its
    duration. *)
Lemma cancel_changes_finished_job :
  is_finished finished_job = true
  /\ status finished_job = SUCCESS
  /\ finished_at finished_job = Some (seconds 5)
  /\ duration_seconds finished_job = Some (total_seconds (seconds 3))
  /\ exists job',
       (user_cancels (seconds 9) ({[1%Z := finished_job]}, ∅)).1 !! 1%Z
       = Some job'
       /\ status job' = CANCELLED
       /\ finished_at job' = Some (seconds 9)
       /\ duration_seconds job' = Some (total_seconds (seconds 7)).
Proof.
  repeat (split; [reflexivity|]).
  eexists. split; [vm_compute; reflexivity|].
  repeat split; reflexivity.
Qed.

(** C2.  The code at the failing input: job 1 is running when its owner
    posts a cancel request, and the route answers with status cancelled.
    The supervisor then wakes up, finds the container gone (or killed,
    with exit code 137) and commits failed over it. *)
Theorem cancel_during_run_is_overwritten :
  option_map status
    ((user_cancels (seconds 3) ({[1%Z := running_job]}, {[1%Z := "c1"]})).1
       !! 1%Z)
  = Some CANCELLED
  /\ final_status cancelled_run = Some FAILED
  /\ final_status killed_run = Some FAILED.
Proof. repeat split; vm_compute; reflexivity. Qed.

(** C3 (amended).  This is about the row that [submit_job] stores.  Its
    profile is the one the request names, or the analyzer's
    recommendation when the request says auto.  Its mode is the
    analyzer's, whatever mode the request names, except that a request
    for the gpu profile is stored with mode gpu. *)
Theorem submit_job_allocation `{lib : PyLib} (avail gpu : bool)
    (request : Schemas.JobSubmitRequest) (uid new_id : Z) (created : datetime)
    (job : Job) :
  JobsRoutes.submit_job avail gpu request uid new_id created = Ok job ->
  exists analysis,
    ScriptAnalyzer.analyze_script (Schemas.code request)
                                  (if avail then gpu else false)
    = Ok analysis
    /\ resource_profile job
       = match Schemas.resource_profile request with
         | Schemas.P_AUTO => ScriptAnalyzer.recommended_profile analysis
         | p => Schemas.profile_value p
         end
    /\ execution_mode job
       = match Schemas.resource_profile request with
         | Schemas.P_GPU => "gpu"
         | _ => ScriptAnalyzer.execution_mode analysis
         end.
Proof.
  unfold JobsRoutes.submit_job.
  destruct (ScriptAnalyzer.analyze_script _ _) as [a|]; [|discriminate].
  cbn [bind].
  destruct (match Schemas.custom_config request with
            | Some _ => _ | None => _ end) as [[[ts cj] ar]|];
    [|destruct (if String.eqb _ "auto" then _ else _); discriminate].
  cbn [bind]. intros H. exists a. split; [reflexivity|].
  destruct (Schemas.resource_profile request); cbn in H;
    destruct (opt_str_truthy cj); injection H as <-; split; reflexivity.
Qed.

Lemma submit_job_allocation_witness :
  JobsRoutes.submit_job true true gpu_mode_request 7 1 (seconds 0)
  = Ok pending_job
  /\ exists analysis,
       ScriptAnalyzer.analyze_script (Schemas.code gpu_mode_request)
                                     (if true then true else false)
       = Ok analysis
       /\ resource_profile pending_job
          = match Schemas.resource_profile gpu_mode_request with
            | Schemas.P_AUTO => ScriptAnalyzer.recommended_profile analysis
            | p => Schemas.profile_value p
            end
       /\ execution_mode pending_job
          = match Schemas.resource_profile gpu_mode_request with
            | Schemas.P_GPU => "gpu"
            | _ => ScriptAnalyzer.execution_mode analysis
            end.
Proof.
  assert (H : JobsRoutes.submit_job true true gpu_mode_request 7 1 (seconds 0)
              = Ok pending_job) by (vm_compute; reflexivity).
  split; [exact H|].
  exact (submit_job_allocation true true gpu_mode_request 7 1 (seconds 0)
           pending_job H).
Defined.

(** C3 as stated fails: a request that names mode gpu and profile small
    for a one-line script is stored with mode cpu, the analyzer's mode. *)
Lemma requested_mode_is_ignored :
  Schemas.mode_value (Schemas.execution_mode gpu_mode_request) = "gpu"
  /\ exists job,
       JobsRoutes.submit_job true true gpu_mode_request 7 1 (seconds 0)
       = Ok job
       /\ execution_mode job = "cpu".
Proof.
  split; [reflexivity|]. exists pending_job.
  split; vm_compute; reflexivity.
Qed.

End LifecycleClaims.

(* ===================================================================== *)
(** ** Replay of the persisted log *)
(* ===================================================================== *)

Module ReplayClaims.

Import Models WebSocketRoutes Examples.

(** The replay of the lines [lines], numbered from [n]. *)
Lemma replay_lines (job_id : Z) (lines : list string) (n : nat) :
  let replay :=
    omap (replay_line job_id) (imap (fun k line => ((n + k)%nat, line)) lines)
  in
  Forall (fun m => Spec.is_log m = true) replay
  /\ omap Spec.log_text replay
     = map rstrip (List.filter Spec.nonblank lines)
  /\ forall i line,
       lines !! i = Some line -> Spec.nonblank line = true ->
       In (Log job_id "stdout" (rstrip line) (Some (n + i + 1)%nat)) replay.
Proof.
  revert n. induction lines as [|l lines IH]; intros n.
  - cbn. repeat split; [constructor|]. intros i line H. discriminate.
  - cbv zeta. rewrite imap_cons.
    rewrite (imap_ext _ (fun k line => ((S n + k)%nat, line)) lines)
      by (intros; cbn; f_equal; lia).
    destruct (IH (S n)) as (IH1 & IH2 & IH3).
    cbn [omap list_omap replay_line List.filter]. fold (Spec.nonblank l).
    destruct (Spec.nonblank l) eqn:Hl.
    + split; [constructor; [reflexivity|exact IH1]|].
      split; [cbn; f_equal; exact IH2|].
      intros [|i] line Hi Hnb.
      * injection Hi as <-. left. reflexivity.
      * right. replace (n + S i + 1)%nat with (S n + i + 1)%nat by lia.
        apply IH3; assumption.
    + split; [exact IH1|]. split; [exact IH2|].
      intros [|i] line Hi Hnb.
      * injection Hi as <-. congruence.
      * replace (n + S i + 1)%nat with (S n + i + 1)%nat by lia.
        apply IH3; assumption.
Qed.

(** C9 (amended).  A subscriber that connects to the log stream of a job
    already in a terminal state, and stays connected, receives the
    connection message, then one log message for every line of the
    persisted log that is not blank (its text stripped on the right,
    with its line number), in order, then one complete message, and
    nothing more: the handler returns. *)
Theorem replay_for_finished_job (uid job_id : Z) (table : gmap Z Job)
    (job : Job) (log_file : option string) (turns : list live_turn) :
  table !! job_id = Some job ->
  user_id job = uid ->
  uid <> 0%Z ->
  is_finished job = true ->
  exists replay,
    websocket_job_logs (Some uid) table job_id log_file turns
    = Sent (Connected job_id (value (status job))
              :: replay ++ [Complete job_id (value (status job)) None])
           true
    /\ Forall (fun m => Spec.is_log m = true) replay
    /\ omap Spec.log_text replay
       = map rstrip
             (List.filter Spec.nonblank (readlines (default "" log_file)))
    /\ forall i line,
         readlines (default "" log_file) !! i = Some line ->
         Spec.nonblank line = true ->
         In (Log job_id "stdout" (rstrip line) (Some (S i))) replay.
Proof.
  intros Hrow Huid Hnz Hfin.
  exists (send_existing_logs log_file job_id 0). split.
  - unfold websocket_job_logs. rewrite Hrow, Huid, Z.eqb_refl.
    destruct (Z.eqb_spec uid 0) as [E|_]; [contradiction|].
    cbn [negb]. unfold is_finished in Hfin. unfold is_terminal.
    rewrite Hfin. reflexivity.
  - unfold send_existing_logs. destruct log_file as [text|].
    + cbn [default]. rewrite drop_0.
      destruct (replay_lines job_id (readlines text) 0) as (H1 & H2 & H3).
      repeat split; try assumption.
      intros i line Hi Hnb. specialize (H3 i line Hi Hnb).
      replace (0 + i + 1)%nat with (S i) in H3 by lia. exact H3.
    + cbn. repeat split; [constructor|]. intros i line H. discriminate.
Qed.

Lemma replay_for_finished_job_witness :
  ({[1%Z := finished_job]} : gmap Z Job) !! 1%Z = Some finished_job
  /\ user_id finished_job = 7%Z
  /\ 7%Z <> 0%Z
  /\ is_finished finished_job = true
  /\ exists replay,
       websocket_job_logs (Some 7%Z) {[1%Z := finished_job]} 1
                          (Some three_line_log) []
       = Sent (Connected 1 (value (status finished_job))
                 :: replay ++ [Complete 1 (value (status finished_job)) None])
              true
       /\ Forall (fun m => Spec.is_log m = true) replay
       /\ omap Spec.log_text replay
          = map rstrip
                (List.filter Spec.nonblank
                   (readlines (default "" (Some three_line_log))))
       /\ forall i line,
            readlines (default "" (Some three_line_log)) !! i = Some line ->
            Spec.nonblank line = true ->
            In (Log 1 "stdout" (rstrip line) (Some (S i))) replay.
Proof.
  assert (H1 : ({[1%Z := finished_job]} : gmap Z Job) !! 1%Z
               = Some finished_job) by apply lookup_singleton_eq.
  assert (H2 : user_id finished_job = 7%Z) by reflexivity.
  assert (H3 : 7%Z <> 0%Z) by discriminate.
  assert (H4 : is_finished finished_job = true) by reflexivity.
  repeat (split; [assumption|]).
  exact (replay_for_finished_job 7 1 _ finished_job (Some three_line_log) []
           H1 H2 H3 H4).
Defined.

(** C9 as stated fails: the persisted log has three lines, the second one
    empty; the subscriber receives two log messages, for lines 1 and 3,
    and none for line 2. *)
Lemma blank_line_is_not_replayed :
  readlines three_line_log
  = ["a" +:+ String newline ""; String newline ""; "b" +:+ String newline ""]
  /\ websocket_job_logs (Some 7%Z) {[1%Z := finished_job]} 1
                        (Some three_line_log) []
     = Sent [ Connected 1 "success";
              Log 1 "stdout" "a" (Some 1%nat);
              Log 1 "stdout" "b" (Some 3%nat);
              Complete 1 "success" None ]
            true.
Proof. split; vm_compute; reflexivity. Qed.

End ReplayClaims.

(* ===================================================================== *)
(** ** Further properties: the job model *)
(* ===================================================================== *)

Module ModelProperties.

Import Models.

(** X1.  The seven statuses split into the cancellable ones
    and the finished ones: a job is cancellable exactly when it is not
    finished, and a job that is running (or queued) is cancellable and
    not finished. *)
Theorem cancellable_iff_not_finished (j : Job) :
  is_cancellable j = negb (is_finished j)
  /\ (is_running j = true -> is_cancellable j = true)
  /\ (is_running j = true -> is_finished j = false).
Proof.
  unfold is_cancellable, is_finished, is_running.
  destruct (status j); repeat split; try reflexivity; intros H;
    vm_compute in H; try discriminate; reflexivity.
Qed.

End ModelProperties.

(* ===================================================================== *)
(** ** Further properties: the analyzer *)
(* ===================================================================== *)

Module AnalyzerProperties.

Import ScriptAnalyzer AnalyzerFacts Examples.

Ltac pick := repeat first [apply list_elem_of_here | apply list_elem_of_further].

(** The characters of a needle are characters of the haystack. *)
Lemma is_prefix_chars (p s : string) (c : ascii) :
  is_prefix p s = true ->
  In c (list_ascii_of_string p) -> In c (list_ascii_of_string s).
Proof.
  revert s. induction p as [|a p IH]; intros [|b s]; cbn; try tauto;
    try discriminate.
  intros H. apply andb_true_iff in H as [Hab Hp].
  apply Ascii.eqb_eq in Hab as ->. intros [->|Hc]; [now left|].
  right. now apply IH.
Qed.

Lemma contains_chars (needle s : string) (c : ascii) :
  contains needle s = true ->
  In c (list_ascii_of_string needle) -> In c (list_ascii_of_string s).
Proof.
  induction s as [|b s IH].
  - cbn. rewrite orb_false_r. apply is_prefix_chars.
  - change (contains needle (String b s))
      with (is_prefix needle (String b s) || contains needle s).
    intros H Hc. apply orb_true_iff in H as [H|H].
    + now apply (is_prefix_chars needle).
    + right. now apply IH.
Qed.

Lemma chars_app (a b : string) (c : ascii) :
  In c (list_ascii_of_string b) -> In c (list_ascii_of_string (a +:+ b)).
Proof. induction a as [|x a IH]; cbn; [auto|intros H; right; auto]. Qed.

(** A script that mentions [name.] or [name(] is not blank. *)
Lemma referenced_not_blank (name s : string) :
  contains (name +:+ ".") s = true \/ contains (name +:+ "(") s = true ->
  ~ Spec.blank s.
Proof.
  intros [H|H] Hb; unfold Spec.blank in Hb; rewrite Forall_forall in Hb.
  - assert (Hc : In "."%char (list_ascii_of_string s)).
    { apply (contains_chars _ _ _ H). apply chars_app. now left. }
    apply list_elem_of_In, Hb in Hc. discriminate.
  - assert (Hc : In "("%char (list_ascii_of_string s)).
    { apply (contains_chars _ _ _ H). apply chars_app. now left. }
    apply list_elem_of_In, Hb in Hc. discriminate.
Qed.

Lemma table_get_fst (table : list (string * string)) (name : string) :
  In name (map fst table) -> exists d, table_get table name = Some d.
Proof.
  induction table as [|[k v] table IH]; cbn; [tauto|].
  intros [->|H].
  - rewrite String.eqb_refl. eauto.
  - destruct (String.eqb k name); eauto.
Qed.

(** The heuristic pass of [_detect_libraries] only adds names, and adds
    the name of every listed library that the script references. *)
Lemma heuristic_keeps (s : string) (names acc : list string) (x : string) :
  x ∈ acc ->
  x ∈ fold_left (fun detected lib =>
                   if contains (lib +:+ ".") s || contains (lib +:+ "(") s
                   then if bool_decide (lib ∈ detected) then detected
                        else (detected ++ [lib])
                   else detected) names acc.
Proof.
  revert acc. induction names as [|n names IH]; intros acc H; cbn; [exact H|].
  apply IH. destruct (_ || _); [|exact H].
  case_bool_decide; [exact H|]. apply elem_of_app. now left.
Qed.

Lemma heuristic_adds (s : string) (names acc : list string) (name : string) :
  In name names ->
  contains (name +:+ ".") s = true \/ contains (name +:+ "(") s = true ->
  name ∈ fold_left (fun detected lib =>
                      if contains (lib +:+ ".") s || contains (lib +:+ "(") s
                      then if bool_decide (lib ∈ detected) then detected
                           else (detected ++ [lib])
                      else detected) names acc.
Proof.
  revert acc. induction names as [|n names IH]; intros acc; cbn; [tauto|].
  intros [->|Hin] Href.
  - apply heuristic_keeps.
    assert (E : contains (name +:+ ".") s || contains (name +:+ "(") s = true)
      by (apply orb_true_iff; exact Href).
    rewrite E. case_bool_decide as Hm; [exact Hm|].
    apply elem_of_app. right. apply list_elem_of_here.
  - now apply IH.
Qed.

Lemma list_set_elem (l : list string) (x : string) : x ∈ list_set l <-> x ∈ l.
Proof. unfold list_set. rewrite elem_of_elements. apply elem_of_list_to_set. Qed.

(** The loop over the detected libraries adds the indicator of every
    library found in the table. *)
Lemma guarded_loop_member (table : list (string * string))
    (render : string -> string -> string) (libraries acc out : list string) :
  fold_left (fun acc lib =>
               let* indicators := acc in
               if table_mem table lib
               then let* descr := table_getitem table lib in
                    Ok (indicators ++ [render lib descr])
               else Ok indicators)
            libraries (Ok acc) = Ok out ->
  (forall x, x ∈ acc -> x ∈ out)
  /\ (forall lib d, lib ∈ libraries -> table_get table lib = Some d ->
                    render lib d ∈ out).
Proof.
  revert acc. induction libraries as [|l libs IH]; intros acc; cbn.
  - intros [= <-]. split; [auto|]. intros lib d H. inversion H.
  - unfold table_mem, table_getitem.
    destruct (table_get table l) as [v|] eqn:E; cbn [bind].
    + intros H. destruct (IH _ H) as [H1 H2]. split.
      * intros x Hx. apply H1, elem_of_app. now left.
      * intros lib d Hl Hd. apply elem_of_cons in Hl as [->|Hl]; [|eauto].
        rewrite E in Hd. injection Hd as <-.
        apply H1, elem_of_app. right. apply list_elem_of_here.
    + intros H. destruct (IH _ H) as [H1 H2]. split; [exact H1|].
      intros lib d Hl Hd. apply elem_of_cons in Hl as [->|Hl]; [|eauto].
      congruence.
Qed.

Section WithLib.
Context `{lib : PyLib}.

Lemma detect_libraries_heuristic (s name : string) :
  In name (map fst GPU_LIBRARIES ++ map fst MEMORY_INTENSIVE_LIBRARIES) ->
  contains (name +:+ ".") s = true \/ contains (name +:+ "(") s = true ->
  name ∈ _detect_libraries s.
Proof.
  intros Hin Href. unfold _detect_libraries. apply list_set_elem.
  now apply heuristic_adds.
Qed.

Lemma pattern_loop_keeps (s : string) (render : string -> string)
    (patterns : list (string * string)) (acc : list string) (x : string) :
  x ∈ acc ->
  x ∈ fold_left (fun indicators '(pattern, description) =>
                   if re_search_ignorecase pattern s
                   then (indicators ++ [render description])
                   else indicators) patterns acc.
Proof.
  revert acc. induction patterns as [|[p d] patterns IH]; intros acc H; cbn;
    [exact H|].
  apply IH. destruct (re_search_ignorecase p s); [|exact H].
  apply elem_of_app. now left.
Qed.

Lemma gpu_library_indicator (s name : string) (libs g : list string) :
  In name (map fst GPU_LIBRARIES) -> name ∈ libs ->
  _detect_gpu_usage s libs = Ok g -> g <> [].
Proof.
  intros Hin Hl. destruct (table_get_fst _ _ Hin) as [d Hd].
  unfold _detect_gpu_usage.
  destruct (fold_left _ libs (Ok [])) as [out|] eqn:E; [|discriminate].
  cbn [bind]. set (final := fold_left _ GPU_USAGE_PATTERNS out).
  intros H. assert (Hg : list_set final = g) by congruence. subst g.
  apply guarded_loop_member in E as [_ E]. specialize (E name d Hl Hd).
  assert (E' : ("Library: " +:+ name +:+ " (" +:+ d +:+ ")") ∈ list_set final).
  { apply list_set_elem. unfold final.
    apply (pattern_loop_keeps s (fun d => "Pattern: " +:+ d)). exact E. }
  intros Hnil. rewrite Hnil in E'. inversion E'.
Qed.

Lemma memory_library_indicator (name : string) (libs m : list string) :
  In name (map fst MEMORY_INTENSIVE_LIBRARIES) -> name ∈ libs ->
  _detect_memory_usage libs = Ok m -> m <> [].
Proof.
  intros Hin Hl. destruct (table_get_fst _ _ Hin) as [d Hd].
  unfold _detect_memory_usage. intros E.
  apply guarded_loop_member in E as [_ E]. specialize (E name d Hl Hd).
  intros ->. inversion E.
Qed.

End WithLib.

(** The four choices that an analysis can carry. *)
Lemma analysis_choice `{lib : PyLib} (gpu : bool) (s : string)
    (a : ScriptAnalysis) :
  analyze gpu s = Ok a ->
  (recommended_profile a, execution_mode a)
    ∈ [("small", "cpu"); ("medium", "cpu"); ("large", "cpu"); ("gpu", "gpu")]
  /\ (execution_mode a = "gpu" -> gpu = true).
Proof.
  destruct (blank_dec s) as [Hb|Hnb].
  - rewrite (analyze_blank gpu s Hb). intros [= <-]. cbn.
    split; [pick|discriminate].
  - destruct (analyze_not_blank gpu s Hnb) as (g & m & _ & _ & ->).
    pose proof (determine_profile_choice (_detect_libraries s) g m
                  (_detect_compute_patterns s)) as Hc.
    destruct (_determine_profile _ g m _) as [[[p md] cf] r].
    cbn [fst] in Hc. unfold Spec.decision_table in Hc.
    destruct (3 <=? _)%nat;
      [|destruct (8 <=? _)%nat;
        [|destruct (4 <=? _)%nat; [|destruct (2 <=? _)%nat]]];
      injection Hc as -> ->; destruct gpu; cbn; intros [= <-]; cbn;
      (split; [pick|try discriminate; reflexivity]).
Qed.

(** X2.  Whatever the script, the analysis that [analyze] returns
    recommends one of the four profiles of the configuration and one of
    the two modes; the mode is gpu exactly when the profile is gpu; and
    mode gpu is recommended only by an analyzer that was told a GPU is
    available. *)
Theorem analysis_is_consistent `{lib : PyLib} (gpu : bool) (s : string)
    (a : ScriptAnalysis) :
  analyze gpu s = Ok a ->
  recommended_profile a ∈ ["small"; "medium"; "large"; "gpu"]
  /\ execution_mode a ∈ ["cpu"; "gpu"]
  /\ (execution_mode a = "gpu" <-> recommended_profile a = "gpu")
  /\ (execution_mode a = "gpu" -> gpu = true).
Proof.
  intros H. destruct (analysis_choice gpu s a H) as [Hc Hg].
  destruct a as [p m ? ? ? ? ? ?]. cbn [recommended_profile execution_mode] in *.
  repeat (apply elem_of_cons in Hc as [Hc|Hc];
          [injection Hc as -> ->; repeat split;
           first [solve [pick] | discriminate | intros; reflexivity
                 | exact Hg] |]).
  now apply elem_of_nil in Hc.
Qed.

Lemma analysis_is_consistent_witness :
  analyze false hello_script = Ok hello_analysis
  /\ recommended_profile hello_analysis ∈ ["small"; "medium"; "large"; "gpu"]
  /\ execution_mode hello_analysis ∈ ["cpu"; "gpu"]
  /\ (execution_mode hello_analysis = "gpu"
      <-> recommended_profile hello_analysis = "gpu")
  /\ (execution_mode hello_analysis = "gpu" -> false = true).
Proof.
  assert (H : analyze false hello_script = Ok hello_analysis)
    by (vm_compute; reflexivity).
  split; [exact H|].
  exact (analysis_is_consistent false hello_script hello_analysis H).
Defined.

(** X3.  A script that references one of the listed GPU libraries
    as [name.] or [name(] is given profile gpu and mode gpu when a GPU is
    available, and profile large and mode cpu when none is, whatever the
    regular expressions of the analyzer find. *)
Theorem gpu_library_selects_gpu `{lib : PyLib} (gpu : bool) (s name : string)
    (a : ScriptAnalysis) :
  In name (map fst GPU_LIBRARIES) ->
  contains (name +:+ ".") s = true \/ contains (name +:+ "(") s = true ->
  analyze gpu s = Ok a ->
  (recommended_profile a, execution_mode a)
  = if gpu then ("gpu", "gpu") else ("large", "cpu").
Proof.
  intros Hin Href.
  destruct (analyze_not_blank gpu s (referenced_not_blank name s Href))
    as (g & m & Hg & _ & ->).
  assert (Hl : name ∈ _detect_libraries s).
  { apply detect_libraries_heuristic; [|exact Href].
    apply in_or_app. now left. }
  pose proof (gpu_library_indicator s name _ g Hin Hl Hg) as Hne.
  pose proof (determine_profile_choice (_detect_libraries s) g m
                (_detect_compute_patterns s)) as Hc.
  destruct (_determine_profile _ g m _) as [[[p md] cf] r].
  cbn [fst] in Hc. unfold Spec.decision_table in Hc.
  assert (E : (3 <=? 3 * length g)%nat = true).
  { apply Nat.leb_le. destruct g; [congruence|cbn [length]; lia]. }
  rewrite E in Hc. injection Hc as -> ->.
  destruct gpu; cbn; intros [= <-]; reflexivity.
Qed.

Lemma gpu_library_selects_gpu_witness :
  In "torch" (map fst GPU_LIBRARIES)
  /\ (contains ("torch" +:+ ".") torch_script = true
      \/ contains ("torch" +:+ "(") torch_script = true)
  /\ analyze true torch_script = Ok torch_analysis
  /\ (recommended_profile torch_analysis, execution_mode torch_analysis)
     = if true then ("gpu", "gpu") else ("large", "cpu").
Proof.
  assert (H1 : In "torch" (map fst GPU_LIBRARIES)) by (left; reflexivity).
  assert (H2 : contains ("torch" +:+ ".") torch_script = true
               \/ contains ("torch" +:+ "(") torch_script = true)
    by (left; vm_compute; reflexivity).
  assert (H3 : analyze true torch_script = Ok torch_analysis)
    by (vm_compute; reflexivity).
  split; [exact H1|].
  split; [exact H2|].
  split; [exact H3|].
  exact (gpu_library_selects_gpu true torch_script "torch" torch_analysis
           H1 H2 H3).
Defined.

(** X4.  A script that references one of the listed
    memory-intensive libraries as [name.] or [name(] is never given the
    small profile. *)
Theorem memory_library_is_never_small `{lib : PyLib} (gpu : bool)
    (s name : string) (a : ScriptAnalysis) :
  In name (map fst MEMORY_INTENSIVE_LIBRARIES) ->
  contains (name +:+ ".") s = true \/ contains (name +:+ "(") s = true ->
  analyze gpu s = Ok a ->
  recommended_profile a <> "small".
Proof.
  intros Hin Href.
  destruct (analyze_not_blank gpu s (referenced_not_blank name s Href))
    as (g & m & _ & Hm & ->).
  assert (Hl : name ∈ _detect_libraries s).
  { apply detect_libraries_heuristic; [|exact Href].
    apply in_or_app. now right. }
  pose proof (memory_library_indicator name _ m Hin Hl Hm) as Hne.
  pose proof (determine_profile_choice (_detect_libraries s) g m
                (_detect_compute_patterns s)) as Hc.
  destruct (_determine_profile _ g m _) as [[[p md] cf] r].
  cbn [fst] in Hc. unfold Spec.decision_table in Hc.
  assert (E : (2 <=? 2 * length m)%nat = true).
  { apply Nat.leb_le. destruct m; [congruence|cbn [length]; lia]. }
  rewrite E in Hc.
  destruct (3 <=? _)%nat;
    [|destruct (8 <=? _)%nat; [|destruct (4 <=? _)%nat]];
    injection Hc as -> ->; destruct gpu; cbn; intros [= <-]; discriminate.
Qed.

Lemma memory_library_is_never_small_witness :
  In "pandas" (map fst MEMORY_INTENSIVE_LIBRARIES)
  /\ (contains ("pandas" +:+ ".") pandas_script = true
      \/ contains ("pandas" +:+ "(") pandas_script = true)
  /\ analyze true pandas_script = Ok pandas_analysis
  /\ recommended_profile pandas_analysis <> "small".
Proof.
  assert (H1 : In "pandas" (map fst MEMORY_INTENSIVE_LIBRARIES))
    by (left; reflexivity).
  assert (H2 : contains ("pandas" +:+ ".") pandas_script = true
               \/ contains ("pandas" +:+ "(") pandas_script = true)
    by (left; vm_compute; reflexivity).
  assert (H3 : analyze true pandas_script = Ok pandas_analysis)
    by (vm_compute; reflexivity).
  split; [exact H1|].
  split; [exact H2|].
  split; [exact H3|].
  exact (memory_library_is_never_small true pandas_script "pandas"
           pandas_analysis H1 H2 H3).
Defined.

End AnalyzerProperties.

(* ===================================================================== *)
(** ** Further properties: resource limits *)
(* ===================================================================== *)

Module LimitsProperties.

Import Models Executor ExecutorFacts MarkerFacts Examples Props.

(** X5.  In a text that carries the marker after a part without
    the marker's text, the search finds the marker's payload, which ends
    at the first closing brace that follows the opening one: the text
    after that brace is not part of the payload. *)
Theorem marker_is_found (prefix body tail : string) :
  contains "CUSTOM_CONFIG:{" prefix = false ->
  one_line_without_brace body = true ->
  search_custom_config
    (prefix +:+ " | CUSTOM_CONFIG:" +:+ "{" +:+ body +:+ "}" +:+ tail)
  = Some ("{" +:+ body +:+ "}").
Proof.
  intros Hp Hb.
  change (prefix +:+ " | CUSTOM_CONFIG:" +:+ "{" +:+ body +:+ "}" +:+ tail)
    with (prefix +:+ String " " ("| CUSTOM_CONFIG:{" +:+ body +:+ "}" +:+ tail)).
  rewrite (search_after_text _ _ Hp).
  exact (search_at_marker (body +:+ "}" +:+ tail) (body +:+ "}")
           (lazy_until_first_brace body tail Hb)).
Qed.

Lemma marker_is_found_witness :
  contains "CUSTOM_CONFIG:{" "Simple script - using small profile" = false
  /\ one_line_without_brace timeout_member = true
  /\ search_custom_config
       ("Simple script - using small profile" +:+ " | CUSTOM_CONFIG:" +:+ "{"
          +:+ timeout_member +:+ "}" +:+ ", }")
     = Some ("{" +:+ timeout_member +:+ "}").
Proof.
  assert (H1 : contains "CUSTOM_CONFIG:{" "Simple script - using small profile"
               = false) by (vm_compute; reflexivity).
  assert (H2 : one_line_without_brace timeout_member = true)
    by (vm_compute; reflexivity).
  split; [exact H1|].
  split; [exact H2|].
  exact (marker_is_found "Simple script - using small profile" timeout_member
           ", }" H1 H2).
Defined.

Section WithLib.
Context `{lib : PyLib}.

Lemma limits_without_job (profile : string) :
  get_resource_limits profile None
  = match Spec.resolve profile with
    | Some limits => Ok limits
    | None => Raise (KeyError ("'medium'"))
    end.
Proof.
  unfold get_resource_limits. rewrite lookup_resolved.
  destruct (resolve_total profile) as [l ->]. reflexivity.
Qed.

End WithLib.

(** X6.  For a job whose analysis_reasoning is empty or does
    not contain the text of the marker, [get_resource_limits] returns
    what it returns without a job: a copy of the profile's entry in the
    table, and the entry of "medium" for a name that the table does not
    have. *)
Theorem no_marker_keeps_defaults `{lib : PyLib} (profile : string) (job : Job) :
  contains "CUSTOM_CONFIG:{" (default "" (analysis_reasoning job)) = false ->
  get_resource_limits profile (Some job) = get_resource_limits profile None
  /\ exists limits,
       get_resource_limits profile None = Ok limits
       /\ match Config.RESOURCE_PROFILES !! profile with
          | Some entry => limits = entry
          | None => Config.RESOURCE_PROFILES !! "medium" = Some limits
          end.
Proof.
  intros H. split.
  - unfold get_resource_limits.
    destruct (Config.RESOURCE_PROFILES !! _); [|reflexivity]. cbn [bind].
    destruct (opt_str_truthy _); [|reflexivity].
    now rewrite (search_without_marker _ H).
  - rewrite limits_without_job. destruct (resolve_total profile) as [l Hl].
    rewrite Hl. exists l. split; [reflexivity|].
    unfold Spec.resolve in Hl.
    destruct (Config.RESOURCE_PROFILES !! profile); congruence.
Qed.

Lemma no_marker_keeps_defaults_witness :
  contains "CUSTOM_CONFIG:{" (default "" (analysis_reasoning pending_job))
  = false
  /\ get_resource_limits "huge" (Some pending_job)
     = get_resource_limits "huge" None
  /\ exists limits,
       get_resource_limits "huge" None = Ok limits
       /\ match Config.RESOURCE_PROFILES !! "huge" with
          | Some entry => limits = entry
          | None => Config.RESOURCE_PROFILES !! "medium" = Some limits
          end.
Proof.
  assert (H : contains "CUSTOM_CONFIG:{"
                (default "" (analysis_reasoning pending_job)) = false)
    by (vm_compute; reflexivity).
  split; [exact H|].
  exact (no_marker_keeps_defaults "huge" pending_job H).
Defined.

(** X7.  When a request carries a custom configuration
    whose JSON text is one object without a closing brace or newline
    inside (a flat object), and the readable part of the stored reasoning
    does not itself contain the marker's text, the search that
    [get_resource_limits] runs on the job stored by [submit_job] finds
    exactly the text that [json.dumps] produced. *)
Theorem submitted_overrides_are_found `{lib : PyLib} (avail gpu : bool)
    (request : Schemas.JobSubmitRequest) (uid new_id : Z) (created : datetime)
    (job : Job) (analysis : ScriptAnalyzer.ScriptAnalysis)
    (cfg : dict) (body : string) :
  JobsRoutes.submit_job avail gpu request uid new_id created = Ok job ->
  ScriptAnalyzer.analyze_script (Schemas.code request)
                                (if avail then gpu else false) = Ok analysis ->
  Schemas.custom_config request = Some cfg ->
  cfg <> ∅ ->
  json_dumps cfg = "{" +:+ body +:+ "}" ->
  one_line_without_brace body = true ->
  contains "CUSTOM_CONFIG:{"
    (ScriptAnalyzer.reasoning analysis +:+ " | Custom config: "
       +:+ dict_str cfg) = false ->
  search_custom_config (default "" (analysis_reasoning job))
  = Some (json_dumps cfg).
Proof.
  intros Hsub Han Hcfg Hne Hdump Hbody Hclean.
  unfold JobsRoutes.submit_job in Hsub. rewrite Han, Hcfg in Hsub.
  cbn [bind] in Hsub.
  destruct (if String.eqb _ "auto" then _ else _) as [rp em].
  rewrite bool_decide_eq_false_2 in Hsub by exact Hne.
  destruct (match cfg !! "timeout" with Some _ => _ | None => _ end)
    as [ts|]; [|discriminate].
  cbn [bind] in Hsub. rewrite Hdump in Hsub.
  cbn [opt_str_truthy str_truthy String.append] in Hsub.
  injection Hsub as <-. cbn [analysis_reasoning set_analysis_reasoning default].
  rewrite Hdump.
  assert (H : search_custom_config
                ((ScriptAnalyzer.reasoning analysis +:+ " | Custom config: "
                    +:+ dict_str cfg)
                   +:+ String " " ("| CUSTOM_CONFIG:{" +:+ body +:+ "}" +:+ ""))
              = Some (String "{" (body +:+ "}"))).
  { rewrite (search_after_text _ _ Hclean).
    exact (search_at_marker (body +:+ "}" +:+ "") (body +:+ "}")
             (lazy_until_first_brace body "" Hbody)). }
  exact H.
Qed.

Lemma submitted_overrides_are_found_witness :
  JobsRoutes.submit_job true false
    (small_request (Some {["timeout" := PInt 600]})) 7 1 (seconds 0)
  = Ok long_timeout_job
  /\ ScriptAnalyzer.analyze_script
       (Schemas.code (small_request (Some {["timeout" := PInt 600]})))
       (if true then false else false) = Ok hello_analysis
  /\ Schemas.custom_config (small_request (Some {["timeout" := PInt 600]}))
     = Some {["timeout" := PInt 600]}
  /\ ({["timeout" := PInt 600]} : dict) <> ∅
  /\ json_dumps {["timeout" := PInt 600]} = "{" +:+ timeout_member +:+ "}"
  /\ one_line_without_brace timeout_member = true
  /\ contains "CUSTOM_CONFIG:{"
       (ScriptAnalyzer.reasoning hello_analysis +:+ " | Custom config: "
          +:+ dict_str {["timeout" := PInt 600]}) = false
  /\ search_custom_config (default "" (analysis_reasoning long_timeout_job))
     = Some (json_dumps {["timeout" := PInt 600]}).
Proof.
  assert (H1 : JobsRoutes.submit_job true false
                 (small_request (Some {["timeout" := PInt 600]})) 7 1
                 (seconds 0) = Ok long_timeout_job)
    by (vm_compute; reflexivity).
  assert (H2 : ScriptAnalyzer.analyze_script
                 (Schemas.code (small_request (Some {["timeout" := PInt 600]})))
                 (if true then false else false) = Ok hello_analysis)
    by (vm_compute; reflexivity).
  assert (H3 : Schemas.custom_config
                 (small_request (Some {["timeout" := PInt 600]}))
               = Some {["timeout" := PInt 600]}) by reflexivity.
  assert (H4 : ({["timeout" := PInt 600]} : dict) <> ∅)
    by (apply insert_non_empty).
  assert (H5 : json_dumps {["timeout" := PInt 600]}
               = "{" +:+ timeout_member +:+ "}") by (vm_compute; reflexivity).
  assert (H6 : one_line_without_brace timeout_member = true)
    by (vm_compute; reflexivity).
  assert (H7 : contains "CUSTOM_CONFIG:{"
                 (ScriptAnalyzer.reasoning hello_analysis
                    +:+ " | Custom config: "
                    +:+ dict_str {["timeout" := PInt 600]}) = false)
    by (vm_compute; reflexivity).
  split; [exact H1|].
  split; [exact H2|].
  split; [exact H3|].
  split; [exact H4|].
  split; [exact H5|].
  split; [exact H6|].
  split; [exact H7|].
  exact (submitted_overrides_are_found true false _ 7 1 (seconds 0)
           long_timeout_job hello_analysis _ timeout_member
           H1 H2 H3 H4 H5 H6 H7).
Defined.

(** The default timeouts of the table. *)
Lemma profile_timeouts (p : string) (l : dict) :
  Config.RESOURCE_PROFILES !! p = Some l ->
  exists d, l !! "timeout" = Some (PInt d) /\ (60 <= d <= 1800)%Z.
Proof.
  unfold Config.RESOURCE_PROFILES. intros H.
  repeat (apply lookup_insert_Some in H as [[<- <-]|[_ H]];
          [eexists; split; [reflexivity|lia] |]).
  rewrite lookup_empty in H. discriminate.
Qed.

(** [min] of two integers. *)
Lemma py_min_int (a b : Z) : py_min (PInt a) (PInt b) = Ok (PInt (Z.min a b)).
Proof.
  unfold py_min, py_lt, bind, py_num, float_lt.
  destruct (Qlt_bool (inject_Z b) (inject_Z a)) eqn:E.
  - apply PyFacts.Qlt_bool_true in E. rewrite <- Zlt_Qlt in E.
    now rewrite Z.min_r by lia.
  - apply PyFacts.Qlt_bool_false in E. rewrite <- Zle_Qle in E.
    now rewrite Z.min_l by lia.
Qed.

(** X8.  A job created by the upload route has no stored
    reasoning, so its limits are exactly the defaults of the profile
    named in the form (those of "medium" for a name that the table does
    not have), and its effective timeout is the smaller of the form's
    timeout, which the route does not validate, and the profile's
    default timeout: it is at most 1800 and has no lower bound. *)
Theorem uploaded_job_limits `{lib : PyLib} (filename : string)
    (content : option string) (mode profile : string) (timeout : Z)
    (uid new_id : Z) (created : datetime) (job : Job) :
  JobsRoutes.upload_and_run filename content mode profile timeout uid new_id
                            created = JobsRoutes.Response job ->
  exists limits d,
    Spec.resolve profile = Some limits
    /\ get_resource_limits (resource_profile job) (Some job) = Ok limits
    /\ limits !! "timeout" = Some (PInt d)
    /\ (60 <= d <= 1800)%Z
    /\ effective_timeout job = Ok (PInt (Z.min timeout d)).
Proof.
  unfold JobsRoutes.upload_and_run.
  destruct (negb _); [discriminate|].
  destruct content as [code|]; [|discriminate].
  intros [= <-].
  destruct (resolve_total profile) as [l Hl]. exists l.
  assert (Hlim : get_resource_limits profile
                   (Some {| id := new_id; user_id := uid;
                            script_name := filename;
                            script_content := Some code; status := PENDING;
                            execution_mode := mode;
                            resource_profile := profile;
                            timeout_seconds := PInt timeout;
                            container_id := None; created_at := Some created;
                            started_at := None; finished_at := None;
                            queued_at := None; duration_seconds := None;
                            queue_time_seconds := None; gpu_used := false;
                            exit_code := None; logs_location := None;
                            results_location := None; error_message := None;
                            auto_allocated := false;
                            analysis_reasoning := None |}) = Ok l).
  { unfold get_resource_limits. rewrite lookup_resolved, Hl. reflexivity. }
  assert (Hd : exists d, l !! "timeout" = Some (PInt d) /\ (60 <= d <= 1800)%Z).
  { unfold Spec.resolve in Hl.
    destruct (Config.RESOURCE_PROFILES !! profile) as [e|] eqn:E.
    - injection Hl as <-. exact (profile_timeouts _ _ E).
    - exact (profile_timeouts _ _ Hl). }
  destruct Hd as (d & Hd & Hrange). exists d.
  repeat split; try assumption; try lia.
  unfold effective_timeout. cbn [resource_profile timeout_seconds].
  rewrite Hlim. cbn [bind]. rewrite Hd. cbn [default]. apply py_min_int.
Qed.

Lemma uploaded_job_limits_witness :
  JobsRoutes.upload_and_run "train.py" (Some hello_script) "cpu" "huge" 0 7 3
                            (seconds 0)
  = JobsRoutes.Response uploaded_job
  /\ exists limits d,
       Spec.resolve "huge" = Some limits
       /\ get_resource_limits (resource_profile uploaded_job)
                              (Some uploaded_job) = Ok limits
       /\ limits !! "timeout" = Some (PInt d)
       /\ (60 <= d <= 1800)%Z
       /\ effective_timeout uploaded_job = Ok (PInt (Z.min 0 d)).
Proof.
  assert (H : JobsRoutes.upload_and_run "train.py" (Some hello_script) "cpu"
                "huge" 0 7 3 (seconds 0) = JobsRoutes.Response uploaded_job)
    by (vm_compute; reflexivity).
  split; [exact H|].
  exact (uploaded_job_limits "train.py" (Some hello_script) "cpu" "huge" 0 7 3
           (seconds 0) uploaded_job H).
Defined.

Lemma known_profile (p : string) :
  p ∈ ["small"; "medium"; "large"; "gpu"] ->
  is_Some (Config.RESOURCE_PROFILES !! p).
Proof.
  intros H. repeat (apply elem_of_cons in H as [->|H]; [now eexists|]).
  now apply elem_of_nil in H.
Qed.

(** X9.  The job that [submit_job] stores for a validated
    request is pending and marked auto-allocated, belongs to the caller
    and holds the submitted code; its timeout lies between 10 and 3600;
    its profile is one of the profiles of the configuration, so that
    the fallback to "medium" is never needed for it; its mode is cpu or
    gpu, and it is gpu whenever the profile is gpu. *)
Theorem stored_job_is_well_formed `{lib : PyLib} (avail gpu : bool)
    (request : Schemas.JobSubmitRequest) (uid new_id : Z) (created : datetime)
    (job : Job) :
  Schemas.valid request ->
  JobsRoutes.submit_job avail gpu request uid new_id created = Ok job ->
  status job = PENDING
  /\ auto_allocated job = true
  /\ user_id job = uid
  /\ script_content job = Some (Schemas.code request)
  /\ py_between 10 3600 (timeout_seconds job)
  /\ is_Some (Config.RESOURCE_PROFILES !! resource_profile job)
  /\ execution_mode job ∈ ["cpu"; "gpu"]
  /\ (resource_profile job = "gpu" -> execution_mode job = "gpu").
Proof.
  intros Hvalid Hsub.
  pose proof (LimitsClaims.submit_job_timeout_between _ _ _ _ _ _ _ Hvalid Hsub)
    as Htimeout.
  unfold JobsRoutes.submit_job in Hsub.
  destruct (ScriptAnalyzer.analyze_script _ _) as [a|] eqn:Ha; [|discriminate].
  apply AnalyzerProperties.analysis_choice in Ha as [Hc _].
  cbn [bind] in Hsub.
  destruct (match Schemas.custom_config request with
            | Some _ => _ | None => _ end) as [[[ts cj] ar]|];
    [|destruct (if String.eqb _ "auto" then _ else _); discriminate].
  cbn [bind] in Hsub.
  assert (Hfields :
    forall p m, (p, m) ∈ [("small", "cpu"); ("medium", "cpu");
                          ("large", "cpu"); ("gpu", "gpu")] \/
                (p ∈ ["small"; "medium"; "large"] /\ m ∈ ["cpu"; "gpu"]) ->
    is_Some (Config.RESOURCE_PROFILES !! p) /\ m ∈ ["cpu"; "gpu"]
    /\ (p = "gpu" -> m = "gpu")).
  { intros p m [H|[Hp Hm]].
    - repeat (apply elem_of_cons in H as [H|H]);
        [| | | |now apply elem_of_nil in H];
        injection H as -> ->;
        (split; [now eexists|]); (split; [AnalyzerProperties.pick|]);
        try reflexivity; discriminate.
    - split; [apply known_profile;
              repeat (apply elem_of_cons in Hp as [->|Hp];
                      [AnalyzerProperties.pick|]);
              now apply elem_of_nil in Hp|].
      split; [exact Hm|]. intros ->.
      repeat (apply elem_of_cons in Hp as [Hp|Hp]; [discriminate|]).
      now apply elem_of_nil in Hp. }
  assert (Hmode : ScriptAnalyzer.execution_mode a ∈ ["cpu"; "gpu"]).
  { repeat (apply elem_of_cons in Hc as [Hc|Hc]);
      [| | | |now apply elem_of_nil in Hc];
      injection Hc as _ ->; AnalyzerProperties.pick. }
  destruct (Schemas.resource_profile request); cbn in Hsub;
    destruct (opt_str_truthy cj); injection Hsub as <-;
    cbn [status auto_allocated user_id script_content resource_profile
           execution_mode set_analysis_reasoning];
    repeat (split; [reflexivity|]); (split; [exact Htimeout|]);
    first [ apply Hfields; left;
            now destruct (ScriptAnalyzer.recommended_profile a,
                          ScriptAnalyzer.execution_mode a)
          | apply Hfields; right; split;
            [AnalyzerProperties.pick|exact Hmode]
          | split; [now eexists|]; split;
            [AnalyzerProperties.pick|reflexivity] ].
Qed.

Lemma stored_job_is_well_formed_witness :
  Schemas.valid (small_request None)
  /\ JobsRoutes.submit_job true false (small_request None) 7 1 (seconds 0)
     = Ok pending_job
  /\ status pending_job = PENDING
  /\ auto_allocated pending_job = true
  /\ user_id pending_job = 7%Z
  /\ script_content pending_job = Some (Schemas.code (small_request None))
  /\ py_between 10 3600 (timeout_seconds pending_job)
  /\ is_Some (Config.RESOURCE_PROFILES !! resource_profile pending_job)
  /\ execution_mode pending_job ∈ ["cpu"; "gpu"]
  /\ (resource_profile pending_job = "gpu" ->
      execution_mode pending_job = "gpu").
Proof.
  assert (H1 : Schemas.valid (small_request None)).
  { unfold Schemas.valid. cbn. repeat split; [discriminate|lia|lia|lia]. }
  assert (H2 : JobsRoutes.submit_job true false (small_request None) 7 1
                 (seconds 0) = Ok pending_job) by (vm_compute; reflexivity).
  split; [exact H1|].
  split; [exact H2|].
  exact (stored_job_is_well_formed true false (small_request None) 7 1
           (seconds 0) pending_job H1 H2).
Defined.

(** X10.  The container that [build_container_config] describes
    carries the job's id in its name, memory and CPU caps within the
    ranges, and the GPU: devices are requested exactly when the job's
    mode is gpu and a GPU is available, and the GPU image is used exactly
    then, the CPU image otherwise. *)
Theorem container_matches_job `{lib : PyLib} (gpu : bool) (job : Job)
    (config : ContainerConfig) :
  build_container_config gpu job = Ok config ->
  Executor.name config = "ensam-job-" +:+ pretty (id job)
  /\ py_between 256 8192 (Executor.memory_mb config)
  /\ py_between 256 4096 (Executor.cpu_shares config)
  /\ (device_requests config = true
      <-> execution_mode job = "gpu" /\ gpu = true)
  /\ image config = (if device_requests config then Config.DOCKER_IMAGE_GPU
                     else Config.DOCKER_IMAGE_CPU).
Proof.
  intros H.
  destruct (LimitsClaims.container_config_in_ranges gpu job config H)
    as [Hm Hc].
  unfold build_container_config, bind in H.
  destruct (get_resource_limits _ _) as [l|]; [|discriminate].
  injection H as <-. cbn [Executor.name device_requests image].
  split; [reflexivity|]. split; [exact Hm|]. split; [exact Hc|].
  split; [|reflexivity].
  rewrite andb_true_iff, String.eqb_eq. reflexivity.
Qed.

Lemma container_matches_job_witness :
  build_container_config false big_memory_job = Ok big_memory_config
  /\ Executor.name big_memory_config
     = "ensam-job-" +:+ pretty (id big_memory_job)
  /\ py_between 256 8192 (Executor.memory_mb big_memory_config)
  /\ py_between 256 4096 (Executor.cpu_shares big_memory_config)
  /\ (device_requests big_memory_config = true
      <-> execution_mode big_memory_job = "gpu" /\ false = true)
  /\ image big_memory_config
     = (if device_requests big_memory_config then Config.DOCKER_IMAGE_GPU
        else Config.DOCKER_IMAGE_CPU).
Proof.
  assert (H : build_container_config false big_memory_job
              = Ok big_memory_config) by (vm_compute; reflexivity).
  split; [exact H|].
  exact (container_matches_job false big_memory_job big_memory_config H).
Defined.

End LimitsProperties.

(* ===================================================================== *)
(** ** Further properties: the supervisor *)
(* ===================================================================== *)

Module SupervisorProperties.

Import Models Executor SupervisorFacts Spec Props Examples.

(** *** Steps that leave an attribute of the job alone *)

Lemma keeps_bind {A B C : Type} (f : Job -> C) (c : M A) (k : A -> M B) :
  keeps f c -> (forall a, keeps f (k a)) -> keeps f (bindM c k).
Proof.
  intros Hc Hk st r st'. unfold bindM.
  destruct (c st) as [[[a|e] st1]|] eqn:E; [| |discriminate].
  - intros H. rewrite (Hk a _ _ _ H). eapply Hc; eauto.
  - intros [= <- <-]. eapply Hc; eauto.
Qed.

Lemma keeps_state {A C : Type} (f : Job -> C) (r : result A)
    (g : State -> State) :
  (forall st, session_job (g st) = session_job st) ->
  keeps f (fun st => Some (r, g st)).
Proof. intros Hg st r' st' [= <- <-]. now rewrite Hg. Qed.

Lemma keeps_ret {A C : Type} (f : Job -> C) (a : A) : keeps f (ret a).
Proof. intros st r st' [= <- <-]. reflexivity. Qed.

Lemma keeps_raise {A C : Type} (f : Job -> C) (e : exn) :
  keeps f (raise (A := A) e).
Proof. intros st r st' [= <- <-]. reflexivity. Qed.

Lemma keeps_lift {A C : Type} (f : Job -> C) (x : result A) : keeps f (lift x).
Proof. intros st r st' [= <- <-]. reflexivity. Qed.

Lemma keeps_get_job {C : Type} (f : Job -> C) : keeps f get_job.
Proof. intros st r st' [= <- <-]. reflexivity. Qed.

Lemma keeps_commit {C : Type} (f : Job -> C) : keeps f commit.
Proof. intros st r st' [= <- <-]. reflexivity. Qed.

Lemma keeps_raise_if {C : Type} (f : Job -> C) (o : option exn) :
  keeps f (raise_if o).
Proof. destruct o; [apply keeps_raise|apply keeps_ret]. Qed.

Lemma keeps_assign {C : Type} (f : Job -> C) (g : Job -> Job) :
  (forall j, f (g j) = f j) -> keeps f (assign g).
Proof. intros Hg st r st' [= <- <-]. apply Hg. Qed.

Lemma keeps_write_logs {C : Type} (f : Job -> C) (w : World) (job_id : Z)
    (text : string) :
  keeps f (write_logs w job_id text).
Proof.
  intros st r st'. unfold write_logs.
  destruct (write_logs_exn w); intros [= <- <-]; reflexivity.
Qed.

Lemma keeps_wait {C : Type} (f : Job -> C) (w : World) (timeout : pyval) :
  keeps f (_wait_for_container w timeout).
Proof.
  intros st r st'. unfold _wait_for_container.
  destruct (wait_loop _ _ _ _) as [[[r0|e] sh]|]; [| |discriminate];
    intros [= <- <-]; reflexivity.
Qed.

Lemma keeps_try_except {A C : Type} (f : Job -> C) (body : M A)
    (handler : exn -> M A) :
  keeps f body -> (forall e, keeps f (handler e)) ->
  keeps f (try_except body handler).
Proof.
  intros Hb Hh st r st'. unfold try_except.
  destruct (body st) as [[[a|e] st1]|] eqn:E; [| |discriminate].
  - intros [= <- <-]. eapply Hb; eauto.
  - assert (H1 : f (session_job st1) = f (session_job st))
      by (eapply Hb; eauto).
    destruct e; try (intros H; rewrite (Hh _ _ _ _ H); exact H1).
    intros [= <- <-]. exact H1.
Qed.

Lemma keeps_try_finally {A C : Type} (f : Job -> C) (body : M A)
    (cleanup : State -> State) :
  keeps f body -> (forall st, session_job (cleanup st) = session_job st) ->
  keeps f (try_finally body cleanup).
Proof.
  intros Hb Hc st r st'. unfold try_finally.
  destruct (body st) as [[r0 st1]|] eqn:E; [|discriminate].
  intros [= <- <-]. rewrite Hc. eapply Hb; eauto.
Qed.

(** The attribute assignments of the supervisor leave [id] alone. *)
Ltac same_id :=
  intros j;
  solve [ reflexivity
        | apply stamp_finished_id
        | apply finalize_status_id
        | destruct j; reflexivity
        | destruct j as [? ? ? ? ? ? ? ? ? ? ? ? [?|]]; reflexivity ].

Ltac keeps_id :=
  repeat first
    [ apply keeps_ret | apply keeps_raise | apply keeps_lift
    | apply keeps_get_job | apply keeps_commit | apply keeps_raise_if
    | apply keeps_write_logs | apply keeps_wait
    | apply keeps_assign; same_id
    | apply keeps_bind; [|intros ?]
    | apply keeps_state; intros ?; reflexivity
    | match goal with
      | |- keeps _ (if ?b then _ else _) => destruct b
      | |- keeps _ (match ?x with _ => _ end) => destruct x
      end ].

Section WithLib.
Context `{lib : PyLib}.

Lemma run_container_keeps_id (w : World) : keeps id (run_container w).
Proof. unfold run_container. keeps_id. Qed.

Lemma body_keeps_id (w : World) : keeps id (execute_job_body w).
Proof.
  unfold execute_job_body. keeps_id. apply run_container_keeps_id.
Qed.

Lemma handler_keeps_id (w : World) (e : exn) :
  keeps id (execute_job_handler w e).
Proof. unfold execute_job_handler. keeps_id. Qed.

Lemma simulation_keeps_id (w : World) : keeps id (_simulate_execution w).
Proof.
  unfold _simulate_execution. keeps_id.
  intros st r st'. destruct (simulate_sleep w); intros [= <- <-]; reflexivity.
Qed.

Lemma execute_job_keeps_id (w : World) : keeps id (execute_job w).
Proof.
  unfold execute_job. destruct (negb (client_available w)).
  - apply simulation_keeps_id.
  - apply keeps_try_finally; [|reflexivity].
    apply keeps_try_except; [apply body_keeps_id|apply handler_keeps_id].
Qed.

End WithLib.

(** *** The wait for the container *)

Lemma Qlt_bool_lt (x y : Q) : (x < y)%Q -> Qlt_bool x y = true.
Proof.
  intros H. destruct (Qlt_bool x y) eqn:E; [reflexivity|].
  apply PyFacts.Qlt_bool_false in E. exfalso. lra.
Qed.

Lemma wait_loop_outcome (w : World) (timeout : pyval) (trace : list poll)
    (sh sh' : shared) (r : WaitResult) :
  wait_loop w timeout trace sh = Some (Ok r, sh') ->
  wait_outcome timeout trace r /\ res_logs r = "".
Proof.
  revert sh. induction trace as [|p rest IH]; intros sh; simpl;
    [discriminate|].
  destruct (reload p) as [[st code]|e] eqn:Hr; [|discriminate].
  destruct (String.eqb st "exited") eqn:Hst.
  { intros [= <- <-]. apply String.eqb_eq in Hst as ->.
    split; [|reflexivity]. left.
    split; [reflexivity|]. split; [reflexivity|].
    exists p. split; [now left|exact Hr]. }
  destruct (py_gt _ timeout) as [[|]|] eqn:Hgt; [| |discriminate].
  { destruct (stop_exn w); [discriminate|]. intros [= <- <-].
    split; [|reflexivity]. right. left.
    split; [reflexivity|]. split; [reflexivity|]. split; [reflexivity|].
    exists p. split; [now left|exact Hgt]. }
  destruct (sleep p) as [others|] eqn:Hs.
  - intros H. destruct (IH _ H) as [Ho Hl]. split; [|exact Hl].
    destruct Ho as [(H1 & H2 & q & Hq & Hx)
                   |[(H1 & H2 & H3 & q & Hq & Hx)
                    |(H1 & H2 & H3 & q & Hq & Hx)]].
    + left. split; [exact H1|]. split; [exact H2|].
      exists q. split; [now right|exact Hx].
    + right. left. split; [exact H1|]. split; [exact H2|].
      split; [exact H3|]. exists q. split; [now right|exact Hx].
    + right. right. split; [exact H1|]. split; [exact H2|].
      split; [exact H3|]. exists q. split; [now right|exact Hx].
  - destruct (stop_exn w); [discriminate|]. intros [= <- <-].
    split; [|reflexivity]. right. right.
    split; [reflexivity|]. split; [reflexivity|]. split; [reflexivity|].
    exists p. split; [now left|exact Hs].
Qed.

(** X11.  Whenever [_wait_for_container] returns, its result is
    of exactly one kind: the container was seen exited and the result
    carries its exit code, with neither flag set; or some poll came
    after the timeout, the timeout flag alone is set and the exit code
    is -1; or the supervisor's task was cancelled during a sleep, the
    cancelled flag alone is set and the exit code is -1.  The logs are
    those of [container.logs()], or the streamed ones when that call
    raises, and the job of the session is not touched. *)
Theorem wait_ends_in_one_of_three_ways (w : World) (timeout : pyval)
    (st st' : State) (r : WaitResult) :
  _wait_for_container w timeout st = Some (Ok r, st') ->
  wait_outcome timeout (wait_trace w) r
  /\ res_logs r = match container_logs w with
                  | Ok text => text
                  | Raise _ => streamed_logs w
                  end
  /\ session_job st' = session_job st
  /\ log_files st' = log_files st.
Proof.
  unfold _wait_for_container.
  destruct (wait_loop _ _ _ _) as [[[r0|e] sh]|] eqn:E; try discriminate.
  intros [= <- <-]. apply wait_loop_outcome in E as [E _].
  repeat split; try reflexivity. exact E.
Qed.

Lemma wait_ends_in_one_of_three_ways_witness :
  _wait_for_container killed_run (PInt 60) (start_state running_job)
  = Some (Ok killed,
          set_shared
            (user_cancels (seconds 3)
               (db (start_state running_job),
                running_containers (start_state running_job)))
            (start_state running_job))
  /\ wait_outcome (PInt 60) (wait_trace killed_run) killed
  /\ res_logs killed = match container_logs killed_run with
                       | Ok text => text
                       | Raise _ => streamed_logs killed_run
                       end
  /\ session_job
       (set_shared
          (user_cancels (seconds 3)
             (db (start_state running_job),
              running_containers (start_state running_job)))
          (start_state running_job))
     = session_job (start_state running_job)
  /\ log_files
       (set_shared
          (user_cancels (seconds 3)
             (db (start_state running_job),
              running_containers (start_state running_job)))
          (start_state running_job))
     = log_files (start_state running_job).
Proof.
  assert (H : _wait_for_container killed_run (PInt 60)
                (start_state running_job)
              = Some (Ok killed,
                      set_shared
                        (user_cancels (seconds 3)
                           (db (start_state running_job),
                            running_containers (start_state running_job)))
                        (start_state running_job)))
    by reflexivity.
  split; [exact H|].
  exact (wait_ends_in_one_of_three_ways killed_run (PInt 60)
           (start_state running_job) _ killed H).
Defined.

Lemma wait_loop_times_out (w : World) (t : Z) (trace : list poll)
    (sh : shared) :
  stop_exn w = None ->
  Forall still_running trace ->
  Exists (fun p => (inject_Z t < elapsed p)%Q) trace ->
  exists sh',
    wait_loop w (PInt t) trace sh
    = Some (Ok (with_timeout true initial_result), sh').
Proof.
  intros Hstop Hall Hex. revert sh.
  induction trace as [|p rest IH]; intros sh; [inversion Hex|].
  apply Forall_cons in Hall as [(cs & code & others & Hr & Hs & Hsl) Hall].
  cbn [wait_loop]. rewrite Hr, Hs.
  unfold py_gt. cbn [py_num float_lt].
  destruct (Qlt_bool (inject_Z t) (elapsed p)) eqn:E.
  - rewrite Hstop. eauto.
  - rewrite Hsl. apply IH; [exact Hall|].
    apply Exists_cons in Hex as [Hp|Hex]; [|exact Hex].
    apply Qlt_bool_lt in Hp. congruence.
Qed.

(** X12.  A container that does not exit is stopped at the first
    poll that comes after the timeout: when every poll finds the
    container there and not exited, no sleep is cancelled, stopping the
    container does not raise and some poll comes after the timeout, the
    wait returns with the timeout flag alone and exit code -1. *)
Theorem timeout_is_enforced (w : World) (t : Z) (st : State) :
  stop_exn w = None ->
  Forall still_running (wait_trace w) ->
  Exists (fun p => (inject_Z t < elapsed p)%Q) (wait_trace w) ->
  exists r st',
    _wait_for_container w (PInt t) st = Some (Ok r, st')
    /\ res_timeout r = true
    /\ res_cancelled r = false
    /\ res_exit_code r = (-1)%Z.
Proof.
  intros Hstop Hall Hex.
  destruct (wait_loop_times_out w t (wait_trace w)
              (db st, running_containers st) Hstop Hall Hex) as [sh' H].
  unfold _wait_for_container. rewrite H. eauto 6.
Qed.

Lemma timeout_is_enforced_witness :
  stop_exn endless_run = None
  /\ Forall still_running (wait_trace endless_run)
  /\ Exists (fun p => (inject_Z 60 < elapsed p)%Q) (wait_trace endless_run)
  /\ exists r st',
       _wait_for_container endless_run (PInt 60) (start_state running_job)
       = Some (Ok r, st')
       /\ res_timeout r = true
       /\ res_cancelled r = false
       /\ res_exit_code r = (-1)%Z.
Proof.
  assert (H1 : stop_exn endless_run = None) by reflexivity.
  assert (H2 : Forall still_running (wait_trace endless_run)).
  { repeat constructor; eexists _, _, _; repeat split; reflexivity. }
  assert (H3 : Exists (fun p => (inject_Z 60 < elapsed p)%Q)
                      (wait_trace endless_run)).
  { right. left. reflexivity. }
  split; [exact H1|].
  split; [exact H2|].
  split; [exact H3|].
  exact (timeout_is_enforced endless_run 60 (start_state running_job)
           H1 H2 H3).
Defined.

(** *** What a run leaves behind *)

Lemma not_running_id (containers : gmap Z string) (job_id : Z) :
  containers !! job_id = None -> job_id ∉ get_running_job_ids containers.
Proof.
  intros H Hin. unfold get_running_job_ids in Hin.
  apply list_elem_of_fmap in Hin as [[k v] [-> Hkv]].
  apply elem_of_map_to_list in Hkv. cbn in H. congruence.
Qed.

(** X13.  However a run of [execute_job] ends, by returning or
    by the cancellation of its task, it has not changed the id of the
    job, and with Docker the job is no longer among the running
    containers of the executor. *)
Theorem execute_job_untracks `{lib : PyLib} (w : World) (st st' : State)
    (r : result unit) :
  execute_job w st = Some (r, st') ->
  id (session_job st') = id (session_job st)
  /\ (client_available w = true ->
      running_containers st' !! id (session_job st) = None
      /\ id (session_job st) ∉ get_running_job_ids (running_containers st')).
Proof.
  intros H. pose proof (execute_job_keeps_id w st r st' H) as Hid.
  split; [exact Hid|]. intros Hc.
  assert (Hnone : running_containers st' !! id (session_job st) = None).
  { unfold execute_job in H. rewrite Hc in H. cbn [negb] in H.
    unfold try_finally in H.
    destruct (try_except _ _ st) as [[r0 st1]|] eqn:E; [|discriminate].
    injection H as <- <-. cbn [running_containers set_running_containers].
    cbn [session_job set_running_containers] in Hid. rewrite Hid.
    apply lookup_delete_eq. }
  split; [exact Hnone|]. now apply not_running_id.
Qed.

Lemma execute_job_untracks_witness :
  execute_job killed_run (start_state pending_job)
  = Some (Ok tt, end_state killed_run (start_state pending_job))
  /\ id (session_job (end_state killed_run (start_state pending_job)))
     = id (session_job (start_state pending_job))
  /\ (client_available killed_run = true ->
      running_containers (end_state killed_run (start_state pending_job))
        !! id (session_job (start_state pending_job)) = None
      /\ id (session_job (start_state pending_job))
         ∉ get_running_job_ids
             (running_containers
                (end_state killed_run (start_state pending_job)))).
Proof.
  assert (H : execute_job killed_run (start_state pending_job)
              = Some (Ok tt, end_state killed_run (start_state pending_job)))
    by (vm_compute; reflexivity).
  split; [exact H|].
  exact (execute_job_untracks killed_run (start_state pending_job) _ (Ok tt) H).
Defined.

Section WithLib.
Context `{lib : PyLib}.

Lemma wait_flags (w : World) (timeout : pyval) :
  triple (fun _ => True) (_wait_for_container w timeout)
         (fun result _ =>
            res_timeout result = true \/ res_cancelled result = true ->
            res_exit_code result = (-1)%Z).
Proof.
  intros st r st' _ H. unfold _wait_for_container in H.
  destruct (wait_loop _ _ _ _) as [[[r0|e] sh]|] eqn:E; try discriminate.
  injection H as <- <-. apply wait_loop_outcome in E as [H _].
  cbn [res_timeout res_cancelled res_exit_code with_logs].
  destruct H as [(H1 & H2 & _)|[(_ & _ & H3 & _)|(_ & _ & H3 & _)]];
    [|auto|auto].
  intros [E|E]; congruence.
Qed.

(** From the assignment of the exit code to the commit. *)
Lemma finish_reports (w : World) (timeout : pyval) (result : WaitResult) :
  triple (fun _ => res_timeout result = true \/ res_cancelled result = true ->
                   res_exit_code result = (-1)%Z)
    (assign (set_exit_code (Some (res_exit_code result))) ;;;
     assign (stamp_finished (now_finished w)) ;;;
     assign (finalize_status timeout result) ;;;
     let! job := get_job in
     write_logs w (id job) (res_logs result) ;;;
     assign (set_logs_location (Some (logs_path (id job)))) ;;;
     assign (fun j => set_gpu_used
                        (String.eqb (execution_mode j) "gpu"
                         && gpu_available w) j) ;;;
     commit)
    (fun _ st' => stamped (now_finished w) (session_job st')
                  /\ code_matches_status (session_job st')).
Proof.
  intros st a st' Hflags.
  unfold bindM, assign, get_job, write_logs, commit.
  destruct (write_logs_exn w); [discriminate|].
  intros [= <- <-].
  cbn [session_job db set_db set_log_files set_session_job running_containers
         log_files].
  generalize (session_job st). intros j.
  unfold stamped, code_matches_status, finalize_status, stamp_finished.
  destruct j as [? ? ? ? ? ? ? ? ? ? [started|]];
    destruct (res_cancelled result) eqn:Hc, (res_timeout result) eqn:Ht,
      (res_exit_code result =? 0)%Z eqn:Hz;
    cbn; repeat split; try discriminate; try congruence;
    try (intros s [= <-]; reflexivity);
    try (intros; f_equal; apply Hflags; auto; fail);
    try (intros; f_equal; apply Z.eqb_eq in Hz; exact Hz);
    try (intros [?|?]; discriminate).
Qed.

Lemma body_reports (w : World) :
  triple (fun _ => True) (execute_job_body w)
         (fun _ st' => stamped (now_finished w) (session_job st')
                       /\ code_matches_status (session_job st')).
Proof.
  unfold execute_job_body.
  do 14 (eapply triple_bind; [apply triple_skip|intros ?]).
  eapply triple_bind; [apply triple_skip|intros timeout].
  eapply triple_bind; [apply triple_weaken with (P := fun _ => True);
                       [auto|apply wait_flags]|intros result].
  apply finish_reports.
Qed.

Lemma handler_reports (w : World) (e : exn) :
  triple (fun _ => True) (execute_job_handler w e)
         (fun _ st' => stamped (now_finished w) (session_job st')
                       /\ code_matches_status (session_job st')).
Proof.
  intros st a st' _.
  unfold execute_job_handler, bindM, assign, commit.
  intros [= <- <-]. cbn [session_job set_db set_session_job].
  generalize (session_job st). intros j.
  unfold stamped, code_matches_status, stamp_finished.
  destruct j as [? ? ? ? ? ? ? ? ? ? [started|]]; cbn;
    repeat split; try discriminate; try congruence;
    try (intros s [= <-]; reflexivity);
    try (intros [?|?]; discriminate).
Qed.

Lemma simulation_reports (w : World) :
  triple (fun _ => True) (_simulate_execution w)
         (fun _ st' =>
            let job := session_job st' in
            status job = SUCCESS /\ exit_code job = Some 0%Z
            /\ started_at job = Some (now_started w)
            /\ finished_at job = Some (now_finished w)
            /\ duration_seconds job = Some 2%Q).
Proof.
  intros st a st' _.
  unfold _simulate_execution, bindM, assign, get_job, write_logs, commit.
  destruct (simulate_sleep w); [|discriminate].
  destruct (write_logs_exn w); [discriminate|].
  intros [= <- <-].
  cbn [session_job db set_db set_log_files set_session_job set_shared].
  generalize (session_job st). intros j. destruct j. cbn. auto.
Qed.

Lemma execute_job_reports (w : World) (st st' : State) :
  execute_job w st = Some (Ok tt, st') ->
  (client_available w = true -> stamped (now_finished w) (session_job st'))
  /\ code_matches_status (session_job st')
  /\ (client_available w = false ->
      let job := session_job st' in
      status job = SUCCESS /\ exit_code job = Some 0%Z
      /\ started_at job = Some (now_started w)
      /\ finished_at job = Some (now_finished w)
      /\ duration_seconds job = Some 2%Q).
Proof.
  unfold execute_job. destruct (client_available w); cbn [negb].
  - unfold try_finally, try_except.
    destruct (execute_job_body w st) as [[[[]|e] st1]|] eqn:E;
      [| |discriminate].
    + intros [= <-].
      destruct (body_reports w st tt st1 I E) as (H1 & H2).
      cbn [session_job set_running_containers].
      split; [intros _; exact H1|]. split; [exact H2|]. intros [=].
    + destruct e;
        try (destruct (execute_job_handler w _ st1) as [[r st2]|] eqn:Hr;
             [|discriminate];
             intros [= -> <-];
             destruct (handler_reports w _ st1 tt st2 I Hr) as (H1 & H2);
             cbn [session_job set_running_containers];
             split; [intros _; exact H1|]; split; [exact H2|]; intros [=]).
      intros [=].
  - intros H. pose proof (simulation_reports w st tt st' I H) as Hs.
    cbv zeta in Hs. destruct Hs as (H1 & H2 & H3 & H4 & H5).
    split; [discriminate|]. split; [|auto].
    split; [auto|]. rewrite H1. intros [?|?]; discriminate.
Qed.

End WithLib.

(** X14.  When a run with Docker returns, the job's finished_at
    is the time read at the end of the run and, when started_at is set,
    its duration is their difference, whether the run ended in the body
    or in a handler.  Without Docker the run reports success, exit code
    0 and the constant duration of 2 seconds, whatever the two times
    are. *)
Theorem finished_run_is_stamped `{lib : PyLib} (w : World) (st st' : State) :
  execute_job w st = Some (Ok tt, st') ->
  (client_available w = true -> stamped (now_finished w) (session_job st'))
  /\ (client_available w = false ->
      let job := session_job st' in
      status job = SUCCESS /\ exit_code job = Some 0%Z
      /\ started_at job = Some (now_started w)
      /\ finished_at job = Some (now_finished w)
      /\ duration_seconds job = Some 2%Q).
Proof.
  intros H. destruct (execute_job_reports w st st' H) as (H1 & _ & H3).
  split; assumption.
Qed.

Lemma finished_run_is_stamped_witness :
  execute_job endless_run (start_state pending_job)
  = Some (Ok tt, end_state endless_run (start_state pending_job))
  /\ (client_available endless_run = true ->
      stamped (now_finished endless_run)
        (session_job (end_state endless_run (start_state pending_job))))
  /\ (client_available endless_run = false ->
      let job := session_job (end_state endless_run (start_state pending_job))
      in
      status job = SUCCESS /\ exit_code job = Some 0%Z
      /\ started_at job = Some (now_started endless_run)
      /\ finished_at job = Some (now_finished endless_run)
      /\ duration_seconds job = Some 2%Q).
Proof.
  assert (H : execute_job endless_run (start_state pending_job)
              = Some (Ok tt, end_state endless_run (start_state pending_job)))
    by (vm_compute; reflexivity).
  split; [exact H|].
  exact (finished_run_is_stamped endless_run (start_state pending_job) _ H).
Defined.

(** X15.  When a run returns, a job with status success has
    exit code 0, and a job with status timeout or cancelled has exit
    code -1. *)
Theorem status_matches_exit_code `{lib : PyLib} (w : World) (st st' : State) :
  execute_job w st = Some (Ok tt, st') ->
  code_matches_status (session_job st').
Proof.
  intros H. now destruct (execute_job_reports w st st' H) as (_ & H2 & _).
Qed.

Lemma status_matches_exit_code_witness :
  execute_job endless_run (start_state pending_job)
  = Some (Ok tt, end_state endless_run (start_state pending_job))
  /\ code_matches_status
       (session_job (end_state endless_run (start_state pending_job))).
Proof.
  assert (H : execute_job endless_run (start_state pending_job)
              = Some (Ok tt, end_state endless_run (start_state pending_job)))
    by (vm_compute; reflexivity).
  split; [exact H|].
  exact (status_matches_exit_code endless_run (start_state pending_job) _ H).
Defined.

Lemma cancelled_sleep_dec (trace : list poll) :
  (exists p, In p trace /\ sleep p = SleepCancelled)
  \/ (forall p, In p trace -> sleep p <> SleepCancelled).
Proof.
  induction trace as [|p rest [(q & Hq & Hs)|IH]].
  - right. intros p [].
  - left. exists q. split; [now right|exact Hs].
  - destruct (sleep p) eqn:E.
    + right. intros q [<-|Hq]; [congruence|auto].
    + left. exists p. split; [now left|exact E].
Qed.

(** X16.  With Docker, a run that returns leaves status
    cancelled only when the supervisor's own task was cancelled during a
    sleep of the polling loop; nothing that other coroutines write to
    the table or to the executor during the sleeps makes the supervisor
    report cancelled. *)
Theorem cancelled_status_needs_task_cancel `{lib : PyLib} (w : World)
    (st st' : State) :
  execute_job w st = Some (Ok tt, st') ->
  client_available w = true ->
  status (session_job st') = CANCELLED ->
  exists p, In p (wait_trace w) /\ sleep p = SleepCancelled.
Proof.
  intros H Hc Hs.
  destruct (execute_job_ends w st st' H) as (_ & _ & Hn).
  destruct (cancelled_sleep_dec (wait_trace w)) as [Hex|Hnone];
    [exact Hex|].
  exfalso. exact (Hn Hc Hnone Hs).
Qed.

Lemma cancelled_status_needs_task_cancel_witness :
  execute_job task_cancelled_run (start_state pending_job)
  = Some (Ok tt, end_state task_cancelled_run (start_state pending_job))
  /\ client_available task_cancelled_run = true
  /\ status (session_job
               (end_state task_cancelled_run (start_state pending_job)))
     = CANCELLED
  /\ exists p, In p (wait_trace task_cancelled_run)
               /\ sleep p = SleepCancelled.
Proof.
  assert (H1 : execute_job task_cancelled_run (start_state pending_job)
               = Some (Ok tt,
                       end_state task_cancelled_run (start_state pending_job)))
    by (vm_compute; reflexivity).
  assert (H2 : client_available task_cancelled_run = true) by reflexivity.
  assert (H3 : status (session_job
                         (end_state task_cancelled_run
                            (start_state pending_job))) = CANCELLED)
    by (vm_compute; reflexivity).
  split; [exact H1|].
  split; [exact H2|].
  split; [exact H3|].
  exact (cancelled_status_needs_task_cancel task_cancelled_run
           (start_state pending_job) _ H1 H2 H3).
Defined.

(** X17.  The background task lets no exception out except
    the cancellation of its own task; and when it returns for a job that
    is in the table, whatever the status of that job was, the job's row
    holds a terminal status. *)
Theorem background_run_ends_terminal `{lib : PyLib} (w : World)
    (now_queued : datetime) (job_id : Z) (table table' : gmap Z Job)
    (containers containers' files files' : gmap Z string) (job : Job)
    (r : result unit) :
  JobsRoutes.run_job_background w now_queued job_id table containers files
  = Some (r, table', containers', files') ->
  table !! job_id = Some job ->
  id job = job_id ->
  (r = Ok tt \/ r = Raise CancelledError)
  /\ (r = Ok tt ->
      exists job', table' !! job_id = Some job' /\ is_finished job' = true).
Proof.
  intros H Hrow Hid. unfold JobsRoutes.run_job_background in H.
  rewrite Hrow in H.
  unfold try_except, bindM at 1 2 3, assign, commit in H.
  cbn [session_job set_session_job set_db db] in H.
  match type of H with
  | context [execute_job w ?s] => set (st2 := s) in H
  end.
  assert (Hid2 : id (session_job st2) = job_id).
  { subst st2. cbn. now destruct job. }
  destruct (execute_job w st2) as [[[[]|e] st3]|] eqn:E; [| |discriminate].
  - injection H as <- <- <- <-. split; [now left|]. intros _.
    pose proof (execute_job_keeps_id w st2 _ st3 E : id (session_job st3) = id (session_job st2)) as Hk.
    destruct (execute_job_ends w st2 st3 E) as (Hf & Hdb & _).
    rewrite Hk, Hid2 in Hdb.
    destruct (db st3 !! job_id) as [job'|]; [|discriminate].
    exists job'. split; [reflexivity|].
    cbn in Hdb. injection Hdb as Hst. unfold is_finished in *.
    now rewrite Hst.
  - pose proof (execute_job_keeps_id w st2 _ st3 E : id (session_job st3) = id (session_job st2)) as Hk.
    destruct e;
      try (unfold bindM, assign, commit in H;
           injection H as <- <- <- <-; split; [now left|]; intros _;
           cbn [session_job set_session_job set_db db];
           eexists; split;
           [ match goal with
             | |- <[?k := _]> _ !! _ = _ =>
                 replace k with job_id;
                 [apply lookup_insert_eq
                 |rewrite <- Hid2, <- Hk; now destruct (session_job st3)]
             end
           | now destruct (session_job st3) ]).
    injection H as <- <- <- <-. split; [now right|discriminate].
Qed.

Lemma background_run_ends_terminal_witness :
  JobsRoutes.run_job_background killed_run (seconds 1) 1
    {[1%Z := pending_job]} ∅ ∅
  = Some (Ok tt, final_table killed_run, final_containers killed_run,
          final_files killed_run)
  /\ ({[1%Z := pending_job]} : gmap Z Job) !! 1%Z = Some pending_job
  /\ id pending_job = 1%Z
  /\ (Ok tt = Ok tt \/ Ok tt = Raise CancelledError)
  /\ (Ok tt = Ok tt ->
      exists job', final_table killed_run !! 1%Z = Some job'
                   /\ is_finished job' = true).
Proof.
  assert (H1 : JobsRoutes.run_job_background killed_run (seconds 1) 1
                 {[1%Z := pending_job]} ∅ ∅
               = Some (Ok tt, final_table killed_run,
                       final_containers killed_run, final_files killed_run))
    by (vm_compute; reflexivity).
  assert (H2 : ({[1%Z := pending_job]} : gmap Z Job) !! 1%Z
               = Some pending_job) by apply lookup_singleton_eq.
  assert (H3 : id pending_job = 1%Z) by reflexivity.
  split; [exact H1|].
  split; [exact H2|].
  split; [exact H3|].
  exact (background_run_ends_terminal killed_run (seconds 1) 1 _ _ ∅ _ ∅ _
           pending_job (Ok tt) H1 H2 H3).
Defined.

End SupervisorProperties.

(* ===================================================================== *)
(** ** Further properties: the routes *)
(* ===================================================================== *)

Module RouteProperties.

Import Models Props Examples.

(** [DockerExecutor.cancel_job] leaves the entries of other jobs alone. *)
Lemma executor_cancel_frame (cw : Executor.CancelWorld) (job_id other : Z)
    (containers : gmap Z string) :
  other <> job_id ->
  (Executor.cancel_job cw job_id containers).2 !! other = containers !! other.
Proof.
  intros Ho. unfold Executor.cancel_job.
  destruct (containers !! job_id) as [[|c cid]|]; cbn [str_truthy];
    destruct (Executor.get_by_name cw), (Executor.get_by_id cw),
      (Executor.last_get cw), (Executor.last_kill cw),
      (Executor.last_remove cw); cbn [snd];
    first [reflexivity | now apply lookup_delete_ne].
Qed.

(** X18.  [DockerExecutor.cancel_job] never touches the entry of
    another job; when it returns [True] the job is no longer tracked;
    for a job that is tracked with a container id it never raises and
    always untracks the job; and the only way it leaves the table as it
    was is by not finding a container under the job's name. *)
Theorem executor_cancel_untracks (cw : Executor.CancelWorld) (job_id : Z)
    (containers : gmap Z string) :
  let out := Executor.cancel_job cw job_id containers in
  (forall other, other <> job_id -> out.2 !! other = containers !! other)
  /\ (out.1 = Ok true -> out.2 !! job_id = None)
  /\ (forall container_id,
        containers !! job_id = Some container_id -> container_id <> "" ->
        (exists cancelled, out.1 = Ok cancelled) /\ out.2 !! job_id = None)
  /\ (out.2 !! job_id <> None ->
      out.2 = containers /\ out.1 <> Ok true
      /\ Executor.get_by_name cw <> Executor.CallOk).
Proof.
  cbv zeta. unfold Executor.cancel_job.
  set (proceed := match Executor.get_by_id cw with
                  | Executor.CallError => _
                  | _ => _
                  end).
  assert (Hp : proceed.2 = delete job_id containers
               /\ exists b, proceed.1 = Ok b).
  { subst proceed.
    destruct (Executor.get_by_id cw), (Executor.last_get cw),
      (Executor.last_kill cw), (Executor.last_remove cw); cbn; eauto. }
  destruct Hp as [Hp2 [b Hp1]].
  assert (Hframe : forall other, other <> job_id ->
                                 proceed.2 !! other = containers !! other).
  { intros other Ho. rewrite Hp2. now apply lookup_delete_ne. }
  assert (Hgone : proceed.2 !! job_id = None).
  { rewrite Hp2. apply lookup_delete_eq. }
  destruct (containers !! job_id) as [cid|] eqn:Hrow.
  - destruct cid as [|c cid]; cbn [str_truthy].
    + destruct (Executor.get_by_name cw); cbn [fst snd];
        repeat split; auto; try discriminate; try congruence;
        try (intros ? [= <-] ?; congruence).
    + repeat split; auto; try congruence; eauto.
  - destruct (Executor.get_by_name cw); cbn [fst snd];
      repeat split; auto; try discriminate; try congruence.
Qed.

(** The update of the cancel routes keeps the id of the job. *)
Lemma mark_cancelled_id (now : datetime) (job : Job) :
  id (JobsRoutes.mark_cancelled now job) = id job.
Proof.
  unfold JobsRoutes.mark_cancelled.
  rewrite SupervisorFacts.stamp_finished_id. now destruct job.
Qed.

Lemma mark_cancelled_status (now : datetime) (job : Job) :
  status (JobsRoutes.mark_cancelled now job) = CANCELLED.
Proof.
  unfold JobsRoutes.mark_cancelled.
  rewrite SupervisorFacts.stamp_finished_status. now destruct job.
Qed.

(** X19.  The user cancel route changes nothing but the row of the
    job and the executor's entry of the job.  It answers 404 exactly
    for a job that does not exist and 403 exactly for a job of another
    user when the caller is not an admin, and changes nothing then;
    otherwise, whatever the executor did and whatever the status of the
    job was, it answers success and the row's status is cancelled. *)
Theorem cancel_route_frame (cw : Executor.CancelWorld) (now : datetime)
    (job_id uid : Z) (admin : bool) (table : gmap Z Job)
    (containers : gmap Z string) :
  well_keyed table ->
  let out := JobsRoutes.cancel_job cw now job_id uid admin table containers in
  (forall other, other <> job_id ->
                 out.1.2 !! other = table !! other
                 /\ out.2 !! other = containers !! other)
  /\ (forall code detail,
        out.1.1 = JobsRoutes.HTTPException code detail ->
        out.1.2 = table /\ out.2 = containers
        /\ ((code = 404%Z /\ table !! job_id = None)
            \/ (code = 403%Z
                /\ exists job, table !! job_id = Some job
                               /\ user_id job <> uid /\ admin = false)))
  /\ (forall response,
        out.1.1 = JobsRoutes.Response response ->
        JobsRoutes.success response = true
        /\ JobsRoutes.response_status response = "cancelled"
        /\ status <$> (out.1.2 !! job_id) = Some CANCELLED
        /\ exists job, table !! job_id = Some job
                       /\ (user_id job = uid \/ admin = true)).
Proof.
  intros Hkeys. cbv zeta. unfold JobsRoutes.cancel_job.
  destruct (table !! job_id) as [job|] eqn:Hrow.
  - pose proof (Hkeys _ _ Hrow) as Hid.
    destruct (negb (user_id job =? uid)%Z && negb admin) eqn:Hperm.
    + cbn [fst snd]. split; [auto|]. split; [|discriminate].
      intros code detail [= <- <-]. split; [reflexivity|].
      split; [reflexivity|]. right. split; [reflexivity|].
      apply andb_true_iff in Hperm as [H1 H2].
      apply negb_true_iff in H1, H2. apply Z.eqb_neq in H1. eauto.
    + cbn [fst snd]. rewrite mark_cancelled_id, Hid.
      split; [|split; [discriminate|]].
      * intros other Ho. split.
        -- now rewrite lookup_insert_ne by congruence.
        -- now apply executor_cancel_frame.
      * intros response [= <-]. cbn [JobsRoutes.success
          JobsRoutes.response_status].
        rewrite mark_cancelled_status, lookup_insert_eq. cbn.
        rewrite mark_cancelled_status.
        repeat split. exists job. split; [reflexivity|].
        apply andb_false_iff in Hperm as [H|H];
          apply negb_false_iff in H; [left; now apply Z.eqb_eq|now right].
  - cbn [fst snd]. split; [auto|]. split; [|discriminate].
    intros code detail [= <- <-]. auto.
Qed.

Lemma cancel_route_frame_witness :
  well_keyed {[1%Z := finished_job]}
  /\ let out := JobsRoutes.cancel_job container_found (seconds 9) 1 8 false
                  {[1%Z := finished_job]} ∅ in
     (forall other, other <> 1%Z ->
                    out.1.2 !! other
                    = ({[1%Z := finished_job]} : gmap Z Job) !! other
                    /\ out.2 !! other = (∅ : gmap Z string) !! other)
     /\ (forall code detail,
           out.1.1 = JobsRoutes.HTTPException code detail ->
           out.1.2 = {[1%Z := finished_job]} /\ out.2 = ∅
           /\ ((code = 404%Z
                /\ ({[1%Z := finished_job]} : gmap Z Job) !! 1%Z = None)
               \/ (code = 403%Z
                   /\ exists job,
                        ({[1%Z := finished_job]} : gmap Z Job) !! 1%Z
                        = Some job
                        /\ user_id job <> 8%Z /\ false = false)))
     /\ (forall response,
           out.1.1 = JobsRoutes.Response response ->
           JobsRoutes.success response = true
           /\ JobsRoutes.response_status response = "cancelled"
           /\ status <$> (out.1.2 !! 1%Z) = Some CANCELLED
           /\ exists job,
                ({[1%Z := finished_job]} : gmap Z Job) !! 1%Z = Some job
                /\ (user_id job = 8%Z \/ false = true)).
Proof.
  assert (H : well_keyed {[1%Z := finished_job]}).
  { intros key job Hk. apply lookup_singleton_Some in Hk as [<- <-].
    reflexivity. }
  split; [exact H|].
  exact (cancel_route_frame container_found (seconds 9) 1 8 false
           {[1%Z := finished_job]} ∅ H).
Defined.

(** X20.  After the admin cancel route has answered success
    for a job, the job's status is cancelled and every further admin
    cancel request for it is refused with 400 and changes nothing,
    whoever the admin is and whatever the Docker client does. *)
Theorem admin_cancel_is_not_repeatable (cw cw' : Executor.CancelWorld)
    (now now' : datetime) (job_id : Z) (email email' message : string)
    (table table' : gmap Z Job) (containers containers' : gmap Z string) :
  well_keyed table ->
  AdminRoutes.cancel_job_admin cw now job_id email table containers
  = (JobsRoutes.Response message, table', containers') ->
  status <$> (table' !! job_id) = Some CANCELLED
  /\ exists detail,
       AdminRoutes.cancel_job_admin cw' now' job_id email' table' containers'
       = (JobsRoutes.HTTPException 400 detail, table', containers').
Proof.
  intros Hkeys. unfold AdminRoutes.cancel_job_admin at 1.
  destruct (table !! job_id) as [job|] eqn:Hrow; [|discriminate].
  pose proof (Hkeys _ _ Hrow) as Hid.
  destruct (negb (is_cancellable job)); [discriminate|].
  intros [= <- <- <-].
  assert (Hid' : id (set_error_message (Some ("Cancelled by admin: " +:+ email))
                       (JobsRoutes.mark_cancelled now job)) = job_id).
  { rewrite <- Hid, <- (mark_cancelled_id now job).
    now destruct (JobsRoutes.mark_cancelled now job). }
  assert (Hst : status (set_error_message
                          (Some ("Cancelled by admin: " +:+ email))
                          (JobsRoutes.mark_cancelled now job)) = CANCELLED).
  { rewrite <- (mark_cancelled_status now job).
    now destruct (JobsRoutes.mark_cancelled now job). }
  rewrite Hid'. split.
  - rewrite lookup_insert_eq. cbn. now rewrite Hst.
  - unfold AdminRoutes.cancel_job_admin. rewrite lookup_insert_eq.
    unfold is_cancellable. rewrite Hst. cbn. eauto.
Qed.

Lemma admin_cancel_is_not_repeatable_witness :
  well_keyed {[1%Z := running_job]}
  /\ AdminRoutes.cancel_job_admin container_found (seconds 3) 1
       "admin@ensam.ma" {[1%Z := running_job]} {[1%Z := "c1"]}
     = (JobsRoutes.Response "Job #1 cancelled", admin_cancel.1.2,
        admin_cancel.2)
  /\ status <$> (admin_cancel.1.2 !! 1%Z) = Some CANCELLED
  /\ exists detail,
       AdminRoutes.cancel_job_admin container_found (seconds 4) 1
         "other@ensam.ma" admin_cancel.1.2 admin_cancel.2
       = (JobsRoutes.HTTPException 400 detail, admin_cancel.1.2,
          admin_cancel.2).
Proof.
  assert (H1 : well_keyed {[1%Z := running_job]}).
  { intros key job Hk. apply lookup_singleton_Some in Hk as [<- <-].
    reflexivity. }
  assert (H2 : AdminRoutes.cancel_job_admin container_found (seconds 3) 1
                 "admin@ensam.ma" {[1%Z := running_job]} {[1%Z := "c1"]}
               = (JobsRoutes.Response "Job #1 cancelled", admin_cancel.1.2,
                  admin_cancel.2)) by (vm_compute; reflexivity).
  split; [exact H1|]. split; [exact H2|].
  exact (admin_cancel_is_not_repeatable container_found container_found
           (seconds 3) (seconds 4) 1 "admin@ensam.ma" "other@ensam.ma"
           "Job #1 cancelled" _ _ _ _ H1 H2).
Defined.

(** *** Pagination of the history *)

Lemma chunks_take {A : Type} (n : nat) (l : list A) (k : nat) :
  concat ((fun i => take n (drop (i * n) l)) <$> seq 0 k) = take (k * n) l.
Proof.
  induction k as [|k IH]; [reflexivity|].
  rewrite seq_S, fmap_app, concat_app, IH. cbn [fmap list_fmap concat].
  rewrite app_nil_r, take_take_drop. f_equal. lia.
Qed.

Lemma ceiling (total per_page : Z) :
  (0 <= total)%Z -> (1 <= per_page)%Z ->
  let pages := ((total + per_page - 1) / per_page)%Z in
  ((pages - 1) * per_page < total <= pages * per_page)%Z.
Proof.
  intros Ht Hp. cbv zeta.
  pose proof (Z.mul_div_le (total + per_page - 1) per_page ltac:(lia)).
  pose proof (Z.mul_succ_div_gt (total + per_page - 1) per_page ltac:(lia)).
  nia.
Qed.

Lemma page_jobs_eq (page per_page : Z) (rows : list Job) :
  (1 <= page)%Z -> (1 <= per_page)%Z ->
  JobsRoutes.get_job_history page per_page rows
  = Some (Ok {| JobsRoutes.list_jobs :=
                  take (Z.to_nat per_page)
                       (drop (Z.to_nat ((page - 1) * per_page)) rows);
                JobsRoutes.list_total := Z.of_nat (length rows);
                JobsRoutes.list_page := page;
                JobsRoutes.list_per_page := per_page;
                JobsRoutes.list_pages :=
                  ((Z.of_nat (length rows) + per_page - 1) / per_page)%Z |}).
Proof.
  intros H1 H2. unfold JobsRoutes.get_job_history, floordiv.
  destruct (Z.ltb_spec page 1); [lia|].
  destruct (Z.ltb_spec per_page 0); [lia|].
  destruct (Z.eqb_spec per_page 0); [lia|]. reflexivity.
Qed.

(** X21.  For a page size of at least 1, the history route answers
    every page from 1 on, with the count of all rows and the number of
    pages, which is the count divided by the page size, rounded up; a
    page holds at most a page size of jobs and is empty beyond the last
    page; and the pages 1 to the last one, one after the other, are
    exactly the rows of the query, in order. *)
Theorem history_pages_partition (per_page : Z) (rows : list Job) :
  (1 <= per_page)%Z ->
  exists pages,
    ((pages - 1) * per_page < Z.of_nat (length rows) <= pages * per_page)%Z
    /\ (forall page,
          (1 <= page)%Z ->
          exists jobs,
            JobsRoutes.get_job_history page per_page rows
            = Some (Ok {| JobsRoutes.list_jobs := jobs;
                          JobsRoutes.list_total := Z.of_nat (length rows);
                          JobsRoutes.list_page := page;
                          JobsRoutes.list_per_page := per_page;
                          JobsRoutes.list_pages := pages |})
            /\ (length jobs <= Z.to_nat per_page)%nat
            /\ ((pages < page)%Z -> jobs = []))
    /\ concat ((fun page => page_jobs page per_page rows) <$> seqZ 1 pages)
       = rows.
Proof.
  intros Hp.
  pose proof (ceiling (Z.of_nat (length rows)) per_page ltac:(lia) Hp) as Hc.
  cbv zeta in Hc.
  set (pages := ((Z.of_nat (length rows) + per_page - 1) / per_page)%Z) in *.
  exists pages. split; [exact Hc|]. split.
  - intros page Hpage. eexists. split; [apply page_jobs_eq; assumption|].
    split.
    + rewrite length_take. lia.
    + intros Hlast. rewrite drop_ge; [apply take_nil|]. nia.
  - unfold seqZ. rewrite <- list_fmap_compose.
    rewrite (list_fmap_ext _ (fun i => take (Z.to_nat per_page)
                                 (drop (i * Z.to_nat per_page) rows))).
    + rewrite chunks_take. apply take_ge. nia.
    + intros i x _. cbn. unfold page_jobs.
      rewrite page_jobs_eq by lia. cbn. do 2 f_equal. nia.
Qed.

Lemma history_pages_partition_witness :
  (1 <= 2)%Z
  /\ exists pages,
       ((pages - 1) * 2 < Z.of_nat (length three_jobs) <= pages * 2)%Z
       /\ (forall page,
             (1 <= page)%Z ->
             exists jobs,
               JobsRoutes.get_job_history page 2 three_jobs
               = Some (Ok {| JobsRoutes.list_jobs := jobs;
                             JobsRoutes.list_total :=
                               Z.of_nat (length three_jobs);
                             JobsRoutes.list_page := page;
                             JobsRoutes.list_per_page := 2;
                             JobsRoutes.list_pages := pages |})
               /\ (length jobs <= Z.to_nat 2)%nat
               /\ ((pages < page)%Z -> jobs = []))
       /\ concat ((fun page => page_jobs page 2 three_jobs) <$> seqZ 1 pages)
          = three_jobs.
Proof.
  assert (H : (1 <= 2)%Z) by lia.
  split; [exact H|].
  exact (history_pages_partition 2 three_jobs H).
Defined.

(** *** The tail of a stored log *)

Lemma append_empty_r (p : string) : p +:+ "" = p.
Proof.
  induction p as [|c p IH]; [reflexivity|].
  change (String c p +:+ "") with (String c (p +:+ "")). now rewrite IH.
Qed.

Lemma append_assoc (a b c : string) : (a +:+ b) +:+ c = a +:+ b +:+ c.
Proof.
  induction a as [|x a IH]; [reflexivity|].
  change ((String x a +:+ b) +:+ c) with (String x ((a +:+ b) +:+ c)).
  now rewrite IH.
Qed.

Lemma join_empty_cons (p : string) (ps : list string) :
  join "" (p :: ps) = p +:+ join "" ps.
Proof.
  destruct ps; [|reflexivity]. cbn [join]. symmetry. apply append_empty_r.
Qed.

Lemma join_empty_app (a b : list string) :
  join "" (a ++ b) = join "" a +:+ join "" b.
Proof.
  induction a as [|p a IH]; [reflexivity|].
  rewrite <- app_comm_cons, !join_empty_cons, IH. symmetry.
  apply append_assoc.
Qed.

(** Joining the lines of a text gives the text back. *)
Lemma join_readlines (s : string) : join "" (readlines s) = s.
Proof.
  induction s as [|c s IH]; [reflexivity|].
  cbn [readlines]. destruct (Ascii.eqb c newline).
  - rewrite join_empty_cons, IH. reflexivity.
  - destruct (readlines s) as [|l ls].
    + cbn in IH. subst s. reflexivity.
    + rewrite join_empty_cons in IH. rewrite join_empty_cons.
      change (String c l +:+ join "" ls) with (String c (l +:+ join "" ls)).
      now rewrite IH.
Qed.

(** The lines of the text made of the last lines of a text are those
    lines. *)
Lemma readlines_drop (s : string) (k : nat) :
  readlines (join "" (drop k (readlines s))) = drop k (readlines s).
Proof.
  revert k. induction s as [|c s IH]; intros k.
  - cbn. now rewrite drop_nil.
  - destruct k as [|k]; [now rewrite drop_0, join_readlines|].
    cbn [readlines]. destruct (Ascii.eqb c newline); [apply IH|].
    destruct (readlines s) as [|l ls] eqn:E.
    + cbn. now rewrite drop_nil.
    + cbn [drop]. specialize (IH (S k)). cbn [drop] in IH. exact IH.
Qed.

Lemma last_items_drop {A : Type} (n : Z) (l : list A) :
  exists k, last_items n l = drop k l
            /\ ((0 < n)%Z -> k = (length l - Z.to_nat n)%nat)
            /\ ((n = 0)%Z -> k = 0%nat).
Proof.
  unfold last_items. destruct (Z.ltb_spec 0 n).
  - eexists. split; [reflexivity|]. split; [auto|lia].
  - eexists. split; [reflexivity|]. split; [lia|]. intros ->. reflexivity.
Qed.

(** X22.  For a job of the caller that is neither running nor queued
    and whose log file can be read, the logs route returns the end of
    the file cut at a line boundary: the lines of the answer are the
    slice [lines[-tail:]] of the lines of the file and the file is some
    text followed by the answer.  For a positive [tail] these are the
    last [tail] lines, or all of them when the file has fewer; for
    [tail = 0] the answer is the whole file, not the empty text. *)
Theorem job_logs_tail (job_id tail uid : Z) (table : gmap Z Job)
    (containers : gmap Z string) (docker_logs : option string)
    (read_text : string -> option string) (job : Job) (path text : string) :
  table !! job_id = Some job ->
  user_id job = uid ->
  is_running job = false ->
  logs_location job = Some path ->
  path <> "" ->
  read_text path = Some text ->
  exists body,
    JobsRoutes.get_job_logs job_id tail uid table containers docker_logs
                            read_text
    = JobsRoutes.Response {| JobsRoutes.logs_job_id := job_id;
                             JobsRoutes.logs_status := value (status job);
                             JobsRoutes.logs := body |}
    /\ readlines body = last_items tail (readlines text)
    /\ (exists before, text = before +:+ body)
    /\ ((0 < tail)%Z ->
        length (readlines body)
        = Nat.min (Z.to_nat tail) (length (readlines text)))
    /\ ((tail = 0)%Z \/ (Z.of_nat (length (readlines text)) <= tail)%Z ->
        body = text).
Proof.
  intros Hrow Huid Hrun Hloc Hpath Hread.
  exists (join "" (last_items tail (readlines text))). split.
  - unfold JobsRoutes.get_job_logs. rewrite Hrow, Huid, Z.eqb_refl.
    cbn [negb]. unfold is_running in Hrun. rewrite Hrun, Hloc.
    change (default "" (Some path)) with path. rewrite Hread.
    destruct path; [contradiction|]. reflexivity.
  - destruct (last_items_drop tail (readlines text)) as (k & -> & Hpos & Hz).
    split; [apply readlines_drop|]. split; [|split].
    + exists (join "" (take k (readlines text))).
      rewrite <- join_empty_app, take_drop. symmetry. apply join_readlines.
    + intros Ht. rewrite readlines_drop, length_drop, (Hpos Ht). lia.
    + intros [Ht|Ht].
      * rewrite (Hz Ht), drop_0. apply join_readlines.
      * assert (Hk : k = 0%nat).
        { destruct (Z.ltb_spec 0 tail) as [Hlt|Hle]; [rewrite (Hpos Hlt); lia|].
          assert (length (readlines text) = 0%nat) by lia.
          destruct (readlines text); [|discriminate].
          unfold last_items in *. lia. }
        rewrite Hk, drop_0. apply join_readlines.
Qed.

Lemma job_logs_tail_witness :
  ({[1%Z := logged_job]} : gmap Z Job) !! 1%Z = Some logged_job
  /\ user_id logged_job = 7%Z
  /\ is_running logged_job = false
  /\ logs_location logged_job = Some (Executor.logs_path 1)
  /\ Executor.logs_path 1 <> ""
  /\ log_on_disk (Executor.logs_path 1) = Some three_line_log
  /\ exists body,
       JobsRoutes.get_job_logs 1 0 7 {[1%Z := logged_job]} ∅ None log_on_disk
       = JobsRoutes.Response
           {| JobsRoutes.logs_job_id := 1;
              JobsRoutes.logs_status := value (status logged_job);
              JobsRoutes.logs := body |}
       /\ readlines body = last_items 0 (readlines three_line_log)
       /\ (exists before, three_line_log = before +:+ body)
       /\ ((0 < 0)%Z ->
           length (readlines body)
           = Nat.min (Z.to_nat 0) (length (readlines three_line_log)))
       /\ ((0 = 0)%Z
           \/ (Z.of_nat (length (readlines three_line_log)) <= 0)%Z ->
           body = three_line_log).
Proof.
  assert (H1 : ({[1%Z := logged_job]} : gmap Z Job) !! 1%Z = Some logged_job)
    by apply lookup_singleton_eq.
  assert (H2 : user_id logged_job = 7%Z) by reflexivity.
  assert (H3 : is_running logged_job = false) by reflexivity.
  assert (H4 : logs_location logged_job = Some (Executor.logs_path 1))
    by reflexivity.
  assert (H5 : Executor.logs_path 1 <> "") by (vm_compute; discriminate).
  assert (H6 : log_on_disk (Executor.logs_path 1) = Some three_line_log)
    by (vm_compute; reflexivity).
  split; [exact H1|]. split; [exact H2|]. split; [exact H3|].
  split; [exact H4|]. split; [exact H5|]. split; [exact H6|].
  exact (job_logs_tail 1 0 7 _ ∅ None log_on_disk logged_job _ three_line_log
           H1 H2 H3 H4 H5 H6).
Defined.

End RouteProperties.

(* ===================================================================== *)
(** ** Further properties: the log stream *)
(* ===================================================================== *)

Module StreamProperties.

Import Models WebSocketRoutes Props Examples.

(** *** The connection manager *)

Lemma disconnect_entry (ws : WebSocket) (job_id : Z) (conns : connections) :
  conns !! job_id <> Some [] ->
  default [] (disconnect ws job_id conns !! job_id)
  = (if bool_decide (ws ∈ default [] (conns !! job_id))
     then list_remove ws (default [] (conns !! job_id))
     else default [] (conns !! job_id))
  /\ disconnect ws job_id conns !! job_id <> Some []
  /\ forall other, other <> job_id ->
                   disconnect ws job_id conns !! other = conns !! other.
Proof.
  intros Hne. unfold disconnect.
  destruct (conns !! job_id) as [l|] eqn:E.
  - cbn [default from_option Datatypes.id].
    change (default [] (Some l)) with l.
    destruct (if bool_decide (ws ∈ l) then list_remove ws l else l)
      as [|x l'] eqn:El.
    + rewrite lookup_delete_eq. split; [reflexivity|].
      split; [discriminate|]. intros other Ho.
      now rewrite lookup_delete_ne by congruence.
    + rewrite lookup_insert_eq. split; [reflexivity|].
      split; [discriminate|]. intros other Ho.
      now rewrite lookup_insert_ne by congruence.
  - rewrite E. cbn. rewrite bool_decide_eq_false_2 by apply not_elem_of_nil.
    split; [reflexivity|]. split; [discriminate|]. reflexivity.
Qed.

(** What the loop over the failed sockets does to the entry of the job. *)
Lemma disconnect_all (failed : list WebSocket) (job_id : Z)
    (conns : connections) :
  conns !! job_id <> Some [] ->
  let conns' :=
    fold_left (fun conns ws => disconnect ws job_id conns) failed conns in
  default [] (conns' !! job_id)
  = fold_left (fun l ws => if bool_decide (ws ∈ l) then list_remove ws l
                           else l)
              failed (default [] (conns !! job_id))
  /\ conns' !! job_id <> Some []
  /\ forall other, other <> job_id -> conns' !! other = conns !! other.
Proof.
  cbv zeta. revert conns.
  induction failed as [|ws failed IH]; intros conns Hne; cbn [fold_left].
  - auto.
  - destruct (disconnect_entry ws job_id conns Hne) as (H1 & H2 & H3).
    destruct (IH _ H2) as (I1 & I2 & I3). rewrite I1, H1.
    split; [reflexivity|]. split; [exact I2|].
    intros other Ho. now rewrite I3, H3.
Qed.

Lemma remove_others_keeps_head (raises : WebSocket -> bool)
    (failed : list WebSocket) (x : WebSocket) (l : list WebSocket) :
  Forall (fun ws => raises ws = true) failed ->
  raises x = false ->
  fold_left (fun l ws => if bool_decide (ws ∈ l) then list_remove ws l else l)
            failed (x :: l)
  = x :: fold_left (fun l ws => if bool_decide (ws ∈ l) then list_remove ws l
                                else l) failed l.
Proof.
  intros Hall Hx. revert l.
  induction failed as [|d failed IH]; intros l; [reflexivity|].
  apply Forall_cons in Hall as [Hd Hall]. cbn [fold_left].
  assert (Hdx : d <> x) by congruence.
  assert (Heq : (x =? d)%nat = false) by (apply Nat.eqb_neq; congruence).
  destruct (bool_decide (d ∈ l)) eqn:E.
  - rewrite bool_decide_eq_true_2
      by (apply list_elem_of_further; now apply bool_decide_eq_true in E).
    cbn [list_remove]. rewrite Heq. now apply IH.
  - rewrite bool_decide_eq_false_2.
    + now apply IH.
    + apply bool_decide_eq_false in E. intros Hin.
      apply elem_of_cons in Hin as [?|?]; congruence.
Qed.

Lemma remove_failed (raises : WebSocket -> bool) (l : list WebSocket) :
  fold_left (fun l ws => if bool_decide (ws ∈ l) then list_remove ws l else l)
            (List.filter raises l) l
  = List.filter (fun ws => negb (raises ws)) l.
Proof.
  induction l as [|x l IH]; [reflexivity|].
  cbn [List.filter]. destruct (raises x) eqn:Hx; cbn [negb fold_left].
  - rewrite bool_decide_eq_true_2 by apply list_elem_of_here.
    cbn [list_remove]. rewrite Nat.eqb_refl. exact IH.
  - rewrite (remove_others_keeps_head raises); [now rewrite IH| |exact Hx].
    apply Forall_forall. intros ws Hin. apply list_elem_of_In in Hin.
    apply filter_In in Hin. tauto.
Qed.

(** X23.  [send_log] delivers the message to the subscribers of
    the job whose socket accepts it, in the order of subscription, and
    afterwards exactly those are subscribed to the job, the entry of the
    job being deleted when none is left; the subscribers of other jobs
    are not touched. *)
Theorem send_log_prunes_failed (raises : WebSocket -> bool) (job_id : Z)
    (conns : connections) (subscribers : list WebSocket) :
  conns !! job_id = Some subscribers ->
  subscribers <> [] ->
  let kept := List.filter (fun ws => negb (raises ws)) subscribers in
  let out := send_log raises job_id conns in
  out.1 = kept
  /\ out.2 !! job_id = match kept with [] => None | _ => Some kept end
  /\ forall other, other <> job_id -> out.2 !! other = conns !! other.
Proof.
  intros Hrow Hne. cbv zeta. unfold send_log. rewrite Hrow. cbn [fst snd].
  assert (Hc : conns !! job_id <> Some []) by congruence.
  destruct (disconnect_all (List.filter raises subscribers) job_id conns Hc)
    as (H1 & H2 & H3).
  cbv zeta in H1, H2, H3. rewrite Hrow in H1.
  change (default [] (Some subscribers)) with subscribers in H1.
  rewrite remove_failed in H1.
  split; [reflexivity|]. split; [|exact H3].
  destruct (fold_left _ _ conns !! job_id) as [l|] eqn:E.
  - change (default [] (Some l)) with l in H1. subst l.
    destruct (List.filter (fun ws => negb (raises ws)) subscribers) eqn:F;
      [|reflexivity].
    congruence.
  - cbn in H1. now rewrite <- H1.
Qed.

Lemma send_log_prunes_failed_witness :
  two_subscribers !! 1%Z = Some [10%nat; 11%nat]
  /\ [10%nat; 11%nat] <> []
  /\ let kept := List.filter (fun ws => negb (first_is_gone ws))
                             [10%nat; 11%nat] in
     let out := send_log first_is_gone 1 two_subscribers in
     out.1 = kept
     /\ out.2 !! 1%Z = match kept with [] => None | _ => Some kept end
     /\ forall other, other <> 1%Z ->
                      out.2 !! other = two_subscribers !! other.
Proof.
  assert (H1 : two_subscribers !! 1%Z = Some [10%nat; 11%nat])
    by apply lookup_singleton_eq.
  assert (H2 : [10%nat; 11%nat] <> []) by discriminate.
  split; [exact H1|]. split; [exact H2|].
  exact (send_log_prunes_failed first_is_gone 1 two_subscribers _ H1 H2).
Defined.

Lemma remove_appended (ws : WebSocket) (l : list WebSocket) :
  ws ∉ l -> list_remove ws (l ++ [ws]) = l.
Proof.
  induction l as [|x l IH]; intros Hn; cbn [app list_remove].
  - now rewrite Nat.eqb_refl.
  - apply not_elem_of_cons in Hn as [Hx Hn].
    assert (E : (x =? ws)%nat = false) by (apply Nat.eqb_neq; congruence).
    rewrite E. f_equal. now apply IH.
Qed.

(** X24.  Registering a socket that is not yet subscribed to
    the job and removing it again, as the handler of the log stream does
    around its work, leaves the connections exactly as they were. *)
Theorem connect_then_disconnect (ws : WebSocket) (job_id : Z)
    (conns : connections) :
  no_empty_list conns ->
  ws ∉ default [] (conns !! job_id) ->
  disconnect ws job_id (connect ws job_id conns) = conns.
Proof.
  intros Hwf Hfresh. unfold disconnect, connect.
  rewrite lookup_insert_eq.
  rewrite bool_decide_eq_true_2
    by (apply elem_of_app; right; apply list_elem_of_here).
  rewrite (remove_appended _ _ Hfresh).
  destruct (conns !! job_id) as [l|] eqn:E.
  - change (default [] (Some l)) with l.
    destruct l as [|x l]; [now apply Hwf in E|].
    rewrite insert_insert_eq. now apply insert_id.
  - cbn. now apply delete_insert_id.
Qed.

Lemma connect_then_disconnect_witness :
  no_empty_list two_subscribers
  /\ (12%nat ∉ default [] (two_subscribers !! 1%Z))
  /\ disconnect 12%nat 1 (connect 12%nat 1 two_subscribers) = two_subscribers.
Proof.
  assert (H1 : no_empty_list two_subscribers).
  { intros j l Hj. unfold two_subscribers in Hj.
    apply lookup_singleton_Some in Hj as [_ <-]. discriminate. }
  assert (H2 : 12%nat ∉ default [] (two_subscribers !! 1%Z)).
  { intros Hin. apply list_elem_of_In in Hin. cbn in Hin.
    destruct Hin as [H|[H|[]]]; discriminate. }
  split; [exact H1|]. split; [exact H2|].
  exact (connect_then_disconnect 12%nat 1 two_subscribers H1 H2).
Defined.

(** X25.  The connection manager never keeps an empty list of
    subscribers: if no job is mapped to an empty list, none is after a
    [connect], a [disconnect] or a [send_log]. *)
Theorem manager_keeps_lists_nonempty (conns : connections) :
  no_empty_list conns ->
  (forall ws job_id, no_empty_list (connect ws job_id conns))
  /\ (forall ws job_id, no_empty_list (disconnect ws job_id conns))
  /\ (forall raises job_id, no_empty_list (send_log raises job_id conns).2).
Proof.
  intros Hwf.
  assert (Hstep : forall job_id (conns' : connections),
            conns' !! job_id <> Some [] ->
            (forall other, other <> job_id -> conns' !! other = conns !! other) ->
            no_empty_list conns').
  { intros job_id conns' Hj Ho j l Hl ->.
    destruct (decide (j = job_id)) as [->|Hne]; [contradiction|].
    rewrite (Ho _ Hne) in Hl. now apply Hwf in Hl. }
  assert (Hc : forall job_id, conns !! job_id <> Some []).
  { intros job_id E. now apply Hwf in E. }
  split; [|split].
  - intros ws job_id. apply (Hstep job_id).
    + unfold connect.
      rewrite lookup_insert_eq. intros [= E].
      now destruct (default [] (conns !! job_id)).
    + intros other Ho. unfold connect.
      now rewrite lookup_insert_ne by congruence.
  - intros ws job_id.
    destruct (disconnect_entry ws job_id conns (Hc job_id)) as (_ & H2 & H3).
    now apply (Hstep job_id).
  - intros raises job_id. unfold send_log.
    destruct (conns !! job_id) as [l|] eqn:E; [|exact Hwf].
    cbn [snd].
    destruct (disconnect_all (List.filter raises l) job_id conns (Hc job_id))
      as (_ & H2 & H3).
    now apply (Hstep job_id).
Qed.

Lemma manager_keeps_lists_nonempty_witness :
  no_empty_list two_subscribers
  /\ (forall ws job_id, no_empty_list (connect ws job_id two_subscribers))
  /\ (forall ws job_id, no_empty_list (disconnect ws job_id two_subscribers))
  /\ (forall raises job_id,
        no_empty_list (send_log raises job_id two_subscribers).2).
Proof.
  assert (H1 : no_empty_list two_subscribers).
  { intros j l Hj. unfold two_subscribers in Hj.
    apply lookup_singleton_Some in Hj as [_ <-]. discriminate. }
  split; [exact H1|].
  exact (manager_keeps_lists_nonempty two_subscribers H1).
Defined.

(** *** The handler *)

(** The messages of a stream end well: none of them says "complete", or
    the last one alone does and the handler has returned. *)
Lemma ends_well_split (messages : list ws_message) (closed : bool) :
  Forall (fun m => is_complete m = false) messages
  \/ (closed = true
      /\ exists before last,
           messages = before ++ [last]
           /\ Forall (fun m => is_complete m = false) before) ->
  forall before m after,
    messages = before ++ m :: after -> is_complete m = true ->
    after = [] /\ closed = true.
Proof.
  intros [Hall|(-> & pre & c & -> & Hpre)] before m after E Hm.
  - subst messages. apply Forall_app in Hall as [_ Hall].
    apply Forall_cons in Hall as [Hx _]. congruence.
  - destruct after as [|a0 after0]; [auto|]. exfalso.
    destruct (@exists_last _ (a0 :: after0)) as (after' & z & Ez);
      [discriminate|].
    rewrite Ez, app_comm_cons, app_assoc in E.
    apply app_inj_tail in E as [-> _].
    apply Forall_app in Hpre as [_ Hpre].
    apply Forall_cons in Hpre as [Hx _]. congruence.
Qed.

Lemma replay_not_complete (log_file : option string) (job_id : Z)
    (start : nat) :
  Forall (fun m => is_complete m = false)
         (send_existing_logs log_file job_id start).
Proof.
  unfold send_existing_logs. destruct log_file as [text|]; [|constructor].
  apply Forall_forall. intros m Hm.
  apply list_elem_of_omap in Hm as ([i line] & _ & Hr).
  unfold replay_line in Hr. destruct (str_truthy _); [|discriminate].
  now injection Hr as <-.
Qed.

Lemma live_not_complete (job_id : Z) (lines : list string) :
  Forall (fun m => is_complete m = false)
         (omap (fun line => if str_truthy (strip line)
                            then Some (Log job_id "stdout" line None)
                            else None) lines).
Proof.
  apply Forall_forall. intros m Hm.
  apply list_elem_of_omap in Hm as (line & _ & Hr).
  destruct (str_truthy _); [|discriminate]. now injection Hr as <-.
Qed.

Lemma ends_well_prepend (sent messages : list ws_message) (closed : bool) :
  Forall (fun m => is_complete m = false) sent ->
  Forall (fun m => is_complete m = false) messages
  \/ (closed = true
      /\ exists before last,
           messages = before ++ [last]
           /\ Forall (fun m => is_complete m = false) before) ->
  Forall (fun m => is_complete m = false) (sent ++ messages)
  \/ (closed = true
      /\ exists before last,
           sent ++ messages = before ++ [last]
           /\ Forall (fun m => is_complete m = false) before).
Proof.
  intros Hs [Hall|(Hc & pre & c & -> & Hpre)].
  - left. now apply Forall_app.
  - right. split; [exact Hc|]. exists (sent ++ pre), c.
    split; [now rewrite app_assoc|now apply Forall_app].
Qed.

Lemma stream_loop_ends_well (log_file : option string) (job_id : Z)
    (turns : list live_turn) (last_position : nat) :
  let out := stream_loop log_file job_id turns last_position in
  Forall (fun m => is_complete m = false) out.1
  \/ (out.2 = true
      /\ exists before last,
           out.1 = before ++ [last]
           /\ Forall (fun m => is_complete m = false) before).
Proof.
  cbv zeta. revert last_position.
  induction turns as [|t turns IH]; intros pos; [left; constructor|].
  cbn [stream_loop].
  assert (Hcont : forall sent,
            Forall (fun m => is_complete m = false) sent ->
            let out :=
              match row t with
              | None => (sent, true)
              | Some job =>
                  if is_terminal (status job) then
                    (sent ++ send_existing_logs log_file job_id pos
                          ++ [Complete job_id (value (status job))
                                (Some (exit_code job, duration_seconds job))],
                     true)
                  else
                    match live_logs t with
                    | Some logs =>
                        if str_truthy logs then
                          let lines := split_lines logs in
                          let new :=
                            omap (fun line =>
                                    if str_truthy (strip line)
                                    then Some (Log job_id "stdout" line None)
                                    else None)
                                 (drop pos lines) in
                          let '(later, closed) :=
                            stream_loop log_file job_id turns (length lines) in
                          (sent ++ new ++ later, closed)
                        else
                          let '(later, closed) :=
                            stream_loop log_file job_id turns pos in
                          (sent ++ later, closed)
                    | None =>
                        let '(later, closed) :=
                          stream_loop log_file job_id turns pos in
                        (sent ++ later, closed)
                    end
              end in
            Forall (fun m => is_complete m = false) out.1
            \/ (out.2 = true
                /\ exists before last,
                     out.1 = before ++ [last]
                     /\ Forall (fun m => is_complete m = false) before)).
  { intros sent Hsent. cbv zeta.
    destruct (row t) as [job|]; [|left; exact Hsent].
    destruct (is_terminal (status job)).
    { right. split; [reflexivity|]. cbn [fst].
      eexists (sent ++ send_existing_logs log_file job_id pos), _.
      split; [now rewrite app_assoc|].
      apply Forall_app. split; [exact Hsent|apply replay_not_complete]. }
    destruct (live_logs t) as [logs|].
    - destruct (str_truthy logs).
      + specialize (IH (length (split_lines logs))).
        destruct (stream_loop log_file job_id turns _) as [later closed].
        cbn [fst snd] in *. apply ends_well_prepend; [exact Hsent|].
        apply ends_well_prepend; [apply live_not_complete|exact IH].
      + specialize (IH pos).
        destruct (stream_loop log_file job_id turns pos) as [later closed].
        cbn [fst snd] in *. now apply ends_well_prepend.
    - specialize (IH pos).
      destruct (stream_loop log_file job_id turns pos) as [later closed].
      cbn [fst snd] in *. now apply ends_well_prepend. }
  destruct (client t).
  - apply Hcont. constructor.
  - apply Hcont. repeat constructor.
  - apply Hcont. constructor.
  - apply Hcont. constructor.
  - left. repeat constructor.
  - left. constructor.
Qed.

(** X26.  Whatever the client and the job do while a subscriber is
    served, the stream starts with the connection message and a complete
    message, if one is sent, is the last message of the stream and the
    handler returns after it: at most one complete message is sent and
    nothing follows it. *)
Theorem complete_is_last (token_user : option Z) (table : gmap Z Job)
    (job_id : Z) (log_file : option string) (turns : list live_turn)
    (messages : list ws_message) (returned : bool) :
  websocket_job_logs token_user table job_id log_file turns
  = Sent messages returned ->
  (exists initial_status rest,
     messages = Connected job_id initial_status :: rest)
  /\ forall before m after,
       messages = before ++ m :: after -> is_complete m = true ->
       after = [] /\ returned = true.
Proof.
  unfold websocket_job_logs.
  destruct token_user as [uid|]; [|discriminate].
  destruct (uid =? 0)%Z; [discriminate|].
  destruct (table !! job_id) as [job|]; [|discriminate].
  destruct (negb _); [discriminate|].
  destruct (is_terminal (status job)).
  - intros [= <- <-]. split; [eauto|].
    apply ends_well_split. right. split; [reflexivity|].
    exists (Connected job_id (value (status job))
              :: send_existing_logs log_file job_id 0), (Complete job_id (value (status job)) None).
    split; [reflexivity|].
    constructor; [reflexivity|apply replay_not_complete].
  - pose proof (stream_loop_ends_well log_file job_id turns 0) as H.
    cbv zeta in H.
    destruct (stream_loop log_file job_id turns 0) as [sent closed].
    cbn [fst snd] in H. intros [= <- <-]. split; [eauto|].
    apply ends_well_split.
    apply (ends_well_prepend [Connected job_id (value (status job))]);
      [repeat constructor|exact H].
Qed.

Lemma complete_is_last_witness :
  websocket_job_logs (Some 7%Z) {[1%Z := pending_job]} 1
                     (Some three_line_log) watched_turns
  = Sent watched_messages true
  /\ (exists initial_status rest,
        watched_messages = Connected 1 initial_status :: rest)
  /\ forall before m after,
       watched_messages = before ++ m :: after -> is_complete m = true ->
       after = [] /\ true = true.
Proof.
  assert (H : websocket_job_logs (Some 7%Z) {[1%Z := pending_job]} 1
                (Some three_line_log) watched_turns
              = Sent watched_messages true) by (vm_compute; reflexivity).
  split; [exact H|].
  exact (complete_is_last (Some 7%Z) {[1%Z := pending_job]} 1
           (Some three_line_log) watched_turns watched_messages true H).
Defined.

(** X27.  The handler sends messages only to a caller whose token
    names the owner of the job.  Without a valid token the socket is
    closed with code 4001; with a valid token, for a job that does not
    exist or belongs to someone else (an admin included), it is closed
    with code 4004; nothing is sent in either case.  The owner gets the
    connection message first.  Each outcome occurs in these cases
    only. *)
Theorem only_owner_is_served (token_user : option Z) (table : gmap Z Job)
    (job_id : Z) (log_file : option string) (turns : list live_turn) :
  let outcome := websocket_job_logs token_user table job_id log_file turns in
  (token_user = None \/ token_user = Some 0%Z ->
   outcome = Closed 4001 "Invalid or expired token")
  /\ (forall uid,
        token_user = Some uid -> uid <> 0%Z ->
        (forall job, table !! job_id = Some job -> user_id job <> uid) ->
        outcome = Closed 4004 "Job not found")
  /\ (forall uid job,
        token_user = Some uid -> uid <> 0%Z ->
        table !! job_id = Some job -> user_id job = uid ->
        exists messages returned,
          outcome
          = Sent (Connected job_id (value (status job)) :: messages)
                 returned)
  /\ match outcome with
     | Sent messages _ =>
         exists uid job,
           token_user = Some uid /\ uid <> 0%Z
           /\ table !! job_id = Some job /\ user_id job = uid
     | Closed code _ =>
         (code = 4001%Z /\ (token_user = None \/ token_user = Some 0%Z))
         \/ (code = 4004%Z
             /\ exists uid,
                  token_user = Some uid /\ uid <> 0%Z
                  /\ forall job, table !! job_id = Some job ->
                                 user_id job <> uid)
     end.
Proof.
  cbv zeta. unfold websocket_job_logs.
  split; [intros [->| ->]; reflexivity|].
  split.
  { intros uid -> Hnz Hother.
    destruct (Z.eqb_spec uid 0) as [E|_]; [contradiction|].
    destruct (table !! job_id) as [job|]; [|reflexivity].
    destruct (Z.eqb_spec (user_id job) uid) as [Hu|_]; [|reflexivity].
    destruct (Hother job eq_refl Hu). }
  split.
  { intros uid job -> Hnz -> Hu.
    destruct (Z.eqb_spec uid 0) as [E|_]; [contradiction|].
    destruct (Z.eqb_spec (user_id job) uid) as [_|Hne]; [|contradiction].
    cbn [negb].
    destruct (is_terminal (status job)); [eauto|].
    destruct (stream_loop _ _ _ _). eauto. }
  destruct token_user as [uid|]; [|left; auto].
  destruct (Z.eqb_spec uid 0) as [->|Hnz]; [left; auto|].
  destruct (table !! job_id) as [job|] eqn:Hrow.
  - destruct (Z.eqb_spec (user_id job) uid) as [Hu|Hu]; cbn [negb].
    + destruct (is_terminal (status job)); [eauto 6|].
      destruct (stream_loop _ _ _ _). eauto 6.
    + right. split; [reflexivity|]. exists uid.
      split; [reflexivity|]. split; [exact Hnz|].
      intros j [= <-]. exact Hu.
  - right. split; [reflexivity|]. exists uid.
    split; [reflexivity|]. split; [exact Hnz|]. discriminate.
Qed.

Lemma only_owner_is_served_witness :
  9%Z <> 0%Z
  /\ (forall job, ({[1%Z := pending_job]} : gmap Z Job) !! 1%Z = Some job ->
                  user_id job <> 9%Z)
  /\ websocket_job_logs (Some 9%Z) {[1%Z := pending_job]} 1
                        (Some three_line_log) watched_turns
     = Closed 4004 "Job not found".
Proof.
  assert (Hnz : 9%Z <> 0%Z) by discriminate.
  assert (Hother : forall job,
             ({[1%Z := pending_job]} : gmap Z Job) !! 1%Z = Some job ->
             user_id job <> 9%Z).
  { intros job Hj. rewrite lookup_singleton_eq in Hj.
    injection Hj as <-. discriminate. }
  split; [exact Hnz|]. split; [exact Hother|].
  exact (proj1 (proj2 (only_owner_is_served (Some 9%Z) {[1%Z := pending_job]}
                         1 (Some three_line_log) watched_turns))
           9%Z eq_refl Hnz Hother).
Defined.

(** X28.  Replaying the stored log from position [start] sends
    one message for each line of the file at an index from [start] on
    that is not blank, with the line's text stripped on the right and
    its number in the file, in the order of the file, and nothing else:
    no line before [start] is sent again, and nothing is sent when the
    file has no line at or after [start]. *)
Theorem replay_resumes_at_position (text : string) (job_id : Z) (start : nat) :
  let replay := send_existing_logs (Some text) job_id start in
  omap Spec.log_text replay
  = map rstrip (List.filter Spec.nonblank (drop start (readlines text)))
  /\ (forall i line,
        (start <= i)%nat -> readlines text !! i = Some line ->
        Spec.nonblank line = true ->
        In (Log job_id "stdout" (rstrip line) (Some (S i))) replay)
  /\ (forall m,
        In m replay ->
        exists i line,
          (start <= i)%nat /\ readlines text !! i = Some line
          /\ Spec.nonblank line = true
          /\ m = Log job_id "stdout" (rstrip line) (Some (S i)))
  /\ ((length (readlines text) <= start)%nat -> replay = []).
Proof.
  cbv zeta. unfold send_existing_logs.
  destruct (ReplayClaims.replay_lines job_id (drop start (readlines text))
              start) as (_ & H2 & H3).
  cbv zeta in H2, H3. split; [exact H2|]. split; [|split].
  - intros i line Hi Hl Hnb.
    specialize (H3 (i - start)%nat line).
    rewrite lookup_drop in H3.
    replace (start + (i - start))%nat with i in H3 by lia.
    replace (i + 1)%nat with (S i) in H3 by lia.
    now apply H3.
  - intros m Hm. apply list_elem_of_In, list_elem_of_omap in Hm
      as ([k line] & Hin & Hr).
    apply elem_of_lookup_imap in Hin as (i & y & [= -> ->] & Hy).
    rewrite lookup_drop in Hy. unfold replay_line in Hr.
    destruct (str_truthy (strip y)) eqn:Hnb; [|discriminate].
    injection Hr as <-. exists (start + i)%nat, y.
    split; [lia|]. split; [exact Hy|]. split; [exact Hnb|].
    do 2 f_equal. lia.
  - intros Hlen. now rewrite drop_ge.
Qed.

End StreamProperties.
